(** * WeFlow report engine: annual and dual report services

    A shallow embedding of the report-generation pipeline of
    [src/types/sns.ts] (class [AnnualReportService]) and
    [electron/services/dualReportService.ts] (class [DualReportService]):
    the content decoder, the per-session accumulators of the full scan
    (streak, heat map, conversation starts and response samples, phrases),
    the choice between the bulk "extras" answer and the full scan, the
    final phrase ranking, the rankings of the contacts ([coreFriends],
    [monthlyTopFriends]) and, of the dual report, [getFirstMessages] and
    [pickTop].

    Conventions of the embedding:
    - a JavaScript string is the list of its UTF-16 code units;
    - a JavaScript [Map] is an association list in insertion order, since the
      code iterates and sorts map entries;
    - integers that the code keeps in JavaScript numbers are [Z]; every
      quantity handled here stays far below 2^53, outside of time stamps
      that [Date] rejects anyway;
    - an exception is [None] in the [option] monad; the [try]/[catch] blocks
      of the source are written out where they occur;
    - the services of the host (time zone, clock, UTF-8 decoding, base64
      decoding, the zstd library, Unicode lower-casing) are the fields of a
      [Platform] record, and the message store ([wcdbService]) is a [Store]
      record of answers;
    - the progress messages, which depend on the wall clock, and the
      yielding to the event loop are left out. *)

From Stdlib Require Import ZArith NArith List Bool Lia.
From Stdlib.Strings Require Import String Ascii Byte.
From Stdlib Require Import Permutation Sorted.
From Stdlib Require DecimalString.
Import ListNotations.

Local Open Scope Z_scope.

(** ** JavaScript values used by the services *)

Module Js.

Definition code_unit := N.
Definition jsstring := list N.

Definition of_ascii (s : string) : jsstring :=
  map N_of_ascii (list_ascii_of_string s).

Fixpoint eqb (a b : jsstring) : bool :=
  match a, b with
  | [], [] => true
  | x :: a', y :: b' => N.eqb x y && eqb a' b'
  | _, _ => false
  end.

Definition len (s : jsstring) : Z := Z.of_nat (List.length s).

(** [s.startsWith(p)] *)
Fixpoint startsWith (s p : jsstring) : bool :=
  match p, s with
  | [], _ => true
  | x :: p', y :: s' => N.eqb x y && startsWith s' p'
  | _ :: _, [] => false
  end.

(** [s.includes(p)] *)
Fixpoint includes (s p : jsstring) : bool :=
  startsWith s p ||
  match s with
  | [] => false
  | _ :: s' => includes s' p
  end.

(** White space and line terminators, the class of [String.prototype.trim]
    and of the regular expression atom [\s]. *)
Definition is_space (c : N) : bool :=
  ((9 <=? c) && (c <=? 13) || (c =? 32) || (c =? 160) || (c =? 5760)
   || (8192 <=? c) && (c <=? 8202) || (c =? 8232) || (c =? 8233)
   || (c =? 8239) || (c =? 8287) || (c =? 12288) || (c =? 65279))%N.

Fixpoint trimStart (s : jsstring) : jsstring :=
  match s with
  | c :: s' => if is_space c then trimStart s' else s
  | [] => []
  end.

Definition trimEnd (s : jsstring) : jsstring := rev (trimStart (rev s)).

Definition trim (s : jsstring) : jsstring := trimEnd (trimStart s).

(** ASCII lower-casing of one code unit. *)
Definition ascii_lower (c : N) : N :=
  if ((65 <=? c) && (c <=? 90))%N then (c + 32)%N else c.

Definition is_digit (c : N) : bool := ((48 <=? c) && (c <=? 57))%N.

Definition is_hex_digit (c : N) : bool :=
  (is_digit c || (97 <=? c) && (c <=? 102) || (65 <=? c) && (c <=? 70))%N.

Definition is_alpha (c : N) : bool :=
  ((97 <=? c) && (c <=? 122) || (65 <=? c) && (c <=? 90))%N.

(** The longest prefix of decimal digits, as digit values. *)
Fixpoint digits_prefix (s : jsstring) : list Z :=
  match s with
  | c :: s' => if is_digit c then (Z.of_N c - 48) :: digits_prefix s' else []
  | [] => []
  end.

Definition digits_value (ds : list Z) : Z :=
  fold_left (fun acc d => 10 * acc + d) ds 0.

(** [parseInt(s, 10)]: leading white space is skipped, one sign is read,
    then the longest run of digits; [None] is [NaN]. *)
Definition parseInt10 (s : jsstring) : option Z :=
  let s1 := trimStart s in
  let '(neg, s2) :=
    match s1 with
    | 45%N :: r => (true, r)
    | 43%N :: r => (false, r)
    | _ => (false, s1)
    end in
  match digits_prefix s2 with
  | [] => None
  | ds => Some (if neg then - digits_value ds else digits_value ds)
  end.

(** [String(n)] for an integer. *)
Definition string_of_Z (z : Z) : jsstring :=
  of_ascii (DecimalString.NilZero.string_of_int (Z.to_int z)).

(** [s.padStart(2, '0')] *)
Definition padStart2 (s : jsstring) : jsstring :=
  match s with
  | [] => [48%N; 48%N]
  | [c] => [48%N; c]
  | _ => s
  end.

(** A field of a store row or of a parameter object: absent
    ([undefined]/[null]) or a string.  A numeric field behaves in every
    use made of it here as its decimal rendering. *)
Definition field := option jsstring.

(** [f || d] *)
Definition or_else (f : field) (d : jsstring) : jsstring :=
  match f with
  | Some (c :: r) => c :: r
  | _ => d
  end.

(** [f ?? g] *)
Definition nullish (f g : field) : field :=
  match f with
  | Some s => Some s
  | None => g
  end.

(** [!f] *)
Definition falsy (f : field) : bool :=
  match f with
  | Some (_ :: _) => false
  | _ => true
  end.

End Js.

Abbreviation jsstring := Js.jsstring.

(** ** Insertion-ordered maps *)

Module JsMap.

Section Map.
Context {V : Type}.

Definition t := list (jsstring * V).

Fixpoint get (m : t) (k : jsstring) : option V :=
  match m with
  | [] => None
  | (k', v) :: m' => if Js.eqb k' k then Some v else get m' k
  end.

Definition has (m : t) (k : jsstring) : bool :=
  match get m k with Some _ => true | None => false end.

(** [m.set(k, v)]: an existing key keeps its position. *)
Fixpoint set (m : t) (k : jsstring) (v : V) : t :=
  match m with
  | [] => [(k, v)]
  | (k', v') :: m' =>
      if Js.eqb k' k then (k', v) :: m' else (k', v') :: set m' k v
  end.

Definition keys (m : t) : list jsstring := map fst m.
Definition values (m : t) : list V := map snd m.

End Map.

Arguments t : clear implicits.

End JsMap.

(** ** The host platform

    What Node.js and the libraries loaded by the services provide.  The time
    zone is a fixed offset from UTC. *)

Record Platform := {
  (** seconds east of UTC of the local time zone *)
  tzOffset : Z;
  (** [buffer.toString('utf-8')] *)
  utf8Decode : list byte -> jsstring;
  (** [Buffer.from(s, 'base64')] *)
  base64Decode : jsstring -> list byte;
  (** [fzstd.decompress(data)]; [None] when it throws *)
  zstdDecompress : list byte -> option (list byte);
  (** [s.toLowerCase()] *)
  toLowerCase : jsstring -> jsstring;
  (** [new Date().getFullYear()] *)
  currentYear : Z
}.

(** ** Exceptions *)

Definition try_catch {A : Type} (body : option A) (handler : option A) : option A :=
  match body with
  | Some a => Some a
  | None => handler
  end.

Definition bind {A B : Type} (c : option A) (k : A -> option B) : option B :=
  match c with
  | Some a => k a
  | None => None
  end.

Notation "x <- c ;; k" := (bind c (fun x => k))
  (at level 61, c at next level, right associativity).

(** ** Dates in local time *)

Module Date.

(** A [Date] object: its time value in milliseconds, [None] for an
    invalid date. *)
Definition t := option Z.

Definition msPerDay : Z := 86400000.
Definition maxTime : Z := 8640000000000000.

Definition timeClip (ms : Z) : t :=
  if Z.abs ms <=? maxTime then Some ms else None.

(** Days since 1970-01-01 to (year, month 1..12, day 1..31) in the
    proleptic Gregorian calendar. *)
Definition civil_of_days (z0 : Z) : Z * Z * Z :=
  let z := z0 + 719468 in
  let era := z / 146097 in
  let doe := z - era * 146097 in
  let yoe := (doe - doe / 1460 + doe / 36524 - doe / 146096) / 365 in
  let y := yoe + era * 400 in
  let doy := doe - (365 * yoe + yoe / 4 - yoe / 100) in
  let mp := (5 * doy + 2) / 153 in
  let d := doy - (153 * mp + 2) / 5 + 1 in
  let m := if mp <? 10 then mp + 3 else mp - 9 in
  (if m <=? 2 then y + 1 else y, m, d).

Definition days_of_civil (y0 m d : Z) : Z :=
  let y := if m <=? 2 then y0 - 1 else y0 in
  let era := y / 400 in
  let yoe := y - era * 400 in
  let doy := (153 * (if 2 <? m then m - 3 else m + 9) + 2) / 5 + d - 1 in
  let doe := yoe * 365 + yoe / 4 - yoe / 100 + doy in
  era * 146097 + doe - 719468.

Section Local.
Context (P : Platform).

Definition localMs (ms : Z) : Z := ms + tzOffset P * 1000.
Definition localDay (ms : Z) : Z := localMs ms / msPerDay.

(** The getters on a valid time value. *)
Definition getHours (ms : Z) : Z := (localMs ms mod msPerDay) / 3600000.
(** 0 is Sunday; 1970-01-01 was a Thursday. *)
Definition getDay (ms : Z) : Z := (localDay ms + 4) mod 7.
Definition getFullYear (ms : Z) : Z := fst (fst (civil_of_days (localDay ms))).
(** 0 is January *)
Definition getMonth (ms : Z) : Z := snd (fst (civil_of_days (localDay ms))) - 1.
Definition getDate (ms : Z) : Z := snd (civil_of_days (localDay ms)).

(** [new Date(y, m, d)] for a month in 0..11 and a day of that month:
    local midnight of that day.  A year in 0..99 means 1900 + year. *)
Definition ofYmd (y m d : Z) : t :=
  let yr := if (0 <=? y) && (y <=? 99) then 1900 + y else y in
  timeClip (days_of_civil yr (m + 1) d * msPerDay - tzOffset P * 1000).

(** [new Date(dt.getFullYear(), dt.getMonth(), dt.getDate())] *)
Definition dayDateOf (dt : t) : t :=
  match dt with
  | Some ms => ofYmd (getFullYear ms) (getMonth ms) (getDate ms)
  | None => None
  end.

(** [`${y}-${mm}-${dd}`] with two-digit month and day *)
Definition ymdKey (ms : Z) : jsstring :=
  Js.string_of_Z (getFullYear ms) ++ [45%N]
  ++ Js.padStart2 (Js.string_of_Z (getMonth ms + 1)) ++ [45%N]
  ++ Js.padStart2 (Js.string_of_Z (getDate ms)).

End Local.

(** [new Date(createTime * 1000)] *)
Definition ofSeconds (s : Z) : t := timeClip (s * 1000).

(** [Math.floor(d.getTime() / 86400000)]; [None] is [NaN]. *)
Definition dayIndexOf (d : t) : option Z :=
  match d with
  | Some ms => Some (ms / msPerDay)
  | None => None
  end.

End Date.

(** ** Content decoder

    [decodeMessageContent], [decodeMaybeCompressed], [decodeBinaryContent],
    [looksLikeHex] and [looksLikeBase64]; the two services carry identical
    copies of these five methods. *)

Module Decoder.

(** A raw column value, of TypeScript type [any]. *)
Inductive raw_value :=
| RawAbsent                    (** [undefined], [null] and the other falsy non-strings *)
| RawString (s : jsstring)
| RawObject.                   (** a truthy non-string, such as a [Buffer] *)

Definition replacementChar : N := 65533.

Definition is_base64_char (c : N) : bool :=
  (Js.is_alpha c || Js.is_digit c || (c =? 43) || (c =? 47) || (c =? 61))%N.

(** [/^[0-9a-fA-F]+$/.test(s)] and [/^[A-Za-z0-9+/=]+$/.test(s)] *)
Definition all_of (p : N -> bool) (s : jsstring) : bool :=
  match s with
  | [] => false
  | _ => forallb p s
  end.

Definition looksLikeHex (s : jsstring) : bool :=
  if negb (Js.len s mod 2 =? 0) then false
  else all_of Js.is_hex_digit s.

Definition looksLikeBase64 (s : jsstring) : bool :=
  if negb (Js.len s mod 4 =? 0) then false
  else all_of is_base64_char s.

Definition hex_value (c : N) : option N :=
  if Js.is_digit c then Some (c - 48)%N
  else if ((97 <=? c) && (c <=? 102))%N then Some (c - 87)%N
  else if ((65 <=? c) && (c <=? 70))%N then Some (c - 55)%N
  else None.

Definition byte_of_N (n : N) : byte :=
  match Byte.of_N n with
  | Some b => b
  | None => x00
  end.

(** [Buffer.from(s, 'hex')]: two digits per byte, stopping at the first
    pair that is not hexadecimal. *)
Fixpoint hexDecode (s : jsstring) : list byte :=
  match s with
  | a :: b :: s' =>
      match hex_value a, hex_value b with
      | Some h, Some l => byte_of_N (16 * h + l) :: hexDecode s'
      | _, _ => []
      end
  | _ => []
  end.

(** [data.toString('latin1')] *)
Definition latin1Decode (data : list byte) : jsstring := map Byte.to_N data.

(** [data.readUInt32LE(0)] on a buffer of at least four bytes *)
Definition readUInt32LE (data : list byte) : N :=
  match data with
  | b0 :: b1 :: b2 :: b3 :: _ =>
      (Byte.to_N b0 + 256 * Byte.to_N b1 + 65536 * Byte.to_N b2
       + 16777216 * Byte.to_N b3)%N
  | _ => 0%N
  end.

Definition zstdMagic : N := 0xFD2FB528.

Definition isZstdFrame (data : list byte) : bool :=
  (4 <=? Z.of_nat (List.length data)) && (readUInt32LE data =? zstdMagic)%N.

(** [(decoded.match(/\uFFFD/g) || []).length] *)
Definition replacementCount (decoded : jsstring) : Z :=
  Z.of_nat (List.length (filter (N.eqb replacementChar) decoded)).

(** [decoded.replace(/\uFFFD/g, '')] *)
Definition stripReplacement (decoded : jsstring) : jsstring :=
  filter (fun c => negb (N.eqb replacementChar c)) decoded.

(** [replacementCount < decoded.length * 0.2].  The product is computed in
    binary floating point; for a length that is a multiple of five it is
    exactly a fifth of the length and otherwise it is not an integer, so
    the comparison with the integer count is the one of exact
    arithmetic. *)
Definition fewReplacements (decoded : jsstring) : bool :=
  5 * replacementCount decoded <? Js.len decoded.

Section WithPlatform.
Context (P : Platform).

(** The body of the [try] block of [decodeBinaryContent]. *)
Definition decodeBinaryBody (data : list byte) : option jsstring :=
  if isZstdFrame data then
    decompressed <- zstdDecompress P data ;;
    Some (utf8Decode P decompressed)
  else
    let decoded := utf8Decode P data in
    if fewReplacements decoded then Some (stripReplacement decoded)
    else Some (latin1Decode data).

Definition decodeBinaryContent (data : list byte) : option jsstring :=
  match data with
  | [] => Some []
  | _ => try_catch (decodeBinaryBody data) (Some [])
  end.

Definition decodeMaybeCompressed (raw : raw_value) : option jsstring :=
  match raw with
  | RawAbsent => Some []
  | RawObject => Some []
  | RawString [] => Some []
  | RawString s =>
      let fromHex :=
        if looksLikeHex s then
          match hexDecode s with
          | [] => None
          | bytes => Some bytes
          end
        else None in
      match fromHex with
      | Some bytes => decodeBinaryContent bytes
      | None =>
          if looksLikeBase64 s then
            try_catch (decodeBinaryContent (base64Decode P s)) (Some s)
          else Some s
      end
  end.

Definition decodeMessageContent (messageContent compressContent : raw_value)
  : option jsstring :=
  content <- decodeMaybeCompressed compressContent ;;
  match content with
  | [] => decodeMaybeCompressed messageContent
  | _ => Some content
  end.

(** Which [return] of [decodeMaybeCompressed] produces the result. *)
Inductive path := ViaEmpty | ViaHex | ViaBase64 | ViaPlain.

Definition decodePath (raw : raw_value) : path :=
  match raw with
  | RawString (c :: r) =>
      let s := c :: r in
      if looksLikeHex s && negb (Nat.eqb (List.length (hexDecode s)) 0)
      then ViaHex
      else if looksLikeBase64 s then ViaBase64
      else ViaPlain
  | _ => ViaEmpty
  end.

(** The buffer that [decodeMaybeCompressed] hands to
    [decodeBinaryContent], when it does. *)
Definition bufferOf (raw : raw_value) : option (list byte) :=
  match decodePath raw, raw with
  | ViaHex, RawString s => Some (hexDecode s)
  | ViaBase64, RawString s => Some (base64Decode P s)
  | _, _ => None
  end.

End WithPlatform.

End Decoder.

(** ** The message store

    The answers of [wcdbService] during one report generation.  A cursor is
    the list of the answers of the successive [fetchMessageBatch] calls on
    it; a fetch beyond that list fails. *)

Module Store.

Record Row := {
  create_time : Js.field;
  computed_is_send : Js.field;
  is_send : Js.field;
  local_type : Js.field;
  type_ : Js.field;
  message_content : Decoder.raw_value;
  compress_content : Decoder.raw_value
}.

Record Batch := {
  batch_success : bool;
  batch_rows : option (list Row);
  (** [batch.hasMore === true] *)
  batch_hasMore : bool
}.

Definition Cursor := list Batch.

Record SessionRow := {
  sr_username : Js.field;
  sr_user_name : Js.field;
  sr_userName : Js.field
}.

Record SessionStat := {
  ss_sent : Z;
  ss_received : Z
}.

(** The [data] of [getAnnualReportStats]; object entries are in
    enumeration order. *)
Record BaseStats := {
  bs_total : Z;
  bs_sessions : list (jsstring * SessionStat);
  bs_daily : list (jsstring * Z)
}.

Record SqlStreak := {
  sk_sessionId : Js.field;
  sk_days : option Z;
  (** [new Date(`${startDate}T00:00:00`)] and the same for [endDate],
      when the field is a non-empty string *)
  sk_start : option Date.t;
  sk_end : option Date.t
}.

Record SqlResponse := {
  rs_avg : option Z;
  rs_fastest : option Z;
  rs_count : option Z
}.

(** The [data] of [getAnnualReportExtras].  An absent field is [None]; a
    heat-map row that is not an array is [None]. *)
Record Extras := {
  ex_heatmap : option (list (option (list Z)));
  ex_midnight : option (list (jsstring * Z));
  ex_conversation : option (list (jsstring * (option Z * option Z)));
  ex_response : option (list (jsstring * SqlResponse));
  ex_peakDay : option (list (jsstring * Z));
  ex_topPhrases : option (list (jsstring * Z));
  ex_streak : option SqlStreak
}.

Record t := {
  (** [wcdbService.open(dbPath, decryptKey, cleanedWxid)] *)
  open : jsstring -> jsstring -> jsstring -> bool;
  (** [getSessions()]: the [sessions] rows, [None] unless [success] with
      rows *)
  getSessions : option (list SessionRow);
  (** [openMessageCursorLite(sessionId, batchSize, true, begin, end)] for
      the window of the report: [None] unless [success] with a cursor *)
  openMessageCursorLite : jsstring -> Z -> option Cursor;
  (** [getAnnualReportStats]: [None] unless [success] with [data] *)
  getAnnualReportStats : option BaseStats;
  (** its [error] field, read when the call is not a success *)
  statsError : Js.field;
  (** [getAnnualReportExtras]: [success] and [data] *)
  extrasSuccess : bool;
  extrasData : option Extras;
  (** [getDisplayNames(ids)]: [map], [None] unless [success] with a map *)
  getDisplayNames : option (list (jsstring * jsstring));
  (** [getAvailableYears(sessionIds)]: [data], [None] unless [success]
      with data *)
  getAvailableYears : option (list Z);
  (** [openMessageCursor(sessionId, 1, ascending, 0, 0)]: [None] unless
      [success] with a cursor *)
  openMessageCursor : jsstring -> bool -> option Cursor
}.

End Store.

(** ** Annual report: accumulators of the full scan *)

Module Annual.

Import Store.

Record ConvStats := { initiated : Z; received : Z }.

Record LastMsg := { time : Z; isSent : bool }.

(** The streak variables of one session.  [lastDayIndex] is [null] or a
    number, and a number may be [NaN] (inner [None]); the dates are [null]
    or a [Date]. *)
Record Streak := {
  lastDayIndex : option (option Z);
  currentStreak : Z;
  currentStart : option Date.t;
  maxStreak : Z;
  maxStart : option Date.t;
  maxEnd : option Date.t
}.

Definition streak0 : Streak :=
  {| lastDayIndex := None; currentStreak := 0; currentStart := None;
     maxStreak := 0; maxStart := None; maxEnd := None |}.

(** [a === b] on numbers *)
Definition num_eq (a b : option Z) : bool :=
  match a, b with
  | Some x, Some y => x =? y
  | _, _ => false
  end.

(** [a - b === 1] on numbers *)
Definition num_succ (a b : option Z) : bool :=
  match a, b with
  | Some x, Some y => x - y =? 1
  | _, _ => false
  end.

(** The part shared by the two copies of the streak update: from the
    test of consecutive days to the assignment of [lastDayIndex]. *)
Definition streakAdvance (s : Streak) (dayDate : Date.t) (dayIndex : option Z)
  : Streak :=
  let consecutive :=
    match lastDayIndex s with
    | Some l => num_succ dayIndex l
    | None => false
    end in
  let cur := if consecutive then currentStreak s + 1 else 1 in
  let start := if consecutive then currentStart s else Some dayDate in
  if maxStreak s <? cur then
    {| lastDayIndex := Some dayIndex; currentStreak := cur; currentStart := start;
       maxStreak := cur; maxStart := start; maxEnd := Some dayDate |}
  else
    {| lastDayIndex := Some dayIndex; currentStreak := cur; currentStart := start;
       maxStreak := maxStreak s; maxStart := maxStart s; maxEnd := maxEnd s |}.

(** The streak update of the full scan ([generateReportWithConfig]):
    [if (lastDayIndex === null || dayIndex !== lastDayIndex) { ... }] *)
Definition streakObserve (s : Streak) (dayDate : Date.t) : Streak :=
  let dayIndex := Date.dayIndexOf dayDate in
  let differs :=
    match lastDayIndex s with
    | None => true
    | Some l => negb (num_eq dayIndex l)
    end in
  if differs then streakAdvance s dayDate dayIndex else s.

(** The streak update of [computeLongestStreak]:
    [if (lastDayIndex !== null && dayIndex === lastDayIndex) continue] *)
Definition streakObserveLite (s : Streak) (dayDate : Date.t) : Streak :=
  let dayIndex := Date.dayIndexOf dayDate in
  let same :=
    match lastDayIndex s with
    | Some l => num_eq dayIndex l
    | None => false
    end in
  if same then s else streakAdvance s dayDate dayIndex.

(** The best streak over the sessions seen so far. *)
Record Best := {
  bestSessionId : jsstring;
  bestDays : Z;
  bestStart : option Date.t;
  bestEnd : option Date.t
}.

Definition best0 : Best :=
  {| bestSessionId := []; bestDays := 0; bestStart := None; bestEnd := None |}.

(** [if (maxStreak > bestDays) { ... }] after the rows of a session *)
Definition bestUpdate (b : Best) (sessionId : jsstring) (s : Streak) : Best :=
  if bestDays b <? maxStreak s then
    {| bestSessionId := sessionId; bestDays := maxStreak s;
       bestStart := maxStart s; bestEnd := maxEnd s |}
  else b.

(** The accumulators of [generateReportWithConfig]. *)
Record Acc := {
  heatmapData : list (list Z);
  midnightStats : JsMap.t Z;
  conversationStarts : JsMap.t ConvStats;
  responseTimeStats : JsMap.t (list Z);
  phraseCount : JsMap.t Z;
  lastMessageTime : JsMap.t LastMsg;
  dailyContactStats : JsMap.t (JsMap.t Z);
  longest : Best
}.

(** [Array.from({ length: 7 }, () => Array(24).fill(0))] *)
Definition heatmap0 : list (list Z) := repeat (repeat 0 24%nat) 7%nat.

Definition acc0 : Acc :=
  {| heatmapData := heatmap0; midnightStats := []; conversationStarts := [];
     responseTimeStats := []; phraseCount := []; lastMessageTime := [];
     dailyContactStats := []; longest := best0 |}.

Definition CONVERSATION_GAP : Z := 3600.

(** [m.set(k, (m.get(k) || 0) + 1)] *)
Definition countUp (m : JsMap.t Z) (k : jsstring) : JsMap.t Z :=
  JsMap.set m k (match JsMap.get m k with Some n => n | None => 0 end + 1).

(** Conversation starts and response samples of one row. *)
Definition convObserve (sessionId : jsstring) (createTime : Z) (sent : bool)
  (a : Acc) : Acc :=
  let starts :=
    if JsMap.has (conversationStarts a) sessionId then conversationStarts a
    else JsMap.set (conversationStarts a) sessionId {| initiated := 0; received := 0 |} in
  let convStats :=
    match JsMap.get starts sessionId with
    | Some c => c
    | None => {| initiated := 0; received := 0 |}
    end in
  let started :=
    JsMap.set starts sessionId
      (if sent then {| initiated := initiated convStats + 1; received := received convStats |}
       else {| initiated := initiated convStats; received := received convStats + 1 |}) in
  let pushed (responseTime : Z) :=
    let stats :=
      if JsMap.has (responseTimeStats a) sessionId then responseTimeStats a
      else JsMap.set (responseTimeStats a) sessionId [] in
    JsMap.set stats sessionId
      (match JsMap.get stats sessionId with Some l => l | None => [] end
       ++ [responseTime]) in
  let outcome :=
    match JsMap.get (lastMessageTime a) sessionId with
    | None => (started, responseTimeStats a)
    | Some lastMsg =>
        if CONVERSATION_GAP <? createTime - time lastMsg then
          (started, responseTimeStats a)
        else if negb (Bool.eqb (isSent lastMsg) sent) then
          if sent && negb (isSent lastMsg) then
            let responseTime := createTime - time lastMsg in
            if (0 <? responseTime) && (responseTime <? 86400)
            then (starts, pushed responseTime)
            else (starts, responseTimeStats a)
          else (starts, responseTimeStats a)
        else (starts, responseTimeStats a)
    end in
  {| heatmapData := heatmapData a;
     midnightStats := midnightStats a;
     conversationStarts := fst outcome;
     responseTimeStats := snd outcome;
     phraseCount := phraseCount a;
     lastMessageTime :=
       JsMap.set (lastMessageTime a) sessionId {| time := createTime; isSent := sent |};
     dailyContactStats := dailyContactStats a;
     longest := longest a |}.

(** The eligibility test of a phrase, with the bound on its length. *)
Definition phraseEligible (maxLen : Z) (text : jsstring) : bool :=
  (2 <=? Js.len text) && (Js.len text <=? maxLen)
  && negb (Js.includes text (Js.of_ascii "http"))
  && negb (Js.includes text (Js.of_ascii "<"))
  && negb (Js.startsWith text (Js.of_ascii "["))
  && negb (Js.startsWith text (Js.of_ascii "<?xml")).

Definition isTextType (localType : option Z) : bool :=
  match localType with
  | Some n => (n =? 1) || (n =? 244813135921)
  | None => false
  end.

(** [row[i] = f(row[i])] on an array, for an index inside it *)
Fixpoint updateAt {A : Type} (l : list A) (i : nat) (f : A -> A) : list A :=
  match l, i with
  | [], _ => []
  | x :: l', O => f x :: l'
  | x :: l', S i' => x :: updateAt l' i' f
  end.

(** [heatmapData[w][h]++] *)
Definition heatmapIncr (g : list (list Z)) (w h : Z) : list (list Z) :=
  updateAt g (Z.to_nat w) (fun row => updateAt row (Z.to_nat h) Z.succ).

Definition withLongest (a : Acc) (b : Best) : Acc :=
  {| heatmapData := heatmapData a;
     midnightStats := midnightStats a;
     conversationStarts := conversationStarts a;
     responseTimeStats := responseTimeStats a;
     phraseCount := phraseCount a;
     lastMessageTime := lastMessageTime a;
     dailyContactStats := dailyContactStats a;
     longest := b |}.

Section WithPlatform.
Context (P : Platform).

(** Common phrases of one row. *)
Definition phraseObserve (localType : option Z) (sent : bool) (row : Row)
  (a : Acc) : option Acc :=
  if isTextType localType && sent then
    content <- Decoder.decodeMessageContent P (message_content row) (compress_content row) ;;
    let text := Js.trim content in
    if phraseEligible 20 text then
      Some {| heatmapData := heatmapData a;
              midnightStats := midnightStats a;
              conversationStarts := conversationStarts a;
              responseTimeStats := responseTimeStats a;
              phraseCount := countUp (phraseCount a) text;
              lastMessageTime := lastMessageTime a;
              dailyContactStats := dailyContactStats a;
              longest := longest a |}
    else Some a
  else Some a.

(** [dt.getDay() === 0 ? 6 : dt.getDay() - 1] *)
Definition weekdayIndex (ms : Z) : Z :=
  if Date.getDay P ms =? 0 then 6 else Date.getDay P ms - 1.

(** Heat map, streak, midnight count and peak-day count of one row whose
    date is valid. *)
Definition calendarObserve (peakDayKey sessionId : jsstring) (ms : Z)
  (a : Acc) (s : Streak) : Acc * Streak :=
  let heat := heatmapIncr (heatmapData a) (weekdayIndex ms) (Date.getHours P ms) in
  let s' := streakObserve s (Date.dayDateOf P (Some ms)) in
  let midnight :=
    if (0 <=? Date.getHours P ms) && (Date.getHours P ms <? 6)
    then countUp (midnightStats a) sessionId
    else midnightStats a in
  let daily :=
    match peakDayKey with
    | [] => dailyContactStats a
    | _ =>
        let dayKey := Date.ymdKey P ms in
        if Js.eqb dayKey peakDayKey then
          let stats :=
            if JsMap.has (dailyContactStats a) dayKey then dailyContactStats a
            else JsMap.set (dailyContactStats a) dayKey [] in
          JsMap.set stats dayKey
            (countUp (match JsMap.get stats dayKey with Some m => m | None => [] end)
               sessionId)
        else dailyContactStats a
    end in
  ({| heatmapData := heat;
      midnightStats := midnight;
      conversationStarts := conversationStarts a;
      responseTimeStats := responseTimeStats a;
      phraseCount := phraseCount a;
      lastMessageTime := lastMessageTime a;
      dailyContactStats := daily;
      longest := longest a |}, s').

(** [parseInt(row.create_time || '0', 10)] *)
Definition createTimeOf (row : Row) : option Z :=
  Js.parseInt10 (Js.or_else (create_time row) (Js.of_ascii "0")).

(** [if (!createTime) continue] *)
Definition hasTimestamp (row : Row) : bool :=
  match createTimeOf row with
  | Some t => negb (t =? 0)
  | None => false
  end.

(** [parseInt(row.computed_is_send ?? row.is_send ?? '0', 10) === 1] *)
Definition isSentOf (row : Row) : bool :=
  match Js.nullish (computed_is_send row) (Js.nullish (is_send row) (Some (Js.of_ascii "0"))) with
  | Some raw =>
      match Js.parseInt10 raw with
      | Some n => n =? 1
      | None => false
      end
  | None => false
  end.

(** [parseInt(row.local_type || row.type || '1', 10)] *)
Definition localTypeOf (row : Row) : option Z :=
  Js.parseInt10 (Js.or_else (local_type row) (Js.or_else (type_ row) (Js.of_ascii "1"))).

(** The body of [for (const row of batch.rows)] in the full scan.  An
    invalid [Date] has [NaN] for its week day, and indexing the heat map
    with it raises a [TypeError]. *)
Definition scanRow (peakDayKey sessionId : jsstring) (st : Acc * Streak)
  (row : Row) : option (Acc * Streak) :=
  match createTimeOf row with
  | None => Some st
  | Some createTime =>
      if createTime =? 0 then Some st
      else
        let sent := isSentOf row in
        let localType := localTypeOf row in
        let a1 := convObserve sessionId createTime sent (fst st) in
        a2 <- phraseObserve localType sent row a1 ;;
        match Date.ofSeconds createTime with
        | None => None
        | Some ms => Some (calendarObserve peakDayKey sessionId ms a2 (snd st))
        end
  end.

Fixpoint scanRows (peakDayKey sessionId : jsstring) (st : Acc * Streak)
  (rows : list Row) : option (Acc * Streak) :=
  match rows with
  | [] => Some st
  | row :: rows' =>
      st' <- scanRow peakDayKey sessionId st row ;;
      scanRows peakDayKey sessionId st' rows'
  end.

(** [while (hasMore) { batch = fetch; if (!batch.success || !batch.rows)
    break; ...; hasMore = batch.hasMore === true }] *)
Fixpoint scanCursor (peakDayKey sessionId : jsstring) (st : Acc * Streak)
  (cursor : Cursor) : option (Acc * Streak) :=
  match cursor with
  | [] => Some st
  | batch :: cursor' =>
      if negb (batch_success batch) then Some st
      else
        match batch_rows batch with
        | None => Some st
        | Some rows =>
            st' <- scanRows peakDayKey sessionId st rows ;;
            if batch_hasMore batch
            then scanCursor peakDayKey sessionId st' cursor'
            else Some st'
        end
  end.

(** One iteration of [for (let i = 0; i < sessionIds.length; i++)] in
    the full scan. *)
Definition scanSession (S : Store.t) (peakDayKey : jsstring) (a : Acc)
  (sessionId : jsstring) : option Acc :=
  match openMessageCursorLite S sessionId 1000 with
  | None => Some a
  | Some cursor =>
      st <- scanCursor peakDayKey sessionId (a, streak0) cursor ;;
      Some (withLongest (fst st) (bestUpdate (longest (fst st)) sessionId (snd st)))
  end.

Fixpoint fullScan (S : Store.t) (peakDayKey : jsstring) (a : Acc)
  (sessionIds : list jsstring) : option Acc :=
  match sessionIds with
  | [] => Some a
  | sessionId :: rest =>
      a' <- scanSession S peakDayKey a sessionId ;;
      fullScan S peakDayKey a' rest
  end.

(** *** [computeLongestStreak] *)

(** The body of [for (const row of batch.rows)]; no getter raises
    here, an invalid date gives the day index [NaN]. *)
Definition streakRow (s : Streak) (row : Row) : Streak :=
  match createTimeOf row with
  | None => s
  | Some createTime =>
      if createTime =? 0 then s
      else streakObserveLite s (Date.dayDateOf P (Date.ofSeconds createTime))
  end.

Fixpoint streakCursor (s : Streak) (cursor : Cursor) : Streak :=
  match cursor with
  | [] => s
  | batch :: cursor' =>
      if negb (batch_success batch) then s
      else
        match batch_rows batch with
        | None => s
        | Some rows =>
            let s' := fold_left streakRow rows s in
            if batch_hasMore batch then streakCursor s' cursor' else s'
        end
  end.

Definition streakSession (S : Store.t) (b : Best) (sessionId : jsstring) : Best :=
  match openMessageCursorLite S sessionId 2000 with
  | None => b
  | Some cursor => bestUpdate b sessionId (streakCursor streak0 cursor)
  end.

Definition computeLongestStreak (S : Store.t) (sessionIds : list jsstring) : Best :=
  fold_left (streakSession S) sessionIds best0.

(** *** Connection and session list *)

(** [/^(wxid_[^_]+)/i]: the prefix and the run of characters up to the
    next underscore, which must not be empty. *)
Fixpoint untilUnderscore (s : jsstring) : jsstring :=
  match s with
  | c :: s' => if (c =? 95)%N then [] else c :: untilUnderscore s'
  | [] => []
  end.

Definition matchWxid (s : jsstring) : option jsstring :=
  if Js.eqb (map Js.ascii_lower (firstn 5 s)) (Js.of_ascii "wxid_") then
    match untilUnderscore (skipn 5 s) with
    | [] => None
    | run => Some (firstn 5 s ++ run)
    end
  else None.

Definition is_line_terminator (c : N) : bool :=
  ((c =? 10) || (c =? 13) || (c =? 8232) || (c =? 8233))%N.

(** [/^(.+)_([a-zA-Z0-9]{4})$/]: the text before a final underscore
    followed by exactly four letters or digits. *)
Definition matchSuffix (s : jsstring) : option jsstring :=
  let n := List.length s in
  let head := firstn (n - 5) s in
  match skipn (n - 5) s with
  | [u; a; b; c; d] =>
      if (u =? 95)%N
         && forallb (fun x => Js.is_alpha x || Js.is_digit x) [a; b; c; d]
         && negb (Nat.eqb (List.length head) 0)
         && forallb (fun x => negb (is_line_terminator x)) head
      then Some head
      else None
  | _ => None
  end.

Definition cleanAccountDirName (dirName : jsstring) : jsstring :=
  let trimmed := Js.trim dirName in
  match trimmed with
  | [] => trimmed
  | _ =>
      if Js.startsWith (toLowerCase P trimmed) (Js.of_ascii "wxid_") then
        match matchWxid trimmed with
        | Some m => m
        | None => trimmed
        end
      else
        match matchSuffix trimmed with
        | Some m => m
        | None => trimmed
        end
  end.

(** The [error] of a result that is not a success. *)
Inductive Failure :=
| NoWxid                            (** '未配置微信ID' *)
| NoDbPath                          (** '未配置数据库路径' *)
| NoDecryptKey                      (** '未配置解密密钥' *)
| OpenFailed                        (** 'WCDB 打开失败' *)
| NoSessions                        (** '未找到消息会话' *)
| BaseStatsFailed (detail : Js.field) (** '基础统计失败', with ': detail' when there is one *)
| NoErrorText                       (** [error] is [undefined] *)
| Thrown.                           (** [String(e)] of a caught exception *)

(** The fixed messages. *)
Definition errorText (f : Failure) : option string :=
  match f with
  | NoWxid => Some "未配置微信ID"%string
  | NoDbPath => Some "未配置数据库路径"%string
  | NoDecryptKey => Some "未配置解密密钥"%string
  | OpenFailed => Some "WCDB 打开失败"%string
  | NoSessions => Some "未找到消息会话"%string
  | BaseStatsFailed _ => None
  | NoErrorText => None
  | Thrown => None
  end.

(** [{ success: true, data }] or [{ success: false, error }] *)
Inductive Outcome (A : Type) :=
| Success (data : A)
| Fail (error : Failure).
Arguments Success {A} data.
Arguments Fail {A} error.

Definition ensureConnectedWithConfig (S : Store.t) (dbPath decryptKey wxid : jsstring)
  : Outcome (jsstring * jsstring) :=
  match wxid, dbPath, decryptKey with
  | [], _, _ => Fail NoWxid
  | _, [], _ => Fail NoDbPath
  | _, _, [] => Fail NoDecryptKey
  | _, _, _ =>
      let cleanedWxid := cleanAccountDirName wxid in
      if negb (Store.open S dbPath decryptKey cleanedWxid) then Fail OpenFailed
      else Success (cleanedWxid, wxid)
  end.

Definition excludeList : list jsstring :=
  map Js.of_ascii
    ["weixin"; "qqmail"; "fmessage"; "medianote"; "floatbottle";
     "newsapp"; "brandsessionholder"; "brandservicesessionholder";
     "notifymessage"; "opencustomerservicemsg"; "notification_messages";
     "userexperience_alarm"; "helper_folders"; "placeholder_foldgroup";
     "@helper_folders"; "@placeholder_foldgroup"]%string.

Definition isPrivateSession (cleanedWxid username : jsstring) : bool :=
  match username with
  | [] => false
  | _ =>
      negb (Js.includes username (Js.of_ascii "@chatroom"))
      && negb (Js.eqb username (Js.of_ascii "filehelper"))
      && negb (Js.startsWith username (Js.of_ascii "gh_"))
      && negb (Js.eqb (toLowerCase P username) (toLowerCase P cleanedWxid))
      && forallb (fun prefix =>
                    negb (Js.startsWith username prefix || Js.eqb username prefix))
           excludeList
      && negb (Js.includes username (Js.of_ascii "@kefu.openim")
               || Js.includes username (Js.of_ascii "@openim"))
      && negb (Js.includes username (Js.of_ascii "service_"))
  end.

Definition getPrivateSessions (S : Store.t) (cleanedWxid : jsstring) : list jsstring :=
  match getSessions S with
  | None => []
  | Some rows =>
      filter (isPrivateSession cleanedWxid)
        (map (fun row =>
                Js.or_else (sr_username row)
                  (Js.or_else (sr_user_name row) (Js.or_else (sr_userName row) [])))
           rows)
  end.

End WithPlatform.

Arguments Success {A} data.
Arguments Fail {A} error.

(** *** The extras of the store and the choice of the path *)

(** What the first half of [generateReportWithConfig] hands to the
    assembly of the report. *)
Record Gathered := {
  acc : Acc;
  responseStatsFromSql : option (list (jsstring * SqlResponse));
  topPhrasesFromSql : option (list (jsstring * Z));
  useSqlExtras : bool;
  streakComputedInLoop : bool
}.

Definition notLoaded : Gathered :=
  {| acc := acc0; responseStatsFromSql := None; topPhrasesFromSql := None;
     useSqlExtras := false; streakComputedInLoop := false |}.

(** [heatmapData[w][h] = heatmap[w][h] || 0] for the seven rows of an
    array of length 7, a row that is not an array being left at zero *)
Definition extrasHeatmap (heatmap : option (list (option (list Z)))) : list (list Z) :=
  match heatmap with
  | Some rows =>
      if Nat.eqb (List.length rows) 7 then
        map (fun row =>
               match row with
               | Some cells => map (fun h => nth h cells 0) (seq 0 24)
               | None => repeat 0 24%nat
               end) rows
      else heatmap0
  | None => heatmap0
  end.

(** [for (const [k, v] of Object.entries(o)) m.set(k, f(v))] *)
Definition setAll {A B : Type} (f : A -> B) (entries : list (jsstring * A))
  (m : JsMap.t B) : JsMap.t B :=
  fold_left (fun m e => JsMap.set m (fst e) (f (snd e))) entries m.

(** [n || 0] *)
Definition orZero (n : option Z) : Z :=
  match n with
  | Some z => z
  | None => 0
  end.

Definition extrasStreak (streak : option SqlStreak) : Best * bool :=
  match streak with
  | Some sk =>
      match sk_sessionId sk, sk_days sk with
      | Some (c :: r), Some d =>
          if 0 <? d then
            ({| bestSessionId := c :: r; bestDays := d;
                bestStart := sk_start sk; bestEnd := sk_end sk |},
             match sk_start sk, sk_end sk with
             | Some (Some _), Some (Some _) => true
             | _, _ => false
             end)
          else (best0, false)
      | _, _ => (best0, false)
      end
  | None => (best0, false)
  end.

(** The branch [if (extras.success && extras.data) { ... }]. *)
Definition loadExtras (peakDayKey : jsstring) (e : Extras) : Gathered :=
  let midnight :=
    match ex_midnight e with
    | Some entries => setAll (fun n => n) entries []
    | None => []
    end in
  let conversation :=
    match ex_conversation e with
    | Some entries =>
        setAll (fun c => {| initiated := orZero (fst c); received := orZero (snd c) |})
          entries []
    | None => []
    end in
  let daily :=
    match peakDayKey, ex_peakDay e with
    | _ :: _, Some entries =>
        match setAll (fun n => n) entries [] with
        | [] => []
        | dayMap => JsMap.set [] peakDayKey dayMap
        end
    | _, _ => []
    end in
  let phrases :=
    match ex_topPhrases e with
    | Some (p :: ps) => Some (p :: ps)
    | _ => None
    end in
  let streak := extrasStreak (ex_streak e) in
  {| acc :=
       {| heatmapData := extrasHeatmap (ex_heatmap e);
          midnightStats := midnight;
          conversationStarts := conversation;
          responseTimeStats := [];
          phraseCount := [];
          lastMessageTime := [];
          dailyContactStats := daily;
          longest := fst streak |};
     responseStatsFromSql := ex_response e;
     topPhrasesFromSql := phrases;
     useSqlExtras := true;
     streakComputedInLoop := snd streak |}.

(** The day with the largest count of [d.daily], the first one among
    equals, and that count; [''] and 0 when no count is positive. *)
Definition peakOf (daily : list (jsstring * Z)) : jsstring * Z :=
  fold_left (fun best e => if snd best <? snd e then e else best) daily ([], 0).

Section Gather.
Context (P : Platform) (S : Store.t).

(** From the call of [getAnnualReportExtras] to the end of the streak
    computation. *)
Definition gather (sessionIds : list jsstring) (peakDayKey : jsstring)
  : option Gathered :=
  let g0 :=
    if extrasSuccess S then
      match extrasData S with
      | Some e => loadExtras peakDayKey e
      | None => notLoaded
      end
    else notLoaded in
  g1 <- (if negb (useSqlExtras g0) then
           a <- fullScan P S peakDayKey (acc g0) sessionIds ;;
           Some {| acc := a;
                   responseStatsFromSql := responseStatsFromSql g0;
                   topPhrasesFromSql := topPhrasesFromSql g0;
                   useSqlExtras := useSqlExtras g0;
                   streakComputedInLoop := true |}
         else Some g0) ;;
  if negb (streakComputedInLoop g1) then
    let streakResult := computeLongestStreak P S sessionIds in
    if bestDays (longest (acc g1)) <? bestDays streakResult
    then Some {| acc := withLongest (acc g1) streakResult;
                 responseStatsFromSql := responseStatsFromSql g1;
                 topPhrasesFromSql := topPhrasesFromSql g1;
                 useSqlExtras := useSqlExtras g1;
                 streakComputedInLoop := streakComputedInLoop g1 |}
    else Some g1
  else Some g1.

End Gather.

(** *** Ranking of the phrases *)

(** Insertion of an entry in front of a list sorted by decreasing count:
    it passes the entries with a larger count and stops before the first
    entry with an equal or smaller one. *)
Fixpoint insertDesc (e : jsstring * Z) (l : list (jsstring * Z)) : list (jsstring * Z) :=
  match l with
  | [] => [e]
  | x :: l' => if snd e <? snd x then x :: insertDesc e l' else e :: x :: l'
  end.

(** [entries.sort((a, b) => b[1] - a[1])]: the stable sort by decreasing
    count. *)
Definition sortDesc (entries : list (jsstring * Z)) : list (jsstring * Z) :=
  fold_right insertDesc [] entries.

(** [Array.from(m.entries()).filter(([_, count]) => count >= 2)
      .sort((a, b) => b[1] - a[1]).slice(0, n)
      .map(([phrase, count]) => ({ phrase, count }))] *)
Definition rankPhrases (n : nat) (m : JsMap.t Z) : list (jsstring * Z) :=
  firstn n (sortDesc (filter (fun e => 2 <=? snd e) m)).

(** *** Assembly of the report *)

Record LongestStreak := {
  friendName : jsstring;
  days : Z;
  startDate : jsstring;
  endDate : jsstring
}.

Record PeakDay := {
  date : jsstring;
  messageCount : Z;
  topFriend : jsstring;
  topFriendCount : Z
}.

(** The report, without its fields computed in floating point (the
    percentages and ratios, [responseSpeed], [mutualFriend]) and without
    the contact rankings [coreFriends] and [monthlyTopFriends] and the
    avatar addresses, which depend on none of the accumulators. *)
Record AnnualReportData := {
  year : Z;
  totalMessages : Z;
  totalFriends : Z;
  peakDay : option PeakDay;
  longestStreak : option LongestStreak;
  activityHeatmap : list (list Z);
  (** [displayName] and [count] of [midnightKing] *)
  midnightKing : option (jsstring * Z);
  (** [initiatedChats] and [receivedChats] of [socialInitiative] *)
  socialInitiative : option (Z * Z);
  topPhrases : list (jsstring * Z)
}.

Section Report.
Context (P : Platform) (S : Store.t).

Definition formatDateYmd (d : Date.t) : jsstring :=
  match d with
  | Some ms => Date.ymdKey P ms
  | None => Js.of_ascii "NaN-NaN-NaN"
  end.

(** [contactInfoMap.get(id)?.displayName || id] *)
Definition displayNameOf (contactStats : JsMap.t SessionStat) (id : jsstring) : jsstring :=
  if JsMap.has contactStats id then
    match getDisplayNames S with
    | Some names => Js.or_else (Some (Js.or_else (JsMap.get names id) id)) id
    | None => Js.or_else (Some id) id
    end
  else id.

(** The entry with the largest positive count, the first one among
    equals, starting from [('', 0)]. *)
Definition maxEntry (m : JsMap.t Z) : jsstring * Z :=
  fold_left (fun best e => if snd best <? snd e then e else best) m ([], 0).

Definition sumZ (l : list Z) : Z := fold_left Z.add l 0.

Definition assemblePeakDay (contactStats : JsMap.t SessionStat)
  (dailyStats : JsMap.t Z) (g : Gathered) : option PeakDay :=
  fold_left
    (fun best e =>
       if (match best with Some b => messageCount b | None => 0 end) <? snd e then
         let top :=
           match JsMap.get (dailyContactStats (acc g)) (fst e) with
           | Some dayContactMap =>
               fold_left
                 (fun t c =>
                    if snd t <? snd c
                    then (displayNameOf contactStats (fst c), snd c)
                    else t)
                 dayContactMap ([], 0)
           | None => ([], 0)
           end in
         Some {| date := fst e; messageCount := snd e;
                 topFriend := fst top; topFriendCount := snd top |}
       else best)
    dailyStats None.

Definition assembleLongestStreak (contactStats : JsMap.t SessionStat) (b : Best)
  : option LongestStreak :=
  match bestSessionId b, bestStart b, bestEnd b with
  | c :: r, Some start, Some stop =>
      if 0 <? bestDays b then
        Some {| friendName := displayNameOf contactStats (c :: r);
                days := bestDays b;
                startDate := formatDateYmd start;
                endDate := formatDateYmd stop |}
      else None
  | _, _, _ => None
  end.

Definition assembleReport (reportYear : Z) (d : BaseStats) (g : Gathered)
  : AnnualReportData :=
  let contactStats := setAll (fun s => s) (bs_sessions d) [] in
  let dailyStats := setAll (fun c => c) (bs_daily d) [] in
  let a := acc g in
  let totalMidnight := sumZ (JsMap.values (midnightStats a)) in
  let totalInitiated := sumZ (map initiated (JsMap.values (conversationStarts a))) in
  let totalReceived := sumZ (map received (JsMap.values (conversationStarts a))) in
  {| year := reportYear;
     totalMessages := bs_total d;
     totalFriends := Z.of_nat (List.length contactStats);
     peakDay := assemblePeakDay contactStats dailyStats g;
     longestStreak := assembleLongestStreak contactStats (longest a);
     activityHeatmap := heatmapData a;
     midnightKing :=
       if 0 <? totalMidnight then
         let top := maxEntry (midnightStats a) in
         Some (displayNameOf contactStats (fst top), snd top)
       else None;
     socialInitiative :=
       if 0 <? totalInitiated + totalReceived
       then Some (totalInitiated, totalReceived)
       else None;
     topPhrases :=
       match topPhrasesFromSql g with
       | Some (p :: ps) => p :: ps
       | _ => rankPhrases 32 (phraseCount a)
       end |}.

(** *** [getAvailableYears] *)

Definition getEdgeMessageTime (sessionId : jsstring) (ascending : bool) : option Z :=
  match Store.openMessageCursor S sessionId ascending with
  | None => None
  | Some cursor =>
      match cursor with
      | [] => None
      | batch :: _ =>
          if negb (batch_success batch) then None
          else
            match batch_rows batch with
            | Some (row :: _) =>
                match createTimeOf row with
                | Some ts => if 0 <? ts then Some ts else None
                | None => None
                end
            | _ => None
            end
      end
  end.

(** [new Date(t * 1000).getFullYear()]; [None] is [NaN]. *)
Definition yearOf (t : Z) : option Z :=
  match Date.ofSeconds t with
  | Some ms => Some (Date.getFullYear P ms)
  | None => None
  end.

(** The years from [minYear] to [maxYear] of a session with a first or a
    last message. *)
Definition sessionYears (sessionId : jsstring) : option (option Z * option Z) :=
  let first := getEdgeMessageTime sessionId true in
  let last := getEdgeMessageTime sessionId false in
  match first, last with
  | None, None => None
  | Some f, None => Some (yearOf f, yearOf f)
  | None, Some l => Some (yearOf l, yearOf l)
  | Some f, Some l => Some (yearOf f, yearOf l)
  end.

(** [y] is added to the set of years by the loop of a session. *)
Definition addsYear (y : Z) (sessionId : jsstring) : bool :=
  match sessionYears sessionId with
  | Some (Some minYear, Some maxYear) =>
      (minYear <=? y) && (y <=? maxYear) && (2010 <=? y) && (y <=? currentYear P)
  | _ => false
  end.

(** [Array.from(years).sort((a, b) => b - a)]: the members of the set from
    the largest to the smallest, all of them between 2010 and the current
    year. *)
Definition sortedYears (sessionIds : list jsstring) : list Z :=
  filter (fun y => existsb (addsYear y) sessionIds)
    (map (fun i => currentYear P - Z.of_nat i)
       (seq 0 (Z.to_nat (currentYear P - 2010 + 1)))).

Definition getAvailableYears (dbPath decryptKey wxid : jsstring) : Outcome (list Z) :=
  match ensureConnectedWithConfig P S dbPath decryptKey wxid with
  | Fail error => Fail error
  | Success ([], _) => Fail NoErrorText
  | Success (cleanedWxid, _) =>
      let sessionIds := getPrivateSessions P S cleanedWxid in
      match sessionIds with
      | [] => Fail NoSessions
      | _ =>
          match Store.getAvailableYears S with
          | Some years => Success years
          | None => Success (sortedYears sessionIds)
          end
      end
  end.

Record Params := {
  p_year : Z;
  p_wxid : jsstring;
  p_dbPath : jsstring;
  p_decryptKey : jsstring
}.

Definition generateReportWithConfig (params : Params) : Outcome AnnualReportData :=
  match ensureConnectedWithConfig P S (p_dbPath params) (p_decryptKey params) (p_wxid params) with
  | Fail error => Fail error
  | Success ([], _) => Fail NoErrorText
  | Success (_, []) => Fail NoErrorText
  | Success (cleanedWxid, _) =>
      let sessionIds := getPrivateSessions P S cleanedWxid in
      match sessionIds with
      | [] => Fail NoSessions
      | _ =>
          let reportYear := if p_year params <=? 0 then 0 else p_year params in
          match getAnnualReportStats S with
          | None => Fail (BaseStatsFailed (statsError S))
          | Some d =>
              let peakDayKey := fst (peakOf (bs_daily d)) in
              match gather P S sessionIds peakDayKey with
              | None => Fail Thrown
              | Some g => Success (assembleReport reportYear d g)
              end
          end
      end
  end.

End Report.

End Annual.

(** ** Dual report: the statistics of the scan *)

Module Dual.

Import Store.

(** [text.replace(/\s+/g, ' ')]; [afterSpace] tells that the code unit
    before the text is white space already replaced. *)
Fixpoint collapseSpaces (afterSpace : bool) (text : jsstring) : jsstring :=
  match text with
  | [] => []
  | c :: text' =>
      if Js.is_space c then
        if afterSpace then collapseSpaces true text'
        else 32%N :: collapseSpaces true text'
      else c :: collapseSpaces false text'
  end.

(** [text.replace(/\s+/g, '')] *)
Definition removeSpaces (text : jsstring) : jsstring :=
  filter (fun c => negb (Js.is_space c)) text.

(** [text.replace(/\s+/g, ' ').trim()] *)
Definition normalize (text : jsstring) : jsstring :=
  Js.trim (collapseSpaces false text).

(** The counters of [DualReportStats] and the phrase map; the maps of the
    sticker digests are not part of the embedding. *)
Record Stats := {
  totalMessages : Z;
  totalWords : Z;
  imageCount : Z;
  voiceCount : Z;
  emojiCount : Z;
  wordCountMap : JsMap.t Z
}.

Definition stats0 : Stats :=
  {| totalMessages := 0; totalWords := 0; imageCount := 0; voiceCount := 0;
     emojiCount := 0; wordCountMap := [] |}.

Section WithPlatform.
Context (P : Platform).

(** The body of [for (const row of batch.rows)]. *)
Definition scanRow (st : Stats) (row : Row) : option Stats :=
  let localType := Annual.localTypeOf row in
  let typeIs n := match localType with Some t => t =? n | None => false end in
  let counted :=
    {| totalMessages := totalMessages st + 1;
       totalWords := totalWords st;
       imageCount := if typeIs 3 then imageCount st + 1 else imageCount st;
       voiceCount := if typeIs 34 then voiceCount st + 1 else voiceCount st;
       emojiCount := if typeIs 47 then emojiCount st + 1 else emojiCount st;
       wordCountMap := wordCountMap st |} in
  if Annual.isTextType localType then
    content <- Decoder.decodeMessageContent P (message_content row) (compress_content row) ;;
    let text := Js.trim content in
    match text with
    | [] => Some counted
    | _ =>
        let normalized := normalize text in
        Some {| totalMessages := totalMessages counted;
                totalWords := totalWords counted + Js.len (removeSpaces text);
                imageCount := imageCount counted;
                voiceCount := voiceCount counted;
                emojiCount := emojiCount counted;
                wordCountMap :=
                  if Annual.phraseEligible 50 normalized
                  then Annual.countUp (wordCountMap counted) normalized
                  else wordCountMap counted |}
    end
  else Some counted.

Fixpoint scanRows (st : Stats) (rows : list Row) : option Stats :=
  match rows with
  | [] => Some st
  | row :: rows' =>
      st' <- scanRow st row ;;
      scanRows st' rows'
  end.

Fixpoint scanCursor (st : Stats) (cursor : Cursor) : option Stats :=
  match cursor with
  | [] => Some st
  | batch :: cursor' =>
      if negb (batch_success batch) then Some st
      else
        match batch_rows batch with
        | None => Some st
        | Some rows =>
            st' <- scanRows st rows ;;
            if batch_hasMore batch then scanCursor st' cursor' else Some st'
        end
  end.

(** [topPhrases] of the dual report, from the cursor of the friend. *)
Definition topPhrases (cursor : Cursor) : option (list (jsstring * Z)) :=
  st <- scanCursor stats0 cursor ;;
  Some (Annual.rankPhrases 50 (wordCountMap st)).

End WithPlatform.

End Dual.

(** ** A reference platform

    One platform on which the definitions run: a fixed time zone, the UTF-8
    decoder of the Encoding Standard, a base64 decoder that stops at the
    first padding character, lower-casing of the ASCII letters, a zstd
    library that rejects its input (as it does for a truncated frame), and
    a clock in the year 2024. *)

Module Node.

Definition encodeUtf16 (cp : N) : jsstring :=
  (if cp <? 65536 then [cp]
   else [55296 + (cp - 65536) / 1024; 56320 + (cp - 65536) mod 1024])%N.

(** State of the decoder: bytes still needed, code point so far, and the
    bounds of the next byte. *)
Definition utf8Idle : N * N * N * N := (0, 0, 128, 191)%N.

Definition utf8Start (b : N) : jsstring * (N * N * N * N) :=
  (if b <=? 127 then ([b], utf8Idle)
   else if (194 <=? b) && (b <=? 223) then ([], (1, N.land b 31, 128, 191))
   else if (224 <=? b) && (b <=? 239) then
     ([], (2, N.land b 15, if b =? 224 then 160 else 128, if b =? 237 then 159 else 191))
   else if (240 <=? b) && (b <=? 244) then
     ([], (3, N.land b 7, if b =? 240 then 144 else 128, if b =? 244 then 143 else 191))
   else ([65533], utf8Idle))%N.

Fixpoint utf8Go (bytes : list N) (st : N * N * N * N) : jsstring :=
  let '(needed, cp, lower, upper) := st in
  match bytes with
  | [] => if (needed =? 0)%N then [] else [65533%N]
  | b :: rest =>
      if (needed =? 0)%N then
        fst (utf8Start b) ++ utf8Go rest (snd (utf8Start b))
      else if ((lower <=? b) && (b <=? upper))%N then
        let cp' := (cp * 64 + N.land b 63)%N in
        if (needed =? 1)%N then encodeUtf16 cp' ++ utf8Go rest utf8Idle
        else utf8Go rest ((needed - 1)%N, cp', 128%N, 191%N)
      else 65533%N :: fst (utf8Start b) ++ utf8Go rest (snd (utf8Start b))
  end.

Definition utf8Decode (data : list byte) : jsstring :=
  utf8Go (map Byte.to_N data) utf8Idle.

Definition base64Value (c : N) : option N :=
  (if (65 <=? c) && (c <=? 90) then Some (c - 65)
   else if (97 <=? c) && (c <=? 122) then Some (c - 71)
   else if (48 <=? c) && (c <=? 57) then Some (c + 4)
   else if (c =? 43) || (c =? 45) then Some 62
   else if (c =? 47) || (c =? 95) then Some 63
   else None)%N.

(** The sextets of the text before the first padding character; other
    characters are skipped. *)
Fixpoint sextets (s : jsstring) : list N :=
  match s with
  | [] => []
  | c :: s' =>
      if (c =? 61)%N then []
      else match base64Value c with
           | Some v => v :: sextets s'
           | None => sextets s'
           end
  end.

Fixpoint bytesOfSextets (fuel : nat) (l : list N) : list byte :=
  match fuel with
  | O => []
  | Datatypes.S fuel' =>
      match l with
      | a :: b :: c :: d :: l' =>
          Decoder.byte_of_N (a * 4 + b / 16)
          :: Decoder.byte_of_N ((b mod 16) * 16 + c / 4)
          :: Decoder.byte_of_N ((c mod 4) * 64 + d)
          :: bytesOfSextets fuel' l'
      | [a; b; c] =>
          [Decoder.byte_of_N (a * 4 + b / 16);
           Decoder.byte_of_N ((b mod 16) * 16 + c / 4)]
      | [a; b] => [Decoder.byte_of_N (a * 4 + b / 16)]
      | _ => []
      end
  end%N.

Definition base64Decode (s : jsstring) : list byte :=
  let l := sextets s in bytesOfSextets (List.length l) l.

Definition platform (tz : Z) : Platform :=
  Build_Platform tz utf8Decode base64Decode (fun _ => None) (map Js.ascii_lower) 2024.

(** China Standard Time *)
Definition cst : Platform := platform 28800.

End Node.

(** ** Notions used to state the properties *)

Module Spec.

Import Store Annual.

(** The rows that a scan of the cursor processes: those of the batches up
    to the first failed fetch or the first batch without [hasMore]. *)
Fixpoint delivered (cursor : Cursor) : list Row :=
  match cursor with
  | [] => []
  | batch :: cursor' =>
      if negb (batch_success batch) then []
      else
        match batch_rows batch with
        | None => []
        | Some rows =>
            rows ++ (if batch_hasMore batch then delivered cursor' else [])
        end
  end.

(** The sessions whose cursor opens, each with the streak variables at the
    end of its rows. *)
Definition sessionStreaks (P : Platform) (S : Store.t) (batchSize : Z)
  (sessionIds : list jsstring) : list (jsstring * Streak) :=
  flat_map
    (fun sessionId =>
       match openMessageCursorLite S sessionId batchSize with
       | Some cursor => [(sessionId, streakCursor P streak0 cursor)]
       | None => []
       end)
    sessionIds.

(** The best streak after a list of sessions. *)
Definition bestOver (b : Best) (l : list (jsstring * Streak)) : Best :=
  fold_left (fun b e => bestUpdate b (fst e) (snd e)) l b.

(** The rows of all sessions that the full scan processes, in order. *)
Definition scannedRows (S : Store.t) (sessionIds : list jsstring) : list Row :=
  flat_map
    (fun sessionId =>
       match openMessageCursorLite S sessionId 1000 with
       | Some cursor => delivered cursor
       | None => []
       end)
    sessionIds.

(** The civil day [D] survives the passage through year, month and day
    made by [new Date(y, m, d)]. *)
Definition roundTrips (D : Z) : Prop :=
  let c := Date.civil_of_days D in
  let y := fst (fst c) in
  Date.days_of_civil (if (0 <=? y) && (y <=? 99) then 1900 + y else y)
    (snd (fst c)) (snd c) = D.

(** The time stamps that the streak loops act on: the parsed [create_time]
    of the rows, those that are zero or [NaN] left out. *)
Definition timesOf (rows : list Row) : list Z :=
  flat_map
    (fun row =>
       match createTimeOf row with
       | Some t => if t =? 0 then [] else [t]
       | None => []
       end)
    rows.

(** The days from [a] to [b] all have a message. *)
Definition isRun (days : list Z) (a b : Z) : Prop :=
  a <= b /\ forall d, a <= d <= b -> In d days.

(** The text [yyyy-mm-dd] of a civil day. *)
Definition ymdText (D : Z) : jsstring :=
  Js.string_of_Z (fst (fst (Date.civil_of_days D))) ++ [45%N]
  ++ Js.padStart2 (Js.string_of_Z (snd (fst (Date.civil_of_days D)))) ++ [45%N]
  ++ Js.padStart2 (Js.string_of_Z (snd (Date.civil_of_days D))).

(** The best run of the streak variables is a longest run of consecutive
    days among [days], with the texts of its first and last day. *)
Definition bestIsLongestRun (P : Platform) (days : list Z) (s : Streak) : Prop :=
  exists a b,
    isRun days a b /\
    maxStreak s = b - a + 1 /\
    option_map (formatDateYmd P) (maxStart s) = Some (ymdText a) /\
    option_map (formatDateYmd P) (maxEnd s) = Some (ymdText b) /\
    forall a' b', isRun days a' b' -> b' - a' + 1 <= maxStreak s.

(** The streak variables after the dates [seen], each with its day index,
    the last of which is [last]. *)
Definition streakInv (s : Streak) (seen : list (Date.t * Z)) (last : Z) : Prop :=
  lastDayIndex s = Some (Some last) /\
  (forall p, In p seen -> snd p <= last) /\
  1 <= currentStreak s <= maxStreak s /\
  (exists dc, currentStart s = Some dc /\ In (dc, last - currentStreak s + 1) seen) /\
  isRun (map snd seen) (last - currentStreak s + 1) last /\
  ~ In (last - currentStreak s) (map snd seen) /\
  (exists da db a b,
      maxStart s = Some da /\ maxEnd s = Some db /\
      In (da, a) seen /\ In (db, b) seen /\
      maxStreak s = b - a + 1 /\ isRun (map snd seen) a b) /\
  (forall a' b', isRun (map snd seen) a' b' -> b' - a' + 1 <= maxStreak s).

(** Local midnight of the civil day [D], and what its day index adds to
    [D]. *)
Definition midnight (P : Platform) (D : Z) : Date.t :=
  Some (D * Date.msPerDay - tzOffset P * 1000).

Definition dayShift (P : Platform) : Z := (- (tzOffset P * 1000)) / Date.msPerDay.

(** The local civil day of a time stamp in seconds. *)
Definition localDayOf (P : Platform) (t : Z) : Z := Date.localDay P (t * 1000).

(** Decidable form of [roundTrips]. *)
Definition roundTripsb (D : Z) : bool :=
  let c := Date.civil_of_days D in
  let y := fst (fst c) in
  Date.days_of_civil (if (0 <=? y) && (y <=? 99) then 1900 + y else y)
    (snd (fst c)) (snd c) =? D.

(** A test on the [2 ^ k] integers from [lo]. *)
Fixpoint allFrom (test : Z -> bool) (k : nat) (lo : Z) : bool :=
  match k with
  | O => test lo
  | Datatypes.S k' => allFrom test k' lo && allFrom test k' (lo + 2 ^ Z.of_nat k')
  end.

(** The days from 1970-01-01 to 2149-06-06. *)
Definition modernDay (D : Z) : Prop := 0 <= D < 65536.

(** The conversation counts and the response samples of a session, as
    the report reads them from the maps. *)
Definition startsOf (a : Acc) (sessionId : jsstring) : ConvStats :=
  match JsMap.get (conversationStarts a) sessionId with
  | Some c => c
  | None => {| initiated := 0; received := 0 |}
  end.

Definition samplesOf (a : Acc) (sessionId : jsstring) : list Z :=
  match JsMap.get (responseTimeStats a) sessionId with
  | Some l => l
  | None => []
  end.

(** One more conversation started by the side that sent the message. *)
Definition startedBy (sent : bool) (c : ConvStats) : ConvStats :=
  if sent then {| initiated := initiated c + 1; received := received c |}
  else {| initiated := initiated c; received := received c + 1 |}.

(** "A message whose gap since the previous message of its session is
    [far] is counted as a conversation started by its sender and gives no
    response sample." *)
Definition newConversationWhen (far : Z -> Prop) : Prop :=
  forall (sessionId : jsstring) (createTime : Z) (sent : bool) (a : Acc)
         (lastMsg : LastMsg),
    JsMap.get (lastMessageTime a) sessionId = Some lastMsg ->
    far (createTime - time lastMsg) ->
    startsOf (convObserve sessionId createTime sent a) sessionId
    = startedBy sent (startsOf a sessionId) /\
    responseTimeStats (convObserve sessionId createTime sent a) = responseTimeStats a.





(** What the full scan hands on. *)
Definition scanned (a : Acc) : Gathered :=
  {| acc := a; responseStatsFromSql := None; topPhrasesFromSql := None;
     useSqlExtras := false; streakComputedInLoop := true |}.

(** "Zero sessions give a result of the success shape." *)
Definition emptyIsSuccess (P : Platform) : Prop :=
  forall S params cleanedWxid rawWxid,
    ensureConnectedWithConfig P S (p_dbPath params) (p_decryptKey params) (p_wxid params)
    = Success (cleanedWxid, rawWxid) ->
    cleanedWxid <> [] ->
    getPrivateSessions P S cleanedWxid = [] ->
    exists data, generateReportWithConfig P S params = Success data.

(** The failures of the connection step. *)
Definition connectionFailures : list Failure :=
  [NoWxid; NoDbPath; NoDecryptKey; OpenFailed].

(** Entries by decreasing count. *)
Definition byCountDesc (x y : jsstring * Z) : Prop := snd y <= snd x.

(** The filter of the phrases as the specification words it: no angle bracket of
    either direction. *)
Definition eligibleWithoutBrackets (maxLen : Z) (text : jsstring) : bool :=
  (2 <=? Js.len text) && (Js.len text <=? maxLen)
  && negb (Js.includes text (Js.of_ascii "http"))
  && negb (Js.includes text (Js.of_ascii "<") || Js.includes text (Js.of_ascii ">"))
  && negb (Js.startsWith text (Js.of_ascii "["))
  && negb (Js.startsWith text (Js.of_ascii "<?xml")).

(** "The phrase accumulator of the annual report counts only text that
    passes [accepts]." *)
Definition annualCountsOnly (P : Platform) (accepts : jsstring -> bool) : Prop :=
  forall localType sent row a a' text,
    phraseObserve P localType sent row a = Some a' ->
    JsMap.get (phraseCount a') text <> JsMap.get (phraseCount a) text ->
    accepts text = true.

(** Every time stamp among the rows is one that [Date] represents. *)
Definition validTimes (rows : list Row) : Prop :=
  Forall (fun row =>
            forall t, createTimeOf row = Some t -> Date.ofSeconds t <> None)
    rows.

(** The number of rows with a usable time stamp. *)
Definition timed (rows : list Row) : Z :=
  Z.of_nat (List.length (filter hasTimestamp rows)).

(** A heat map of seven rows of twenty-four cells, and one of its cells. *)
Definition gridShape (g : list (list Z)) : Prop :=
  List.length g = 7%nat /\ Forall (fun row => List.length row = 24%nat) g.

Definition cell (g : list (list Z)) (w h : Z) : Z :=
  nth (Z.to_nat h) (nth (Z.to_nat w) g []) 0.

Definition sumGrid (g : list (list Z)) : Z :=
  fold_right Z.add 0 (map (fold_right Z.add 0) g).

End Spec.

(** ** Sample data *)

Module Sample.

Import Store Annual.

Definition textRow (time sent text : string) : Row :=
  {| create_time := Some (Js.of_ascii time);
     computed_is_send := None;
     is_send := Some (Js.of_ascii sent);
     local_type := Some (Js.of_ascii "1");
     type_ := None;
     message_content := Decoder.RawString (Js.of_ascii text);
     compress_content := Decoder.RawAbsent |}.

Definition oneBatch (rows : list Row) : Cursor :=
  [{| batch_success := true; batch_rows := Some rows; batch_hasMore := false |}].

Definition alice : jsstring := Js.of_ascii "alice".

Definition params : Params :=
  {| p_year := 2023; p_wxid := Js.of_ascii "wxid_me";
     p_dbPath := Js.of_ascii "/db"; p_decryptKey := Js.of_ascii "key" |}.

(** A store with the single session [alice], whose extras call fails. *)
Definition storeOf (rows : list Row) (daily : list (jsstring * Z)) : Store.t :=
  {| open := fun _ _ _ => true;
     getSessions :=
       Some [{| sr_username := Some alice; sr_user_name := None; sr_userName := None |}];
     openMessageCursorLite := fun sessionId _ =>
       if Js.eqb sessionId alice then Some (oneBatch rows) else None;
     getAnnualReportStats :=
       Some {| bs_total := Z.of_nat (List.length rows);
               bs_sessions := [(alice, {| ss_sent := 0; ss_received := 0 |})];
               bs_daily := daily |};
     statsError := None;
     extrasSuccess := false;
     extrasData := None;
     getDisplayNames := Some [(alice, Js.of_ascii "Alice")];
     Store.getAvailableYears := None;
     openMessageCursor := fun sessionId ascending =>
       if Js.eqb sessionId alice
       then Some (oneBatch (if ascending then firstn 1 rows else firstn 1 (rev rows)))
       else None |}.




(** A store without any session. *)
Definition emptyStore : Store.t :=
  {| open := fun _ _ _ => true;
     getSessions := Some [];
     openMessageCursorLite := fun _ _ => None;
     getAnnualReportStats := None;
     statsError := None;
     extrasSuccess := false;
     extrasData := None;
     getDisplayNames := None;
     Store.getAvailableYears := None;
     openMessageCursor := fun _ _ => None |}.

(** Noon, China Standard Time, on 2023-01-01, 01-02, 01-03 and 01-10. *)
Definition streakRows : list Row :=
  [textRow "1672545600" "0" "a"; textRow "1672632000" "0" "b";
   textRow "1672718400" "0" "c"; textRow "1673323200" "0" "d"].

Definition streakStore : Store.t :=
  storeOf streakRows
    [(Js.of_ascii "2023-01-01", 1); (Js.of_ascii "2023-01-02", 1);
     (Js.of_ascii "2023-01-03", 1); (Js.of_ascii "2023-01-10", 1)].

(** The accumulators after a message of the peer at second 1000. *)
Definition afterPeer : Acc := convObserve alice 1000 false acc0.

(** A message of the peer and an answer of self exactly one hour later. *)
Definition hourRows : list Row :=
  [textRow "1672545600" "0" "ping"; textRow "1672549200" "1" "pong"].

(** A message of self with a closing angle bracket. *)
Definition bracketRow : Row := textRow "1672545600" "1" "a>b".

(** The same greeting of self twice. *)
Definition helloRows : list Row :=
  [textRow "1672545600" "1" "hello world"; textRow "1672545700" "1" " hello world "].

Definition hourStore : Store.t :=
  storeOf hourRows [(Js.of_ascii "2023-01-01", 2)].

End Sample.

(** ** Annual report: rankings of the contacts *)

Module Friends.

Import Store Annual.

(** An entry of [coreFriends], without the address of the avatar. *)
Record TopContact := {
  username : jsstring;
  displayName : jsstring;
  messageCount : Z;
  sentCount : Z;
  receivedCount : Z
}.

(** [list.sort((a, b) => b.messageCount - a.messageCount)]: the stable sort
    by decreasing number of messages. *)
Fixpoint insertByCount (c : TopContact) (l : list TopContact) : list TopContact :=
  match l with
  | [] => [c]
  | x :: l' =>
      if messageCount c <? messageCount x then x :: insertByCount c l'
      else c :: x :: l'
  end.

Definition sortByCount (l : list TopContact) : list TopContact :=
  fold_right insertByCount [] l.

(** A [Map] from numbers to numbers; a key is [NaN] when it is [None]. *)
Definition numKeyEqb (a b : option Z) : bool :=
  match a, b with
  | Some x, Some y => x =? y
  | None, None => true
  | _, _ => false
  end.

Fixpoint monthGet (m : list (option Z * Z)) (k : option Z) : option Z :=
  match m with
  | [] => None
  | (k', v) :: m' => if numKeyEqb k' k then Some v else monthGet m' k
  end.

Fixpoint monthSet (m : list (option Z * Z)) (k : option Z) (v : Z)
  : list (option Z * Z) :=
  match m with
  | [] => [(k, v)]
  | (k', v') :: m' =>
      if numKeyEqb k' k then (k', v) :: m' else (k', v') :: monthSet m' k v
  end.

(** [for (const [m, c] of Object.entries(s.monthly || {}))
      mMap.set(parseInt(m, 10), c)] *)
Definition monthlyOf (entries : list (jsstring * Z)) : list (option Z * Z) :=
  fold_left (fun m e => monthSet m (Js.parseInt10 (fst e)) (snd e)) entries [].

Record MonthlyTopFriend := {
  month : Z;
  monthName : jsstring;
  monthCount : Z
}.

(** '暂无' *)
Definition noneYet : jsstring := [26242%N; 26080%N].

Section WithStore.
Context (S : Store.t).

(** [contactInfoMap.get(id)?.displayName] *)
Definition infoName (contactStats : JsMap.t SessionStat) (id : jsstring) : Js.field :=
  if JsMap.has contactStats id then
    match getDisplayNames S with
    | Some names => Some (Js.or_else (JsMap.get names id) id)
    | None => Some id
    end
  else None.

(** [coreFriends]: the three contacts with the most messages. *)
Definition coreFriends (d : BaseStats) : list TopContact :=
  let contactStats := setAll (fun s => s) (bs_sessions d) [] in
  firstn 3
    (sortByCount
       (map (fun e =>
               {| username := fst e;
                  displayName := Js.or_else (infoName contactStats (fst e)) (fst e);
                  messageCount := ss_sent (snd e) + ss_received (snd e);
                  sentCount := ss_sent (snd e);
                  receivedCount := ss_received (snd e) |})
          contactStats)).

(** The session with the most messages in a month, the first one among
    equals, starting from [('', 0)]. *)
Definition monthTop (monthlyStats : JsMap.t (list (option Z * Z))) (m : Z)
  : jsstring * Z :=
  fold_left
    (fun best e =>
       let count := orZero (monthGet (snd e) (Some m)) in
       if snd best <? count then (fst e, count) else best)
    monthlyStats ([], 0).

(** [monthlyTopFriends], from the map of the months of each session:
    [monthly] holds, for each session of [d.sessions], the entries of its
    [monthly] object. *)
Definition monthlyTopFriends (d : BaseStats)
  (monthly : list (jsstring * list (jsstring * Z))) : list MonthlyTopFriend :=
  let contactStats := setAll (fun s => s) (bs_sessions d) [] in
  let monthlyStats := setAll monthlyOf monthly [] in
  map (fun m =>
         let top := monthTop monthlyStats m in
         {| month := m;
            monthName :=
              Js.or_else (infoName contactStats (fst top))
                (match fst top with [] => noneYet | _ => fst top end);
            monthCount := snd top |})
    [1; 2; 3; 4; 5; 6; 7; 8; 9; 10; 11; 12].

End WithStore.

End Friends.

(** ** Dual report: first messages and favourite sticker *)

Module DualChat.

Import Store.

(** [for (const row of batch.rows) { rows.push(row); if (rows.length >=
    limit) break }] *)
Fixpoint pushUntil (limit : Z) (rows batchRows : list Row) : list Row :=
  match batchRows with
  | [] => rows
  | row :: rest =>
      if limit <=? Z.of_nat (List.length (rows ++ [row])) then rows ++ [row]
      else pushUntil limit (rows ++ [row]) rest
  end.

(** [while (hasMore && rows.length < limit) { ... }] of
    [getFirstMessages] *)
Fixpoint collectFirst (limit : Z) (rows : list Row) (cursor : Cursor) : list Row :=
  if Z.of_nat (List.length rows) <? limit then
    match cursor with
    | [] => rows
    | batch :: cursor' =>
        if negb (batch_success batch) then rows
        else
          match batch_rows batch with
          | None => rows
          | Some batchRows =>
              if batch_hasMore batch
              then collectFirst limit (pushUntil limit rows batchRows) cursor'
              else pushUntil limit rows batchRows
          end
    end
  else rows.

(** [getFirstMessages], from the answer of [openMessageCursor] for the
    window; the last step is [rows.slice(0, limit)], taken of no row at
    all when [limit] is not positive, the loop not being entered. *)
Definition getFirstMessages (opened : option Cursor) (limit : Z) : list Row :=
  match opened with
  | None => []
  | Some cursor => firstn (Z.to_nat limit) (collectFirst limit [] cursor)
  end.

(** [pickTop]: the key with the largest count, the first one among
    equals; [None] is [undefined]. *)
Definition pickTop (map : JsMap.t Z) : option jsstring :=
  fst (fold_left
         (fun best e => if snd best <? snd e then (Some (fst e), snd e) else best)
         map (None, -1)).

End DualChat.

(** ** Further notions used to state the properties *)

Module Spec2.

Import Store Annual Spec.

(** The rows with a time stamp among the rows of a session, each with the
    session: what the full scan acts on. *)
Definition eventsOf (sessionId : jsstring) (rows : list Row)
  : list (jsstring * Row) :=
  map (fun row => (sessionId, row)) (filter hasTimestamp rows).

Definition scannedEvents (S : Store.t) (sessionIds : list jsstring)
  : list (jsstring * Row) :=
  flat_map
    (fun sessionId =>
       match openMessageCursorLite S sessionId 1000 with
       | Some cursor => eventsOf sessionId (delivered cursor)
       | None => []
       end)
    sessionIds.

Definition countIf (p : jsstring * Row -> bool) (l : list (jsstring * Row)) : Z :=
  Z.of_nat (List.length (filter p l)).

(** [m.get(k) || 0] *)
Definition countOf (m : JsMap.t Z) (k : jsstring) : Z :=
  match JsMap.get m k with
  | Some n => n
  | None => 0
  end.

(** The time value of [new Date(createTime * 1000)] for a row. *)
Definition msOf (row : Row) : Z :=
  match createTimeOf row with
  | Some t => t * 1000
  | None => 0
  end.

(** The row falls on week day [w] (Monday is 0) at hour [h]. *)
Definition inCell (P : Platform) (w h : Z) (e : jsstring * Row) : bool :=
  (w =? weekdayIndex P (msOf (snd e))) && (h =? Date.getHours P (msOf (snd e))).

(** The row belongs to the session and falls before six o'clock. *)
Definition atNight (P : Platform) (sessionId : jsstring) (e : jsstring * Row) : bool :=
  Js.eqb (fst e) sessionId && (Date.getHours P (msOf (snd e)) <? 6).

(** The row belongs to the session and falls on the day of the key. *)
Definition onDay (P : Platform) (day sessionId : jsstring) (e : jsstring * Row) : bool :=
  Js.eqb (fst e) sessionId && Js.eqb (Date.ymdKey P (msOf (snd e))) day.

(** The phrase that a row adds to the counts of the annual report. *)
Definition phraseOf (P : Platform) (row : Row) : option jsstring :=
  if isTextType (localTypeOf row) && isSentOf row then
    match Decoder.decodeMessageContent P (message_content row) (compress_content row) with
    | Some content =>
        if phraseEligible 20 (Js.trim content) then Some (Js.trim content) else None
    | None => None
    end
  else None.

Definition saysPhrase (P : Platform) (text : jsstring) (e : jsstring * Row) : bool :=
  match phraseOf P (snd e) with
  | Some t => Js.eqb t text
  | None => false
  end.

(** The peak-day counts of the contacts. *)
Definition dayMapOf (a : Acc) (day : jsstring) : JsMap.t Z :=
  match JsMap.get (dailyContactStats a) day with
  | Some m => m
  | None => []
  end.

(** Conversation starts and response samples over all sessions. *)
Definition conversationsOf (a : Acc) : Z :=
  fold_right Z.add 0
    (map (fun c => initiated c + received c) (JsMap.values (conversationStarts a))).

Definition samplesCount (a : Acc) : Z :=
  fold_right Z.add 0
    (map (fun l => Z.of_nat (List.length l)) (JsMap.values (responseTimeStats a))).

(** The time stamp of the row is outside the range of [Date]. *)
Definition invalidTime (row : Row) : Prop :=
  exists t, createTimeOf row = Some t /\ Date.ofSeconds t = None.

(** White space occurs in the text as single spaces U+0020 only, and not
    at its start when [afterSpace] holds. *)
Fixpoint collapsed (afterSpace : bool) (text : jsstring) : bool :=
  match text with
  | [] => true
  | c :: text' =>
      if Js.is_space c then (c =? 32)%N && negb afterSpace && collapsed true text'
      else collapsed false text'
  end.

(** The rows of a given message type among the rows. *)
Definition ofType (n : Z) (rows : list Row) : Z :=
  Z.of_nat
    (List.length
       (filter (fun row => match localTypeOf row with
                           | Some t => t =? n
                           | None => false
                           end) rows)).

End Spec2.

(** * Properties *)

(** ** Content decoder *)

Section DecoderFacts.
Context (P : Platform).

Import Decoder.

Local Arguments hexDecode : simpl never.
Local Arguments looksLikeHex : simpl never.
Local Arguments looksLikeBase64 : simpl never.
Local Arguments decodeBinaryContent : simpl never.
Local Arguments decodeBinaryBody : simpl never.

Lemma decodeBinaryContent_returns (data : list byte) :
  exists text, decodeBinaryContent P data = Some text.
Proof.
  destruct data as [|b data]; unfold decodeBinaryContent.
  - now exists [].
  - destruct (decodeBinaryBody P (b :: data)) as [text|]; simpl; eauto.
Qed.

Lemma decodeBinaryContent_caught (data : list byte) :
  decodeBinaryBody P data = None -> decodeBinaryContent P data = Some [].
Proof.
  intros Hbody. destruct data as [|b data]; [reflexivity|].
  unfold decodeBinaryContent. now rewrite Hbody.
Qed.

Lemma decodeMaybeCompressed_hex (s : jsstring) :
  decodePath (RawString s) = ViaHex ->
  decodeMaybeCompressed P (RawString s) = decodeBinaryContent P (hexDecode s).
Proof.
  destruct s as [|c r]; [discriminate|].
  unfold decodePath, decodeMaybeCompressed.
  destruct (looksLikeHex (c :: r)); simpl.
  - destruct (hexDecode (c :: r)) as [|b bytes] eqn:Hhex; simpl; [|reflexivity].
    destruct (looksLikeBase64 (c :: r)); discriminate.
  - destruct (looksLikeBase64 (c :: r)); discriminate.
Qed.

Lemma decodeMaybeCompressed_base64 (s : jsstring) :
  decodePath (RawString s) = ViaBase64 ->
  decodeMaybeCompressed P (RawString s) = decodeBinaryContent P (base64Decode P s).
Proof.
  destruct s as [|c r]; [discriminate|].
  unfold decodePath, decodeMaybeCompressed.
  destruct (looksLikeHex (c :: r)); simpl.
  - destruct (hexDecode (c :: r)) as [|b bytes] eqn:Hhex; simpl; [|discriminate].
    destruct (looksLikeBase64 (c :: r)); [|discriminate].
    intros _. now destruct (decodeBinaryContent_returns (base64Decode P (c :: r))) as [t ->].
  - destruct (looksLikeBase64 (c :: r)); [|discriminate].
    intros _. now destruct (decodeBinaryContent_returns (base64Decode P (c :: r))) as [t ->].
Qed.

Lemma decodeMaybeCompressed_plain (s : jsstring) :
  decodePath (RawString s) = ViaPlain ->
  decodeMaybeCompressed P (RawString s) = Some s.
Proof.
  destruct s as [|c r]; [discriminate|].
  unfold decodePath, decodeMaybeCompressed.
  destruct (looksLikeHex (c :: r)); simpl.
  - destruct (hexDecode (c :: r)) as [|b bytes] eqn:Hhex; simpl; [|discriminate].
    destruct (looksLikeBase64 (c :: r)); [discriminate|reflexivity].
  - destruct (looksLikeBase64 (c :: r)); [discriminate|reflexivity].
Qed.

Lemma decodeMaybeCompressed_empty (raw : raw_value) :
  decodePath raw = ViaEmpty -> decodeMaybeCompressed P raw = Some [].
Proof.
  destruct raw as [|[|c r]|]; try reflexivity.
  unfold decodePath.
  destruct (looksLikeHex (c :: r) && _); [discriminate|].
  destruct (looksLikeBase64 (c :: r)); discriminate.
Qed.

Lemma decodeMaybeCompressed_returns (raw : raw_value) :
  exists text, decodeMaybeCompressed P raw = Some text.
Proof.
  destruct (decodePath raw) eqn:Hpath.
  - rewrite decodeMaybeCompressed_empty by assumption. eauto.
  - destruct raw as [|s|]; try discriminate.
    rewrite decodeMaybeCompressed_hex by assumption.
    apply decodeBinaryContent_returns.
  - destruct raw as [|s|]; try discriminate.
    rewrite decodeMaybeCompressed_base64 by assumption.
    apply decodeBinaryContent_returns.
  - destruct raw as [|s|]; try discriminate.
    rewrite decodeMaybeCompressed_plain by assumption. eauto.
Qed.

Lemma decodeMessageContent_returns (messageContent compressContent : raw_value) :
  exists text, decodeMessageContent P messageContent compressContent = Some text.
Proof.
  unfold decodeMessageContent.
  destruct (decodeMaybeCompressed_returns compressContent) as [t ->]. simpl.
  destruct t; [apply decodeMaybeCompressed_returns | eauto].
Qed.

(** C5.  Whatever the input value, [decodeMaybeCompressed] returns a string
    and raises nothing; and when the input is turned into a buffer whose
    decoding raises (the decompression of a zstd frame), the result is the
    empty string. *)
Theorem decoder_never_raises (raw : raw_value) :
  (exists text, decodeMaybeCompressed P raw = Some text) /\
  (forall data,
      bufferOf P raw = Some data ->
      decodeBinaryBody P data = None ->
      decodeMaybeCompressed P raw = Some []).
Proof.
  split; [apply decodeMaybeCompressed_returns|].
  intros data Hbuf Hbody. unfold bufferOf in Hbuf.
  destruct (decodePath raw) eqn:Hpath; destruct raw as [|s|]; try discriminate;
    injection Hbuf as <-.
  - rewrite decodeMaybeCompressed_hex by assumption.
    now apply decodeBinaryContent_caught.
  - rewrite decodeMaybeCompressed_base64 by assumption.
    now apply decodeBinaryContent_caught.
Qed.


Lemma stripReplacement_clean (decoded : jsstring) :
  ~ In replacementChar (stripReplacement decoded).
Proof.
  unfold stripReplacement. intros Hin. apply filter_In in Hin as [_ Hkeep].
  now rewrite N.eqb_refl in Hkeep.
Qed.

(** C10.  On a buffer that is not a zstd frame, when fewer than a fifth of
    the code units of the UTF-8 decoding are U+FFFD the result is that
    decoding with every U+FFFD removed, so it holds none; otherwise the
    result is the Latin-1 decoding of the whole buffer. *)
Theorem direct_utf8_path (data : list byte) :
  data <> [] ->
  isZstdFrame data = false ->
  let decoded := utf8Decode P data in
  (5 * replacementCount decoded < Js.len decoded ->
   decodeBinaryContent P data = Some (stripReplacement decoded) /\
   ~ In replacementChar (stripReplacement decoded)) /\
  (5 * replacementCount decoded >= Js.len decoded ->
   decodeBinaryContent P data = Some (latin1Decode data)).
Proof.
  intros Hne Hmagic decoded.
  destruct data as [|b data]; [contradiction|].
  unfold decodeBinaryContent, decodeBinaryBody. rewrite Hmagic.
  fold decoded. unfold fewReplacements. split; intros Hfrac.
  - apply Z.ltb_lt in Hfrac. rewrite Hfrac. simpl.
    split; [reflexivity | apply stripReplacement_clean].
  - apply Z.ge_le, Z.ltb_ge in Hfrac. now rewrite Hfrac.
Qed.

End DecoderFacts.

(** The property of C6 is about the strings returned as they are: the text
    decoded from the hexadecimal string "61626364" is "abcd", which a
    second application reads as two bytes. *)
Remark decoded_hex_text_is_decoded_again :
  Decoder.decodeMaybeCompressed Node.cst (Decoder.RawString (Js.of_ascii "61626364"))
  = Some (Js.of_ascii "abcd") /\
  Decoder.decodeMaybeCompressed Node.cst (Decoder.RawString (Js.of_ascii "abcd"))
  = Some [171%N; 205%N].
Proof. split; reflexivity. Qed.

Lemma decoder_never_raises_witness :
  (exists text,
      Decoder.decodeMaybeCompressed Node.cst
        (Decoder.RawString (Js.of_ascii "28b52ffd")) = Some text) /\
  Decoder.decodeMaybeCompressed Node.cst
    (Decoder.RawString (Js.of_ascii "28b52ffd")) = Some [].
Proof.
  destruct (decoder_never_raises Node.cst (Decoder.RawString (Js.of_ascii "28b52ffd")))
    as [Htotal Hfail].
  split; [exact Htotal|].
  apply (Hfail [x28; xb5; x2f; xfd]); reflexivity.
Defined.


Lemma direct_utf8_path_witness :
  Decoder.decodeBinaryContent Node.cst [x68; x69; xff; x21; x21; x21]
  = Some (Js.of_ascii "hi!!!") /\
  Decoder.decodeBinaryContent Node.cst [x68; xff] = Some [104%N; 255%N].
Proof.
  split.
  - apply (direct_utf8_path Node.cst [x68; x69; xff; x21; x21; x21]);
      [discriminate | reflexivity | vm_compute; reflexivity].
  - apply (direct_utf8_path Node.cst [x68; xff]);
      [discriminate | reflexivity | vm_compute; discriminate].
Defined.

(** ** Streak *)

Section StreakFacts.
Context (P : Platform).

Import Store Annual Spec.

Lemma streakObserveLite_eq (s : Streak) (dayDate : Date.t) :
  streakObserveLite s dayDate = streakObserve s dayDate.
Proof.
  unfold streakObserveLite, streakObserve.
  destruct (lastDayIndex s) as [l|]; [|reflexivity].
  now destruct (num_eq (Date.dayIndexOf dayDate) l).
Qed.

Lemma streak_same_day (s : Streak) (dayDate : Date.t) (d : Z) :
  Date.dayIndexOf dayDate = Some d ->
  lastDayIndex s = Some (Some d) ->
  streakObserve s dayDate = s.
Proof.
  intros Hd Hl. unfold streakObserve. rewrite Hd, Hl. simpl.
  now rewrite Z.eqb_refl.
Qed.

Lemma streak_next_day (s : Streak) (dayDate : Date.t) (d last : Z) :
  Date.dayIndexOf dayDate = Some d ->
  lastDayIndex s = Some (Some last) ->
  d = last + 1 ->
  currentStreak (streakObserve s dayDate) = currentStreak s + 1 /\
  currentStart (streakObserve s dayDate) = currentStart s /\
  lastDayIndex (streakObserve s dayDate) = Some (Some d).
Proof.
  intros Hd Hl ->. unfold streakObserve, streakAdvance. rewrite Hd, Hl. simpl.
  replace (last + 1 =? last) with false by (symmetry; apply Z.eqb_neq; lia).
  replace (last + 1 - last =? 1) with true by (symmetry; apply Z.eqb_eq; lia).
  simpl. now destruct (maxStreak s <? currentStreak s + 1).
Qed.

Lemma streak_other_day (s : Streak) (dayDate : Date.t) (d : Z) :
  Date.dayIndexOf dayDate = Some d ->
  (forall last, lastDayIndex s = Some (Some last) -> d <> last /\ d <> last + 1) ->
  currentStreak (streakObserve s dayDate) = 1 /\
  currentStart (streakObserve s dayDate) = Some dayDate /\
  lastDayIndex (streakObserve s dayDate) = Some (Some d).
Proof.
  intros Hd Hl. unfold streakObserve, streakAdvance. rewrite Hd.
  destruct (lastDayIndex s) as [[last|]|]; simpl.
  - destruct (Hl last eq_refl) as [Hne Hnext].
    replace (d =? last) with false by (symmetry; apply Z.eqb_neq; lia).
    replace (d - last =? 1) with false by (symmetry; apply Z.eqb_neq; lia).
    simpl. now destruct (maxStreak s <? 1).
  - now destruct (maxStreak s <? 1).
  - now destruct (maxStreak s <? 1).
Qed.

(** The best run of a session is raised to the current run when that one
    is longer, with its first and last day. *)
Lemma streak_max (s : Streak) (dayDate : Date.t) :
  let s' := streakObserve s dayDate in
  s' = s \/
  (maxStreak s < currentStreak s' /\ maxStreak s' = currentStreak s' /\
   maxStart s' = currentStart s' /\ maxEnd s' = Some dayDate) \/
  (currentStreak s' <= maxStreak s /\ maxStreak s' = maxStreak s /\
   maxStart s' = maxStart s /\ maxEnd s' = maxEnd s).
Proof.
  unfold streakObserve.
  destruct (match lastDayIndex s with None => true | Some l => _ end); [|now left].
  right. unfold streakAdvance.
  match goal with |- context [maxStreak s <? ?c] => destruct (Z.ltb_spec (maxStreak s) c) end;
    simpl; [left | right]; repeat split; lia.
Qed.

(** *** The best streak over the sessions *)

Lemma bestOver_app (b : Best) (l1 l2 : list (jsstring * Streak)) :
  bestOver b (l1 ++ l2) = bestOver (bestOver b l1) l2.
Proof. apply fold_left_app. Qed.

Lemma bestUpdate_days (b : Best) (sessionId : jsstring) (s : Streak) :
  bestDays (bestUpdate b sessionId s) = Z.max (bestDays b) (maxStreak s).
Proof.
  unfold bestUpdate. destruct (Z.ltb_spec (bestDays b) (maxStreak s)); simpl; lia.
Qed.

Lemma bestOver_ge (l : list (jsstring * Streak)) (b : Best) :
  bestDays b <= bestDays (bestOver b l) /\
  Forall (fun e => maxStreak (snd e) <= bestDays (bestOver b l)) l.
Proof.
  revert b. induction l as [|e l IH]; intros b; simpl.
  - split; [lia | constructor].
  - destruct (IH (bestUpdate b (fst e) (snd e))) as [Hge Hall].
    rewrite bestUpdate_days in Hge. split; [lia|].
    constructor; [lia | exact Hall].
Qed.

Lemma bestOver_cons (b : Best) (e : jsstring * Streak) (l : list (jsstring * Streak)) :
  bestOver b (e :: l) = bestOver (bestUpdate b (fst e) (snd e)) l.
Proof. reflexivity. Qed.

(** The best streak is the initial one, or it is the record of the first
    session whose best run has the largest length. *)
Lemma bestOver_attained (l : list (jsstring * Streak)) (b : Best) :
  bestOver b l = b \/
  exists l1 e l2,
    l = l1 ++ e :: l2 /\
    bestOver b l =
      {| bestSessionId := fst e; bestDays := maxStreak (snd e);
         bestStart := maxStart (snd e); bestEnd := maxEnd (snd e) |} /\
    bestDays b < maxStreak (snd e) /\
    Forall (fun x => maxStreak (snd x) < maxStreak (snd e)) l1 /\
    Forall (fun x => maxStreak (snd x) <= maxStreak (snd e)) l2.
Proof.
  revert b. induction l as [|e l IH]; intros b; [now left|].
  rewrite bestOver_cons.
  destruct (IH (bestUpdate b (fst e) (snd e)))
    as [Hsame | (l1 & x & l2 & -> & Hbest & Hlt & H1 & H2)].
  - rewrite Hsame.
    pose proof (bestOver_ge l (bestUpdate b (fst e) (snd e))) as [_ Hall].
    rewrite Hsame in Hall. revert Hall.
    unfold bestUpdate.
    destruct (Z.ltb_spec (bestDays b) (maxStreak (snd e))); [|now left].
    intros Hall. right. exists [], e, l.
    repeat split; try constructor; assumption.
  - right. exists (e :: l1), x, l2.
    rewrite bestUpdate_days in Hlt.
    repeat split; try assumption; [lia|].
    constructor; [lia | assumption].
Qed.

End StreakFacts.

(** ** Structure of the full scan *)

Section ScanFacts.
Context (P : Platform).

Import Store Annual Spec.

Ltac bind_inv H :=
  match type of H with
  | bind ?c _ = Some _ =>
      let E := fresh "E" in
      destruct c eqn:E; simpl in H; [|discriminate H]
  end.

(** A row without a usable time stamp changes nothing. *)
Lemma scanRow_skip (pk sid : jsstring) (st : Acc * Streak) (row : Row) :
  hasTimestamp row = false -> scanRow P pk sid st row = Some st.
Proof.
  unfold hasTimestamp, scanRow.
  destruct (createTimeOf row) as [t|]; [|reflexivity].
  destruct (t =? 0); [reflexivity | discriminate].
Qed.

(** A row with a time stamp goes through the three groups of
    accumulators in turn. *)
Lemma scanRow_step (pk sid : jsstring) (a : Acc) (s : Streak) (row : Row)
  (st' : Acc * Streak) :
  hasTimestamp row = true ->
  scanRow P pk sid (a, s) row = Some st' ->
  exists createTime a2 ms,
    createTimeOf row = Some createTime /\ createTime <> 0 /\
    phraseObserve P (localTypeOf row) (isSentOf row) row
      (convObserve sid createTime (isSentOf row) a) = Some a2 /\
    Date.ofSeconds createTime = Some ms /\
    st' = calendarObserve P pk sid ms a2 s.
Proof.
  unfold hasTimestamp, scanRow.
  destruct (createTimeOf row) as [t|]; [|discriminate].
  destruct (Z.eqb_spec t 0); [discriminate|]. intros _ H. simpl in H.
  bind_inv H. destruct (Date.ofSeconds t) as [ms|] eqn:Hd; [|discriminate].
  injection H as <-. exists t, a0, ms. auto.
Qed.

Lemma phraseObserve_fields (localType : option Z) (sent : bool) (row : Row)
  (a a' : Acc) :
  phraseObserve P localType sent row a = Some a' ->
  heatmapData a' = heatmapData a /\ midnightStats a' = midnightStats a /\
  conversationStarts a' = conversationStarts a /\
  responseTimeStats a' = responseTimeStats a /\
  lastMessageTime a' = lastMessageTime a /\
  dailyContactStats a' = dailyContactStats a /\ longest a' = longest a.
Proof.
  unfold phraseObserve. destruct (isTextType localType && sent).
  - intros H. bind_inv H. destruct (phraseEligible 20 (Js.trim j));
      injection H as <-; repeat split.
  - intros H. injection H as <-. repeat split.
Qed.

Lemma calendarObserve_streak (pk sid : jsstring) (ms : Z) (a : Acc) (s : Streak) :
  snd (calendarObserve P pk sid ms a s) = streakObserve s (Date.dayDateOf P (Some ms)).
Proof. reflexivity. Qed.

Lemma calendarObserve_longest (pk sid : jsstring) (ms : Z) (a : Acc) (s : Streak) :
  longest (fst (calendarObserve P pk sid ms a s)) = longest a.
Proof. reflexivity. Qed.

Lemma convObserve_longest (sid : jsstring) (t : Z) (sent : bool) (a : Acc) :
  longest (convObserve sid t sent a) = longest a.
Proof. reflexivity. Qed.

Lemma scanRow_streak (pk sid : jsstring) (a a' : Acc) (s s' : Streak) (row : Row) :
  scanRow P pk sid (a, s) row = Some (a', s') ->
  s' = streakRow P s row /\ longest a' = longest a.
Proof.
  intros H. destruct (hasTimestamp row) eqn:Hts.
  - destruct (scanRow_step _ _ _ _ _ _ Hts H) as (t & a2 & ms & Ht & Hnz & Hph & Hdate & Heq).
    apply (f_equal snd) in Heq as Hs. apply (f_equal fst) in Heq as Ha.
    rewrite calendarObserve_streak in Hs. apply (f_equal longest) in Ha.
    rewrite calendarObserve_longest in Ha. simpl fst in Ha. simpl snd in Hs.
    subst s'. rewrite Ha. unfold streakRow. rewrite Ht.
    replace (t =? 0) with false by (symmetry; now apply Z.eqb_neq).
    rewrite streakObserveLite_eq, Hdate. split; [reflexivity|].
    apply phraseObserve_fields in Hph as (_ & _ & _ & _ & _ & _ & ->).
    apply convObserve_longest.
  - rewrite scanRow_skip in H by assumption. injection H as <- <-.
    split; [|reflexivity]. unfold streakRow. unfold hasTimestamp in Hts.
    destruct (createTimeOf row) as [t|]; [|reflexivity].
    destruct (t =? 0); [reflexivity | discriminate].
Qed.

Lemma scanRows_streak (pk sid : jsstring) (rows : list Row) (a a' : Acc)
  (s s' : Streak) :
  scanRows P pk sid (a, s) rows = Some (a', s') ->
  s' = fold_left (streakRow P) rows s /\ longest a' = longest a.
Proof.
  revert a s. induction rows as [|row rows IH]; intros a s H; simpl in H.
  - now injection H as <- <-.
  - bind_inv H. destruct p as [a1 s1].
    apply scanRow_streak in E as [-> <-]. now apply IH.
Qed.

Lemma scanCursor_streak (pk sid : jsstring) (cursor : Cursor) (a a' : Acc)
  (s s' : Streak) :
  scanCursor P pk sid (a, s) cursor = Some (a', s') ->
  s' = streakCursor P s cursor /\ longest a' = longest a.
Proof.
  revert a s. induction cursor as [|batch cursor IH]; intros a s H; simpl in *.
  - now injection H as <- <-.
  - destruct (negb (batch_success batch)); [now injection H as <- <-|].
    destruct (batch_rows batch) as [rows|]; [|now injection H as <- <-].
    bind_inv H. destruct p as [a1 s1].
    apply scanRows_streak in E as [-> <-].
    destruct (batch_hasMore batch); [now apply IH | now injection H as <- <-].
Qed.

(** The full scan leaves in [longest] the best streak over the sessions
    whose cursor opened. *)
Lemma fullScan_longest (S : Store.t) (pk : jsstring) (sessionIds : list jsstring)
  (a a' : Acc) :
  fullScan P S pk a sessionIds = Some a' ->
  longest a' = bestOver (longest a) (sessionStreaks P S 1000 sessionIds).
Proof.
  revert a. induction sessionIds as [|sid ids IH]; intros a H; simpl in H.
  - now injection H as <-.
  - bind_inv H. apply IH in H. rewrite H. unfold sessionStreaks. simpl.
    fold (sessionStreaks P S 1000 ids). unfold scanSession in E.
    destruct (openMessageCursorLite S sid 1000) as [cursor|].
    + bind_inv E. destruct p as [a1 s1]. injection E as <-.
      apply scanCursor_streak in E0 as [-> Hl]. simpl. now rewrite Hl.
    + now injection E as <-.
Qed.

Lemma computeLongestStreak_best (S : Store.t) (sessionIds : list jsstring) :
  computeLongestStreak P S sessionIds
  = bestOver best0 (sessionStreaks P S 2000 sessionIds).
Proof.
  unfold computeLongestStreak. generalize best0.
  induction sessionIds as [|sid ids IH]; intros b; [reflexivity|].
  simpl. rewrite IH. unfold sessionStreaks. simpl.
  fold (sessionStreaks P S 2000 ids). unfold streakSession.
  now destruct (openMessageCursorLite S sid 2000).
Qed.

End ScanFacts.

(** ** Local dates *)

Section DateFacts.
Context (P : Platform).
Hypothesis tz_bounded : Z.abs (tzOffset P) <= 86400.

Import Spec.

Lemma div_bounds (x m D : Z) :
  0 < m -> (x / m = D <-> D * m <= x < (D + 1) * m).
Proof.
  intros Hm. split.
  - intros <-. pose proof (Z.div_mod x m). pose proof (Z.mod_pos_bound x m). lia.
  - intros Hx. symmetry. apply (Z.div_unique x m D (x - D * m)); lia.
Qed.

Lemma localDay_bounds (ms D : Z) :
  Date.localDay P ms = D <->
  D * Date.msPerDay <= ms + tzOffset P * 1000 < (D + 1) * Date.msPerDay.
Proof.
  unfold Date.localDay, Date.localMs. apply div_bounds. reflexivity.
Qed.

Lemma dayDateOf_localDay (ms D : Z) :
  Date.localDay P ms = D ->
  roundTrips D ->
  -99999990 <= D <= 99999990 ->
  Date.dayDateOf P (Some ms) = Some (D * Date.msPerDay - tzOffset P * 1000).
Proof.
  intros Hday Hrt Hrange. unfold Date.dayDateOf, Date.ofYmd.
  unfold Date.getFullYear, Date.getMonth, Date.getDate. rewrite Hday.
  rewrite Z.sub_add. unfold roundTrips in Hrt. cbv zeta in Hrt. rewrite Hrt.
  unfold Date.timeClip.
  replace (Z.abs _ <=? Date.maxTime) with true; [reflexivity|].
  symmetry. apply Z.leb_le. unfold Date.msPerDay, Date.maxTime. lia.
Qed.

Lemma dayIndexOf_midnight (D : Z) :
  Date.dayIndexOf (Some (D * Date.msPerDay - tzOffset P * 1000))
  = Some (D + (- (tzOffset P * 1000)) / Date.msPerDay).
Proof.
  unfold Date.dayIndexOf. f_equal.
  replace (D * Date.msPerDay - tzOffset P * 1000)
    with (- (tzOffset P * 1000) + D * Date.msPerDay) by ring.
  rewrite Z.div_add by discriminate. ring.
Qed.

Lemma localDay_midnight (D : Z) :
  Date.localDay P (D * Date.msPerDay - tzOffset P * 1000) = D.
Proof.
  apply localDay_bounds. unfold Date.msPerDay. lia.
Qed.

Lemma ofSeconds_localDay (t D : Z) :
  Date.localDay P (t * 1000) = D ->
  -99999990 <= D <= 99999990 ->
  Date.ofSeconds t = Some (t * 1000).
Proof.
  intros Hday Hrange. apply localDay_bounds in Hday.
  unfold Date.ofSeconds, Date.timeClip.
  replace (Z.abs _ <=? Date.maxTime) with true; [reflexivity|].
  symmetry. apply Z.leb_le. unfold Date.msPerDay, Date.maxTime in *. lia.
Qed.

End DateFacts.

(** ** Streak updates on explicit values *)

Section StreakSteps.

Import Store Annual Spec.

(** One update from explicit values of the variables. *)
Lemma streakObserveLite_next (d : Date.t) (n cur best : Z)
  (start bestStart bestEnd : option Date.t) :
  Date.dayIndexOf d = Some (n + 1) ->
  streakObserveLite
    {| lastDayIndex := Some (Some n); currentStreak := cur; currentStart := start;
       maxStreak := best; maxStart := bestStart; maxEnd := bestEnd |} d
  = if best <? cur + 1 then
      {| lastDayIndex := Some (Some (n + 1)); currentStreak := cur + 1;
         currentStart := start;
         maxStreak := cur + 1; maxStart := start; maxEnd := Some d |}
    else
      {| lastDayIndex := Some (Some (n + 1)); currentStreak := cur + 1;
         currentStart := start;
         maxStreak := best; maxStart := bestStart; maxEnd := bestEnd |}.
Proof.
  intros Hd. unfold streakObserveLite, streakAdvance, num_eq, num_succ.
  cbn [lastDayIndex currentStreak currentStart maxStreak maxStart maxEnd].
  rewrite Hd.
  replace (n + 1 =? n) with false by (symmetry; apply Z.eqb_neq; lia).
  replace (n + 1 - n =? 1) with true by (symmetry; apply Z.eqb_eq; lia).
  reflexivity.
Qed.

Lemma streakObserveLite_gap (d : Date.t) (n m cur best : Z)
  (start bestStart bestEnd : option Date.t) :
  Date.dayIndexOf d = Some m ->
  m <> n -> m <> n + 1 ->
  streakObserveLite
    {| lastDayIndex := Some (Some n); currentStreak := cur; currentStart := start;
       maxStreak := best; maxStart := bestStart; maxEnd := bestEnd |} d
  = if best <? 1 then
      {| lastDayIndex := Some (Some m); currentStreak := 1;
         currentStart := Some d;
         maxStreak := 1; maxStart := Some d; maxEnd := Some d |}
    else
      {| lastDayIndex := Some (Some m); currentStreak := 1;
         currentStart := Some d;
         maxStreak := best; maxStart := bestStart; maxEnd := bestEnd |}.
Proof.
  intros Hd Hne Hnext. unfold streakObserveLite, streakAdvance, num_eq, num_succ.
  cbn [lastDayIndex currentStreak currentStart maxStreak maxStart maxEnd].
  rewrite Hd.
  replace (m =? n) with false by (symmetry; apply Z.eqb_neq; lia).
  replace (m - n =? 1) with false by (symmetry; apply Z.eqb_neq; lia).
  reflexivity.
Qed.

Lemma streakObserveLite_first (d : Date.t) (n : Z) :
  Date.dayIndexOf d = Some n ->
  streakObserveLite streak0 d
  = {| lastDayIndex := Some (Some n); currentStreak := 1; currentStart := Some d;
       maxStreak := 1; maxStart := Some d; maxEnd := Some d |}.
Proof.
  intros Hd. unfold streakObserveLite, streakAdvance. cbn. now rewrite Hd.
Qed.

(** Days [n], [n + 1], [n + 2] and [n + 9]: the best run has three days,
    from the first date to the third. *)
Lemma streak_three_then_gap (d1 d2 d3 d4 : Date.t) (n : Z) :
  Date.dayIndexOf d1 = Some n ->
  Date.dayIndexOf d2 = Some (n + 1) ->
  Date.dayIndexOf d3 = Some (n + 1 + 1) ->
  Date.dayIndexOf d4 = Some (n + 9) ->
  let s := fold_left streakObserveLite [d1; d2; d3; d4] streak0 in
  maxStreak s = 3 /\ maxStart s = Some d1 /\ maxEnd s = Some d3.
Proof.
  intros H1 H2 H3 H4. cbn [fold_left].
  rewrite (streakObserveLite_first d1 n H1).
  rewrite (streakObserveLite_next d2 n _ _ _ _ _ H2). cbn [Z.ltb Z.add Z.compare Pos.compare Pos.compare_cont Pos.add].
  rewrite (streakObserveLite_next d3 (n + 1) _ _ _ _ _ H3). cbn [Z.ltb Z.add Z.compare Pos.compare Pos.compare_cont Pos.add Pos.succ].
  rewrite (streakObserveLite_gap d4 (n + 1 + 1) (n + 9) _ _ _ _ _ H4) by lia.
  cbn. auto.
Qed.

End StreakSteps.

(** ** The scenario of the four days *)

Section StreakScenario.
Context (P : Platform).
Hypothesis tz_bounded : Z.abs (tzOffset P) <= 86400.

Import Store Annual Spec.

Lemma streakRow_on_day (s : Streak) (row : Row) (t D : Z) :
  createTimeOf row = Some t ->
  Date.localDay P (t * 1000) = D ->
  roundTrips D ->
  2 <= D <= 99999990 ->
  streakRow P s row
  = streakObserveLite s (Some (D * Date.msPerDay - tzOffset P * 1000)).
Proof.
  intros Ht Hday Hrt Hrange. unfold streakRow. rewrite Ht.
  assert (t <> 0) as Hnz.
  { apply localDay_bounds in Hday. unfold Date.msPerDay in Hday. lia. }
  replace (t =? 0) with false by (symmetry; now apply Z.eqb_neq).
  rewrite (ofSeconds_localDay P tz_bounded t D) by (assumption || lia).
  rewrite (dayDateOf_localDay P tz_bounded (t * 1000) D) by (assumption || lia).
  reflexivity.
Qed.

Lemma formatDateYmd_midnight (D : Z) :
  formatDateYmd P (Some (D * Date.msPerDay - tzOffset P * 1000))
  = Js.string_of_Z (fst (fst (Date.civil_of_days D))) ++ [45%N]
    ++ Js.padStart2 (Js.string_of_Z (snd (fst (Date.civil_of_days D)))) ++ [45%N]
    ++ Js.padStart2 (Js.string_of_Z (snd (Date.civil_of_days D))).
Proof.
  unfold formatDateYmd, Date.ymdKey, Date.getFullYear, Date.getMonth, Date.getDate.
  rewrite (localDay_midnight P). now rewrite Z.sub_add.
Qed.

(** Messages on 2023-01-01, 01-02, 01-03 and 01-10 of the local calendar,
    at any time of the day. *)
Lemma streak_scenario (rows : list Row) (t1 t2 t3 t4 : Z) :
  map createTimeOf rows = [Some t1; Some t2; Some t3; Some t4] ->
  Date.localDay P (t1 * 1000) = 19358 ->
  Date.localDay P (t2 * 1000) = 19359 ->
  Date.localDay P (t3 * 1000) = 19360 ->
  Date.localDay P (t4 * 1000) = 19367 ->
  let s := fold_left (streakRow P) rows streak0 in
  maxStreak s = 3 /\
  option_map (formatDateYmd P) (maxStart s) = Some (Js.of_ascii "2023-01-01") /\
  option_map (formatDateYmd P) (maxEnd s) = Some (Js.of_ascii "2023-01-03").
Proof.
  intros Hrows H1 H2 H3 H4.
  destruct rows as [|r1 [|r2 [|r3 [|r4 [|r5 rows]]]]]; try discriminate.
  injection Hrows as E1 E2 E3 E4. cbn [fold_left].
  rewrite (streakRow_on_day _ r1 t1 19358) by (assumption || reflexivity || lia).
  rewrite (streakRow_on_day _ r2 t2 19359) by (assumption || reflexivity || lia).
  rewrite (streakRow_on_day _ r3 t3 19360) by (assumption || reflexivity || lia).
  rewrite (streakRow_on_day _ r4 t4 19367) by (assumption || reflexivity || lia).
  set (k := (- (tzOffset P * 1000)) / Date.msPerDay).
  pose proof (streak_three_then_gap
                (Some (19358 * Date.msPerDay - tzOffset P * 1000))
                (Some (19359 * Date.msPerDay - tzOffset P * 1000))
                (Some (19360 * Date.msPerDay - tzOffset P * 1000))
                (Some (19367 * Date.msPerDay - tzOffset P * 1000))
                (19358 + k)) as Hcore.
  cbn [fold_left] in Hcore.
  destruct Hcore as (Hmax & Hstart & Hend).
  - apply dayIndexOf_midnight.
  - rewrite dayIndexOf_midnight. fold k. f_equal. lia.
  - rewrite dayIndexOf_midnight. fold k. f_equal. lia.
  - rewrite dayIndexOf_midnight. fold k. f_equal. lia.
  - rewrite Hmax, Hstart, Hend. cbn [option_map].
    rewrite !formatDateYmd_midnight. repeat split; reflexivity.
Qed.

End StreakScenario.

(** ** Insertion-ordered maps *)

Section JsMapFacts.
Context {V : Type}.

Lemma eqb_eq (a b : jsstring) : Js.eqb a b = true <-> a = b.
Proof.
  revert b. induction a as [|x a IH]; intros [|y b]; simpl; split; try easy.
  - intros H. apply andb_prop in H as [Hx Hab]. apply N.eqb_eq in Hx.
    apply IH in Hab. now subst.
  - intros H. injection H as -> ->. rewrite N.eqb_refl. now apply IH.
Qed.

Lemma eqb_refl (a : jsstring) : Js.eqb a a = true.
Proof. now apply eqb_eq. Qed.

Lemma eqb_neq (a b : jsstring) : Js.eqb a b = false <-> a <> b.
Proof.
  split.
  - intros H E. apply eqb_eq in E. congruence.
  - intros H. destruct (Js.eqb a b) eqn:E; [|reflexivity].
    apply eqb_eq in E. contradiction.
Qed.

Lemma get_set_same (m : JsMap.t V) (k : jsstring) (v : V) :
  JsMap.get (JsMap.set m k v) k = Some v.
Proof.
  induction m as [|[k' v'] m IH]; simpl.
  - now rewrite eqb_refl.
  - destruct (Js.eqb k' k) eqn:E; simpl; now rewrite E.
Qed.

Lemma get_set_other (m : JsMap.t V) (k k' : jsstring) (v : V) :
  k <> k' -> JsMap.get (JsMap.set m k v) k' = JsMap.get m k'.
Proof.
  intros Hne. induction m as [|[k0 v0] m IH]; simpl.
  - apply eqb_neq in Hne. now rewrite Hne.
  - destruct (Js.eqb k0 k) eqn:E; simpl.
    + apply eqb_eq in E. subst k0. apply eqb_neq in Hne. now rewrite Hne.
    + now rewrite IH.
Qed.

Lemma has_get (m : JsMap.t V) (k : jsstring) :
  JsMap.has m k = true <-> exists v, JsMap.get m k = Some v.
Proof.
  unfold JsMap.has. destruct (JsMap.get m k); split; eauto; try easy.
  now intros [v Hv].
Qed.

(** [if (!m.has(k)) m.set(k, d)] followed by [m.get(k)] *)
Lemma get_ensure (m : JsMap.t V) (k : jsstring) (d : V) :
  JsMap.get (if JsMap.has m k then m else JsMap.set m k d) k
  = Some (match JsMap.get m k with Some v => v | None => d end).
Proof.
  unfold JsMap.has. destruct (JsMap.get m k) eqn:E; [exact E|].
  apply get_set_same.
Qed.

Lemma get_ensure_other (m : JsMap.t V) (k k' : jsstring) (d : V) :
  k <> k' ->
  JsMap.get (if JsMap.has m k then m else JsMap.set m k d) k' = JsMap.get m k'.
Proof.
  intros Hne. destruct (JsMap.has m k); [reflexivity|]. now apply get_set_other.
Qed.

(** Every value of the map after [set] is the new one or an old one. *)
Lemma values_set (m : JsMap.t V) (k : jsstring) (v x : V) :
  In x (JsMap.values (JsMap.set m k v)) -> x = v \/ In x (JsMap.values m).
Proof.
  unfold JsMap.values. induction m as [|[k' v'] m IH]; simpl.
  - intros [<- | []]. now left.
  - destruct (Js.eqb k' k); simpl.
    + intros [<- | H]; auto.
    + intros [<- | H]; auto. destruct (IH H); auto.
Qed.

Lemma get_values (m : JsMap.t V) (k : jsstring) (v : V) :
  JsMap.get m k = Some v -> In v (JsMap.values m).
Proof.
  unfold JsMap.values. induction m as [|[k' v'] m IH]; simpl; [discriminate|].
  destruct (Js.eqb k' k); [intros H; injection H as <-; now left | auto].
Qed.

End JsMapFacts.

(** ** Conversation starts and response samples *)

Section ConversationFacts.

Import Store Annual Spec.

Lemma convObserve_first (sid : jsstring) (t : Z) (sent : bool) (a : Acc) :
  JsMap.get (lastMessageTime a) sid = None ->
  startsOf (convObserve sid t sent a) sid = startedBy sent (startsOf a sid) /\
  responseTimeStats (convObserve sid t sent a) = responseTimeStats a.
Proof.
  intros Hlast. unfold startsOf, convObserve.
  cbn [conversationStarts responseTimeStats]. rewrite Hlast.
  cbn [fst snd]. rewrite get_set_same, get_ensure.
  split; [|reflexivity]. unfold startedBy. now destruct sent.
Qed.

Lemma convObserve_far (sid : jsstring) (t : Z) (sent : bool) (a : Acc)
  (lastMsg : LastMsg) :
  JsMap.get (lastMessageTime a) sid = Some lastMsg ->
  CONVERSATION_GAP < t - time lastMsg ->
  startsOf (convObserve sid t sent a) sid = startedBy sent (startsOf a sid) /\
  responseTimeStats (convObserve sid t sent a) = responseTimeStats a.
Proof.
  intros Hlast Hgap. unfold startsOf, convObserve.
  cbn [conversationStarts responseTimeStats]. rewrite Hlast.
  apply Z.ltb_lt in Hgap. rewrite Hgap.
  cbn [fst snd]. rewrite get_set_same, get_ensure.
  split; [|reflexivity]. unfold startedBy. now destruct sent.
Qed.

(** Within the gap, the only change of the response samples is one sample
    appended for a message of self after a message of the peer. *)
Lemma convObserve_near (sid : jsstring) (t : Z) (sent : bool) (a : Acc)
  (lastMsg : LastMsg) :
  JsMap.get (lastMessageTime a) sid = Some lastMsg ->
  t - time lastMsg <= CONVERSATION_GAP ->
  startsOf (convObserve sid t sent a) sid = startsOf a sid /\
  (if sent && negb (isSent lastMsg)
      && (0 <? t - time lastMsg) && (t - time lastMsg <? 86400)
   then samplesOf (convObserve sid t sent a) sid
        = samplesOf a sid ++ [t - time lastMsg]
   else responseTimeStats (convObserve sid t sent a) = responseTimeStats a).
Proof.
  intros Hlast Hgap. unfold startsOf, samplesOf, convObserve.
  cbn [conversationStarts responseTimeStats]. rewrite Hlast.
  apply Z.ltb_ge in Hgap. rewrite Hgap.
  destruct sent, (isSent lastMsg); cbn [negb Bool.eqb andb fst snd];
    try (rewrite get_ensure; split; reflexivity).
  destruct ((0 <? t - time lastMsg) && (t - time lastMsg <? 86400));
    cbn [fst snd]; rewrite get_ensure; split; try reflexivity.
  now rewrite get_set_same, get_ensure.
Qed.

Lemma samplesOf_other (sid sid' : jsstring) (t : Z) (sent : bool) (a : Acc) :
  sid <> sid' ->
  samplesOf (convObserve sid t sent a) sid' = samplesOf a sid'.
Proof.
  intros Hne. unfold samplesOf, convObserve. cbn [responseTimeStats].
  destruct (JsMap.get (lastMessageTime a) sid) as [lastMsg|]; [|reflexivity].
  destruct (CONVERSATION_GAP <? t - time lastMsg); [reflexivity|].
  destruct (negb (Bool.eqb (isSent lastMsg) sent)); [|reflexivity].
  destruct (sent && negb (isSent lastMsg)); [|reflexivity].
  destruct ((0 <? t - time lastMsg) && (t - time lastMsg <? 86400)); [|reflexivity].
  cbn [snd]. now rewrite get_set_other, get_ensure_other.
Qed.

End ConversationFacts.

(** ** Induction over the full scan *)

Section ScanInduction.
Context (P : Platform).

Import Store Annual Spec.

(** An invariant [I] of the accumulators and a measure [f] that each row
    with a time stamp raises by [w] in its calendar step. *)
Variables (I : Acc -> Prop) (f : Acc -> Z) (w : Z).

Hypothesis conv_step : forall sid t sent a,
  I a -> I (convObserve sid t sent a) /\ f (convObserve sid t sent a) = f a.
Hypothesis phrase_step : forall localType sent row a a',
  I a -> phraseObserve P localType sent row a = Some a' -> I a' /\ f a' = f a.
Hypothesis calendar_step : forall pk sid ms a s,
  I a ->
  I (fst (calendarObserve P pk sid ms a s)) /\
  f (fst (calendarObserve P pk sid ms a s)) = f a + w.
Hypothesis longest_step : forall a b,
  I a -> I (withLongest a b) /\ f (withLongest a b) = f a.

Lemma timed_app (l1 l2 : list Row) : timed (l1 ++ l2) = timed l1 + timed l2.
Proof. unfold timed. rewrite filter_app, length_app. lia. Qed.

Lemma scanRow_fold (pk sid : jsstring) (a a' : Acc) (s s' : Streak) (row : Row) :
  I a ->
  scanRow P pk sid (a, s) row = Some (a', s') ->
  I a' /\ f a' = f a + w * timed [row].
Proof.
  intros Ha H. unfold timed. cbn [filter].
  destruct (hasTimestamp row) eqn:Hts.
  - destruct (scanRow_step P _ _ _ _ _ _ Hts H)
      as (t & a2 & ms & Ht & Hnz & Hph & Hdate & Heq).
    apply (f_equal fst) in Heq. cbn [fst] in Heq. subst a'.
    destruct (conv_step sid t (isSentOf row) a Ha) as [H1 E1].
    destruct (phrase_step _ _ _ _ _ H1 Hph) as [H2 E2].
    destruct (calendar_step pk sid ms a2 s H2) as [H3 E3].
    split; [exact H3|]. rewrite E3, E2, E1. simpl. lia.
  - rewrite scanRow_skip in H by assumption. injection H as <- <-.
    split; [exact Ha|]. simpl. lia.
Qed.

Lemma scanRows_fold (pk sid : jsstring) (rows : list Row) (a a' : Acc)
  (s s' : Streak) :
  I a ->
  scanRows P pk sid (a, s) rows = Some (a', s') ->
  I a' /\ f a' = f a + w * timed rows.
Proof.
  revert a s. induction rows as [|row rows IH]; intros a s Ha H; simpl in H.
  - injection H as <- <-. split; [exact Ha|]. unfold timed. simpl. lia.
  - destruct (scanRow P pk sid (a, s) row) as [[a1 s1]|] eqn:E; [|discriminate].
    simpl in H. destruct (scanRow_fold _ _ _ _ _ _ _ Ha E) as [H1 E1].
    destruct (IH _ _ H1 H) as [H2 E2]. split; [exact H2|].
    change (row :: rows) with ([row] ++ rows). rewrite timed_app. lia.
Qed.

Lemma scanCursor_fold (pk sid : jsstring) (cursor : Cursor) (a a' : Acc)
  (s s' : Streak) :
  I a ->
  scanCursor P pk sid (a, s) cursor = Some (a', s') ->
  I a' /\ f a' = f a + w * timed (delivered cursor).
Proof.
  revert a s. induction cursor as [|batch cursor IH]; intros a s Ha H;
    cbn [scanCursor delivered] in *.
  - injection H as <- <-. split; [exact Ha|]. unfold timed. simpl. lia.
  - destruct (negb (batch_success batch)).
    { injection H as <- <-. split; [exact Ha|]. unfold timed. simpl. lia. }
    destruct (batch_rows batch) as [rows|].
    2:{ injection H as <- <-. split; [exact Ha|]. unfold timed. simpl. lia. }
    destruct (scanRows P pk sid (a, s) rows) as [[a1 s1]|] eqn:E; [|discriminate].
    simpl in H. destruct (scanRows_fold _ _ _ _ _ _ _ Ha E) as [H1 E1].
    rewrite timed_app. destruct (batch_hasMore batch).
    + destruct (IH _ _ H1 H) as [H2 E2]. split; [exact H2 | lia].
    + injection H as <- <-. split; [exact H1|]. change (timed []) with 0. lia.
Qed.

Lemma fullScan_fold (S : Store.t) (pk : jsstring) (sessionIds : list jsstring)
  (a a' : Acc) :
  I a ->
  fullScan P S pk a sessionIds = Some a' ->
  I a' /\ f a' = f a + w * timed (scannedRows S sessionIds).
Proof.
  revert a. induction sessionIds as [|sid ids IH]; intros a Ha H;
    cbn [fullScan] in H.
  - injection H as <-. split; [exact Ha|]. unfold timed. simpl. lia.
  - destruct (scanSession P S pk a sid) as [a1|] eqn:E; [|discriminate].
    simpl in H. unfold scannedRows. cbn [flat_map].
    fold (scannedRows S ids). rewrite timed_app.
    unfold scanSession in E.
    destruct (openMessageCursorLite S sid 1000) as [cursor|].
    + destruct (scanCursor P pk sid (a, streak0) cursor) as [[a2 s2]|] eqn:E2;
        [|discriminate].
      simpl in E. injection E as <-.
      destruct (scanCursor_fold _ _ _ _ _ _ _ Ha E2) as [H2 F2].
      destruct (longest_step a2 (bestUpdate (longest a2) sid s2) H2) as [H3 F3].
      destruct (IH _ H3 H) as [H4 F4]. split; [exact H4 | lia].
    + injection E as <-. destruct (IH _ Ha H) as [H4 F4].
      split; [exact H4|]. change (timed []) with 0. lia.
Qed.

End ScanInduction.

Section ConversationResults.
Context (P : Platform).

Import Store Annual Spec.

(** C3, as the code has it.  A message whose gap since the previous message
    of its session is more than 3600 seconds is counted as a conversation
    started by its sender and gives no response sample. *)
Theorem conversation_start_beyond_gap :
  newConversationWhen (fun gap => 3600 < gap).
Proof.
  intros sid t sent a lastMsg Hlast Hgap. now apply (convObserve_far sid t sent a lastMsg).
Qed.

Lemma samples_invariant_conv (sid : jsstring) (t : Z) (sent : bool) (a : Acc) :
  (forall l, In l (JsMap.values (responseTimeStats a)) ->
             Forall (fun x => 0 < x < 86400) l) ->
  forall l, In l (JsMap.values (responseTimeStats (convObserve sid t sent a))) ->
            Forall (fun x => 0 < x < 86400) l.
Proof.
  intros Hinv l. unfold convObserve. cbn [responseTimeStats].
  destruct (JsMap.get (lastMessageTime a) sid) as [lastMsg|]; [|apply Hinv].
  destruct (CONVERSATION_GAP <? t - time lastMsg); [apply Hinv|].
  destruct (negb (Bool.eqb (isSent lastMsg) sent)); [|apply Hinv].
  destruct (sent && negb (isSent lastMsg)); [|apply Hinv].
  destruct ((0 <? t - time lastMsg) && (t - time lastMsg <? 86400)) eqn:Hrt;
    [|apply Hinv].
  cbn [snd]. intros Hin.
  assert (forall l0,
             In l0 (JsMap.values
                      (if JsMap.has (responseTimeStats a) sid then responseTimeStats a
                       else JsMap.set (responseTimeStats a) sid [])) ->
             Forall (fun x => 0 < x < 86400) l0) as Hens.
  { intros l0 H0. destruct (JsMap.has (responseTimeStats a) sid); [now apply Hinv|].
    apply values_set in H0 as [-> | H0]; [constructor | now apply Hinv]. }
  apply values_set in Hin as [-> | Hin]; [|now apply Hens].
  apply Forall_app. split.
  - destruct (JsMap.get _ sid) as [l0|] eqn:Hget; [|constructor].
    apply Hens. now apply get_values in Hget.
  - apply andb_prop in Hrt as [Hpos Hlt].
    apply Z.ltb_lt in Hpos. apply Z.ltb_lt in Hlt. constructor; [lia | constructor].
Qed.

(** C4.  One row changes the response samples only by appending, for a
    message of self that follows a message of the peer in the same
    session, the time between the two, which is more than 0 and less than
    86400 seconds; and every sample held at the end of a full scan is in
    that range. *)
Theorem response_samples_bounded :
  (forall sid t sent a,
      responseTimeStats (convObserve sid t sent a) = responseTimeStats a \/
      exists lastMsg,
        JsMap.get (lastMessageTime a) sid = Some lastMsg /\
        isSent lastMsg = false /\ sent = true /\
        0 < t - time lastMsg < 86400 /\
        samplesOf (convObserve sid t sent a) sid
        = samplesOf a sid ++ [t - time lastMsg] /\
        (forall sid', sid <> sid' ->
                      samplesOf (convObserve sid t sent a) sid' = samplesOf a sid')) /\
  (forall S peakDayKey sessionIds a,
      fullScan P S peakDayKey acc0 sessionIds = Some a ->
      forall sid x, In x (samplesOf a sid) -> 0 < x < 86400).
Proof.
  split.
  - intros sid t sent a.
    destruct (JsMap.get (lastMessageTime a) sid) as [lastMsg|] eqn:Hlast.
    2:{ left. now apply convObserve_first. }
    destruct (Z.le_gt_cases (t - time lastMsg) CONVERSATION_GAP) as [Hnear | Hfar].
    2:{ left. now apply (convObserve_far sid t sent a lastMsg). }
    destruct (convObserve_near sid t sent a lastMsg Hlast Hnear) as [_ Hsamples].
    destruct (sent && negb (isSent lastMsg) && (0 <? t - time lastMsg)
              && (t - time lastMsg <? 86400)) eqn:Hcond; [|now left].
    right. exists lastMsg.
    apply andb_prop in Hcond as [Hcond Hlt]. apply andb_prop in Hcond as [Hcond Hpos].
    apply andb_prop in Hcond as [Hsent Hpeer].
    apply Z.ltb_lt in Hlt. apply Z.ltb_lt in Hpos.
    apply negb_true_iff in Hpeer.
    repeat split; try assumption.
    intros sid' Hne. now apply samplesOf_other.
  - intros S pk ids a Hscan sid x Hin.
    destruct (fullScan_fold P
                (fun a => forall l, In l (JsMap.values (responseTimeStats a)) ->
                                    Forall (fun x => 0 < x < 86400) l)
                (fun _ => 0) 0) with (S := S) (pk := pk) (sessionIds := ids)
                                     (a := acc0) (a' := a) as [Hinv _];
      try assumption.
    + intros. split; [|reflexivity]. now apply samples_invariant_conv.
    + intros lt sent row a0 a1 Ha0 Hph.
      apply phraseObserve_fields in Hph as (_ & _ & _ & -> & _). now split.
    + intros. now split.
    + intros. now split.
    + intros l [].
    + unfold samplesOf in Hin.
      destruct (JsMap.get (responseTimeStats a) sid) as [l|] eqn:Hget; [|destruct Hin].
      apply get_values in Hget. apply Hinv in Hget.
      rewrite Forall_forall in Hget. now apply Hget.
Qed.

End ConversationResults.

(** C3, as the specification states it, fails: an answer of self exactly 3600 seconds
    after a message of the peer is a response sample and starts no
    conversation. *)
Lemma gap_of_one_hour_is_a_response :
  ~ Spec.newConversationWhen (fun gap => 3600 <= gap).
Proof.
  intros Hspec.
  destruct (Hspec Sample.alice 4600 true Sample.afterPeer
              {| Annual.time := 1000; Annual.isSent := false |})
    as [_ Hsamples]; [reflexivity | vm_compute; discriminate |].
  vm_compute in Hsamples. discriminate Hsamples.
Qed.

(** The same through the rows of a scan: one conversation, started by the
    peer, and one sample of 3600 seconds. *)
Example gap_of_one_hour_scanned :
  exists a s,
    Annual.scanRows Node.cst [] Sample.alice (Annual.acc0, Annual.streak0) Sample.hourRows
    = Some (a, s) /\
    Spec.startsOf a Sample.alice = {| Annual.initiated := 0; Annual.received := 1 |} /\
    Spec.samplesOf a Sample.alice = [3600].
Proof. eexists. eexists. repeat split; vm_compute; reflexivity. Qed.

Lemma conversation_start_beyond_gap_witness :
  Spec.startsOf (Annual.convObserve Sample.alice 4601 true Sample.afterPeer) Sample.alice
  = {| Annual.initiated := 1; Annual.received := 1 |} /\
  Annual.responseTimeStats (Annual.convObserve Sample.alice 4601 true Sample.afterPeer)
  = [].
Proof.
  apply (conversation_start_beyond_gap Sample.alice 4601 true Sample.afterPeer
           {| Annual.time := 1000; Annual.isSent := false |});
    [reflexivity | vm_compute; reflexivity].
Defined.

Lemma response_samples_bounded_witness :
  exists a,
    Annual.fullScan Node.cst Sample.hourStore [] Annual.acc0 [Sample.alice] = Some a /\
    Spec.samplesOf a Sample.alice = [3600] /\
    forall x, In x (Spec.samplesOf a Sample.alice) -> 0 < x < 86400.
Proof.
  destruct (Annual.fullScan Node.cst Sample.hourStore [] Annual.acc0 [Sample.alice])
    as [a|] eqn:E; [|vm_compute in E; discriminate E].
  exists a. split; [reflexivity|]. split.
  - vm_compute in E. injection E as <-. reflexivity.
  - intros x.
    exact (proj2 (response_samples_bounded Node.cst) Sample.hourStore [] [Sample.alice]
             a E Sample.alice x).
Defined.

(** ** Heat map *)

Section HeatmapFacts.
Context (P : Platform).

Import Store Annual Spec.

Lemma length_updateAt {A : Type} (l : list A) (i : nat) (f : A -> A) :
  List.length (updateAt l i f) = List.length l.
Proof.
  revert i. induction l as [|x l IH]; intros [|i]; simpl; auto.
Qed.

Lemma nth_updateAt_same {A : Type} (l : list A) (i : nat) (f : A -> A) (d : A) :
  (i < List.length l)%nat -> nth i (updateAt l i f) d = f (nth i l d).
Proof.
  revert i. induction l as [|x l IH]; intros [|i] Hi; simpl in *; try lia; auto.
  apply IH. lia.
Qed.

Lemma nth_updateAt_other {A : Type} (l : list A) (i j : nat) (f : A -> A) (d : A) :
  i <> j -> nth j (updateAt l i f) d = nth j l d.
Proof.
  revert i j. induction l as [|x l IH]; intros [|i] [|j] Hne; simpl; auto.
  contradiction.
Qed.

Lemma sum_updateAt_succ (l : list Z) (i : nat) :
  (i < List.length l)%nat ->
  fold_right Z.add 0 (updateAt l i Z.succ) = fold_right Z.add 0 l + 1.
Proof.
  revert i. induction l as [|x l IH]; intros [|i] Hi; simpl in *; try lia.
  rewrite IH by lia. lia.
Qed.

Lemma sumGrid_updateAt (g : list (list Z)) (i j : nat) :
  (i < List.length g)%nat ->
  (j < List.length (nth i g []))%nat ->
  sumGrid (updateAt g i (fun row => updateAt row j Z.succ)) = sumGrid g + 1.
Proof.
  unfold sumGrid. revert i. induction g as [|row g IH]; intros [|i] Hi Hj;
    simpl in *; try lia.
  - rewrite sum_updateAt_succ by assumption. lia.
  - rewrite IH by (assumption || lia). lia.
Qed.

Lemma gridShape_row (g : list (list Z)) (i : nat) :
  gridShape g -> (i < 7)%nat -> List.length (nth i g []) = 24%nat.
Proof.
  intros [Hlen Hrows] Hi. rewrite Forall_forall in Hrows.
  apply Hrows, nth_In. lia.
Qed.

Lemma gridShape_heatmapIncr (g : list (list Z)) (w h : Z) :
  gridShape g -> gridShape (heatmapIncr g w h).
Proof.
  intros [Hlen Hrows]. unfold heatmapIncr. split.
  - now rewrite length_updateAt.
  - clear Hlen. revert Hrows. generalize (Z.to_nat w).
    induction g as [|row g IH]; intros [|i] Hrows; simpl; auto;
      inversion Hrows; subst; constructor; auto.
    now rewrite length_updateAt.
Qed.

Lemma gridShape_heatmap0 : gridShape heatmap0.
Proof.
  split; [reflexivity|]. unfold heatmap0. apply Forall_forall.
  intros row Hin. apply repeat_spec in Hin. now subst.
Qed.

Lemma getHours_range (ms : Z) : 0 <= Date.getHours P ms < 24.
Proof.
  unfold Date.getHours.
  pose proof (Z.mod_pos_bound (Date.localMs P ms) Date.msPerDay eq_refl) as Hmod.
  unfold Date.msPerDay in *. split.
  - apply Z.div_pos; lia.
  - apply Z.div_lt_upper_bound; [reflexivity | lia].
Qed.

Lemma weekdayIndex_range (ms : Z) :
  0 <= weekdayIndex P ms < 7 /\
  weekdayIndex P ms = (Date.getDay P ms + 6) mod 7.
Proof.
  unfold weekdayIndex.
  assert (0 <= Date.getDay P ms < 7) as Hday
      by (unfold Date.getDay; apply Z.mod_pos_bound; reflexivity).
  destruct (Z.eqb_spec (Date.getDay P ms) 0) as [-> | Hne]; [split; [lia | reflexivity]|].
  split; [lia|].
  replace (Date.getDay P ms + 6) with (Date.getDay P ms - 1 + 1 * 7) by ring.
  rewrite Z.mod_add by discriminate. symmetry. apply Z.mod_small. lia.
Qed.

Lemma cell_heatmapIncr (g : list (list Z)) (w h w' h' : Z) :
  gridShape g ->
  0 <= w < 7 -> 0 <= h < 24 -> 0 <= w' -> 0 <= h' ->
  cell (heatmapIncr g w h) w' h'
  = cell g w' h' + (if (w' =? w) && (h' =? h) then 1 else 0).
Proof.
  intros Hshape Hw Hh Hw' Hh'. unfold cell, heatmapIncr.
  destruct (Z.eqb_spec w' w) as [-> | Hwne].
  - rewrite nth_updateAt_same by (destruct Hshape as [-> _]; lia).
    destruct (Z.eqb_spec h' h) as [-> | Hhne]; cbn [andb].
    + rewrite nth_updateAt_same; [lia|].
      rewrite (gridShape_row g (Z.to_nat w) Hshape); lia.
    + rewrite nth_updateAt_other by lia. lia.
  - cbn [andb]. rewrite nth_updateAt_other by lia. lia.
Qed.

Lemma sumGrid_heatmapIncr (g : list (list Z)) (w h : Z) :
  gridShape g -> 0 <= w < 7 -> 0 <= h < 24 ->
  sumGrid (heatmapIncr g w h) = sumGrid g + 1.
Proof.
  intros Hshape Hw Hh. unfold heatmapIncr. apply sumGrid_updateAt.
  - destruct Hshape as [-> _]. lia.
  - rewrite (gridShape_row g (Z.to_nat w) Hshape); lia.
Qed.

(** *** The scan ends when every time stamp is a date *)

Lemma scanRow_completes (pk sid : jsstring) (st : Acc * Streak) (row : Row) :
  (forall t, createTimeOf row = Some t -> Date.ofSeconds t <> None) ->
  exists st', scanRow P pk sid st row = Some st'.
Proof.
  intros Hvalid. unfold scanRow.
  destruct (createTimeOf row) as [t|]; [|eauto].
  destruct (t =? 0); [eauto|].
  unfold phraseObserve.
  destruct (isTextType (localTypeOf row) && isSentOf row).
  - destruct (decodeMessageContent_returns P (message_content row) (compress_content row))
      as [text ->].
    cbn [bind]. destruct (phraseEligible 20 (Js.trim text)); cbn [bind];
      (destruct (Date.ofSeconds t) eqn:Hd; [eauto | now destruct (Hvalid t eq_refl)]).
  - cbn [bind].
    destruct (Date.ofSeconds t) eqn:Hd; [eauto | now destruct (Hvalid t eq_refl)].
Qed.

Lemma scanRows_completes (pk sid : jsstring) (rows : list Row) (st : Acc * Streak) :
  validTimes rows -> exists st', scanRows P pk sid st rows = Some st'.
Proof.
  revert st. induction rows as [|row rows IH]; intros st Hvalid; simpl; [eauto|].
  inversion Hvalid as [|? ? Hrow Hrest]; subst.
  destruct (scanRow_completes pk sid st row Hrow) as [st1 ->]. simpl. now apply IH.
Qed.

Lemma scanCursor_completes (pk sid : jsstring) (cursor : Cursor) (st : Acc * Streak) :
  validTimes (delivered cursor) -> exists st', scanCursor P pk sid st cursor = Some st'.
Proof.
  revert st. induction cursor as [|batch cursor IH]; intros st Hvalid;
    cbn [scanCursor delivered] in *; [eauto|].
  destruct (negb (batch_success batch)); [eauto|].
  destruct (batch_rows batch) as [rows|]; [|eauto].
  apply Forall_app in Hvalid as [Hrows Hrest].
  destruct (scanRows_completes pk sid rows st Hrows) as [st1 ->]. simpl.
  destruct (batch_hasMore batch); [now apply IH | eauto].
Qed.

Lemma fullScan_completes (S : Store.t) (pk : jsstring) (sessionIds : list jsstring)
  (a : Acc) :
  validTimes (scannedRows S sessionIds) ->
  exists a', fullScan P S pk a sessionIds = Some a'.
Proof.
  revert a. induction sessionIds as [|sid ids IH]; intros a Hvalid;
    cbn [fullScan]; [eauto|].
  unfold scannedRows in Hvalid. cbn [flat_map] in Hvalid.
  apply Forall_app in Hvalid as [Hhere Hrest].
  unfold scanSession.
  destruct (openMessageCursorLite S sid 1000) as [cursor|].
  - destruct (scanCursor_completes pk sid cursor (a, streak0) Hhere) as [st1 ->].
    simpl. now apply IH.
  - simpl. now apply IH.
Qed.

(** C8.  The heat-map cell of a row is that of its week day, counted from
    Monday as 0 to Sunday as 6, and of its hour; a row with a time stamp
    adds one to that cell and to no other; and after a full scan the
    7 x 24 cells add up to the number of processed rows with a time stamp.
    The scan does end whenever each time stamp is one that [Date]
    represents. *)
Theorem heatmap_counts_timed_rows :
  (forall ms,
      0 <= weekdayIndex P ms < 7 /\
      weekdayIndex P ms = (Date.getDay P ms + 6) mod 7 /\
      0 <= Date.getHours P ms < 24) /\
  (forall pk sid ms a s w h,
      gridShape (heatmapData a) -> 0 <= w -> 0 <= h ->
      cell (heatmapData (fst (calendarObserve P pk sid ms a s))) w h
      = cell (heatmapData a) w h
        + (if (w =? weekdayIndex P ms) && (h =? Date.getHours P ms) then 1 else 0)) /\
  (forall S pk sessionIds a,
      fullScan P S pk acc0 sessionIds = Some a ->
      gridShape (heatmapData a) /\
      sumGrid (heatmapData a) = timed (scannedRows S sessionIds)) /\
  (forall S pk sessionIds,
      validTimes (scannedRows S sessionIds) ->
      exists a, fullScan P S pk acc0 sessionIds = Some a).
Proof.
  split; [|split; [|split]].
  - intros ms. destruct (weekdayIndex_range ms) as [Hr He].
    split; [exact Hr|]. split; [exact He | apply getHours_range].
  - intros pk sid ms a s w h Hshape Hw Hh. cbn [calendarObserve fst heatmapData].
    apply cell_heatmapIncr; try assumption.
    + apply weekdayIndex_range.
    + apply getHours_range.
  - intros S pk ids a Hscan.
    destruct (fullScan_fold P (fun a => gridShape (heatmapData a))
                (fun a => sumGrid (heatmapData a)) 1)
      with (S := S) (pk := pk) (sessionIds := ids) (a := acc0) (a' := a)
      as [Hshape Hsum]; try assumption.
    + intros. now split.
    + intros lt sent row a0 a1 Ha0 Hph.
      apply phraseObserve_fields in Hph as (-> & _). now split.
    + intros pk0 sid ms a0 s Ha0. cbn [calendarObserve fst heatmapData]. split.
      * now apply gridShape_heatmapIncr.
      * apply sumGrid_heatmapIncr; [assumption | apply weekdayIndex_range
                                    | apply getHours_range].
    + intros. now split.
    + apply gridShape_heatmap0.
    + split; [exact Hshape|]. rewrite Hsum. change (sumGrid (heatmapData acc0)) with 0.
      lia.
  - intros S pk ids Hvalid. now apply fullScan_completes.
Qed.

End HeatmapFacts.

Lemma heatmap_counts_timed_rows_witness :
  exists a,
    Annual.fullScan Node.cst Sample.streakStore [] Annual.acc0 [Sample.alice] = Some a /\
    Spec.sumGrid (Annual.heatmapData a) = 4.
Proof.
  destruct (heatmap_counts_timed_rows Node.cst) as (_ & _ & Hsum & Hends).
  destruct (Hends Sample.streakStore [] [Sample.alice]) as [a E].
  { repeat constructor; intros t Ht; vm_compute in Ht; injection Ht as <-;
      discriminate. }
  exists a. split; [exact E|].
  destruct (Hsum Sample.streakStore [] [Sample.alice] a E) as [_ ->]. reflexivity.
Defined.

(** ** Phrases *)

Section PhraseFacts.

Import Store Annual Spec.

Lemma phraseEligible_spec (maxLen : Z) (text : jsstring) :
  phraseEligible maxLen text = true <->
  2 <= Js.len text <= maxLen /\
  Js.includes text (Js.of_ascii "http") = false /\
  Js.includes text (Js.of_ascii "<") = false /\
  Js.startsWith text (Js.of_ascii "[") = false /\
  Js.startsWith text (Js.of_ascii "<?xml") = false.
Proof.
  unfold phraseEligible. rewrite !andb_true_iff, !negb_true_iff, !Z.leb_le. tauto.
Qed.

Lemma insertDesc_perm (e : jsstring * Z) (l : list (jsstring * Z)) :
  Permutation (insertDesc e l) (e :: l).
Proof.
  induction l as [|x l IH]; simpl; [reflexivity|].
  destruct (snd e <? snd x); [|reflexivity].
  rewrite IH. apply perm_swap.
Qed.

Lemma sortDesc_perm (l : list (jsstring * Z)) : Permutation (sortDesc l) l.
Proof.
  induction l as [|e l IH]; simpl; [reflexivity|].
  rewrite insertDesc_perm. now constructor.
Qed.

Lemma insertDesc_sorted (e : jsstring * Z) (l : list (jsstring * Z)) :
  StronglySorted byCountDesc l -> StronglySorted byCountDesc (insertDesc e l).
Proof.
  induction l as [|x l IH]; intros Hl; simpl.
  - repeat constructor.
  - inversion Hl as [|? ? Hl' Hx]; subst.
    destruct (Z.ltb_spec (snd e) (snd x)).
    + constructor; [now apply IH|].
      apply Forall_forall. intros y Hy.
      apply (Permutation_in _ (insertDesc_perm e l)) in Hy as [<- | Hy].
      * unfold byCountDesc. lia.
      * rewrite Forall_forall in Hx. now apply Hx.
    + constructor; [exact Hl|]. constructor; [unfold byCountDesc; lia|].
      apply Forall_forall. intros y Hy. rewrite Forall_forall in Hx.
      specialize (Hx y Hy). unfold byCountDesc in *. lia.
Qed.

Lemma sortDesc_sorted (l : list (jsstring * Z)) :
  StronglySorted byCountDesc (sortDesc l).
Proof.
  induction l as [|e l IH]; simpl; [constructor | now apply insertDesc_sorted].
Qed.

Lemma sorted_app_inv (l1 l2 : list (jsstring * Z)) :
  StronglySorted byCountDesc (l1 ++ l2) ->
  StronglySorted byCountDesc l1 /\
  forall x y, In x l1 -> In y l2 -> snd y <= snd x.
Proof.
  induction l1 as [|a l1 IH]; simpl; intros H.
  - split; [constructor | intros x y []].
  - inversion H as [|? ? Hrest Ha]; subst. destruct (IH Hrest) as [Hs Hle].
    rewrite Forall_forall in Ha. split.
    + constructor; [exact Hs|]. apply Forall_forall. intros y Hy.
      apply Ha, in_or_app. now left.
    + intros x y [<- | Hx] Hy; [|now apply Hle].
      apply Ha, in_or_app. now right.
Qed.

(** The ranking: the first [n] entries of the map entries with a count of
    at least 2 put in the order of decreasing count. *)
Lemma rankPhrases_spec (n : nat) (m : JsMap.t Z) :
  let kept := filter (fun e => 2 <=? snd e) m in
  let ranked := rankPhrases n m in
  (forall e, In e ranked -> In e m /\ 2 <= snd e) /\
  StronglySorted byCountDesc ranked /\
  List.length ranked = Nat.min n (List.length kept) /\
  exists rest,
    Permutation (ranked ++ rest) kept /\
    forall x y, In x ranked -> In y rest -> snd y <= snd x.
Proof.
  intros kept ranked. unfold ranked, rankPhrases. fold kept.
  pose proof (sortDesc_sorted kept) as Hsorted.
  pose proof (sortDesc_perm kept) as Hperm.
  rewrite <- (firstn_skipn n (sortDesc kept)) in Hsorted.
  destruct (sorted_app_inv _ _ Hsorted) as [Hfirst Hle].
  split; [|split; [exact Hfirst | split]].
  - intros e He.
    assert (In e kept) as Hk.
    { apply (Permutation_in _ Hperm).
      rewrite <- (firstn_skipn n (sortDesc kept)). apply in_or_app. now left. }
    unfold kept in Hk. apply filter_In in Hk as [Hm Hc].
    apply Z.leb_le in Hc. now split.
  - rewrite length_firstn. now rewrite (Permutation_length Hperm).
  - exists (skipn n (sortDesc kept)). split; [|exact Hle].
    now rewrite firstn_skipn.
Qed.

End PhraseFacts.

Section PhraseResults.
Context (P : Platform).

Import Store Annual Spec.

Lemma phraseObserve_counts (localType : option Z) (sent : bool) (row : Row)
  (a a' : Acc) :
  phraseObserve P localType sent row a = Some a' ->
  phraseCount a' = phraseCount a \/
  (isTextType localType = true /\ sent = true /\
   exists content,
     Decoder.decodeMessageContent P (message_content row) (compress_content row)
     = Some content /\
     phraseEligible 20 (Js.trim content) = true /\
     phraseCount a' = countUp (phraseCount a) (Js.trim content)).
Proof.
  unfold phraseObserve.
  destruct (isTextType localType) eqn:Htype, sent; cbn [andb];
    try (intros H; injection H as <-; now left).
  destruct (Decoder.decodeMessageContent P (message_content row) (compress_content row))
    as [content|] eqn:Hdec; [|discriminate].
  cbn [bind]. destruct (phraseEligible 20 (Js.trim content)) eqn:Hel;
    intros H; injection H as <-; [|now left].
  right. repeat split. now exists content.
Qed.

Lemma dual_scanRow_counts (st st' : Dual.Stats) (row : Row) :
  Dual.scanRow P st row = Some st' ->
  Dual.wordCountMap st' = Dual.wordCountMap st \/
  (isTextType (localTypeOf row) = true /\
   exists content,
     Decoder.decodeMessageContent P (message_content row) (compress_content row)
     = Some content /\
     phraseEligible 50 (Dual.normalize (Js.trim content)) = true /\
     Dual.wordCountMap st'
     = countUp (Dual.wordCountMap st) (Dual.normalize (Js.trim content))).
Proof.
  unfold Dual.scanRow.
  destruct (isTextType (localTypeOf row)) eqn:Htype;
    [|intros H; injection H as <-; now left].
  destruct (Decoder.decodeMessageContent P (message_content row) (compress_content row))
    as [content|] eqn:Hdec; [|discriminate].
  cbn [bind]. destruct (Js.trim content) as [|c text] eqn:Htrim;
    [intros H; injection H as <-; now left|].
  destruct (phraseEligible 50 (Dual.normalize (c :: text))) eqn:Hel;
    intros H; injection H as <-; cbn [Dual.wordCountMap]; [|now left].
  right. split; [reflexivity|]. exists content. rewrite Htrim. auto.
Qed.

(** C9, as the code has it.  The annual report counts a phrase only for a
    text message of self whose trimmed text has 2 to 20 code units, the
    dual report for a text message of either side whose text, trimmed and
    with runs of white space collapsed, has 2 to 50; in both the text must
    hold neither "http" nor the character "<" and start with neither "["
    nor "<?xml".  The ranking keeps the entries with a count of at least 2,
    in the order of decreasing count, and of these the first 32 (annual)
    or 50 (dual). *)
Theorem phrases_filtered_and_ranked :
  (forall localType sent row a a',
      phraseObserve P localType sent row a = Some a' ->
      phraseCount a' = phraseCount a \/
      (isTextType localType = true /\ sent = true /\
       exists content,
         Decoder.decodeMessageContent P (message_content row) (compress_content row)
         = Some content /\
         phraseEligible 20 (Js.trim content) = true /\
         phraseCount a' = countUp (phraseCount a) (Js.trim content))) /\
  (forall st st' row,
      Dual.scanRow P st row = Some st' ->
      Dual.wordCountMap st' = Dual.wordCountMap st \/
      (isTextType (localTypeOf row) = true /\
       exists content,
         Decoder.decodeMessageContent P (message_content row) (compress_content row)
         = Some content /\
         phraseEligible 50 (Dual.normalize (Js.trim content)) = true /\
         Dual.wordCountMap st'
         = countUp (Dual.wordCountMap st) (Dual.normalize (Js.trim content)))) /\
  (forall maxLen text,
      phraseEligible maxLen text = true <->
      2 <= Js.len text <= maxLen /\
      Js.includes text (Js.of_ascii "http") = false /\
      Js.includes text (Js.of_ascii "<") = false /\
      Js.startsWith text (Js.of_ascii "[") = false /\
      Js.startsWith text (Js.of_ascii "<?xml") = false) /\
  (forall n m,
      (forall e, In e (rankPhrases n m) -> In e m /\ 2 <= snd e) /\
      StronglySorted byCountDesc (rankPhrases n m) /\
      List.length (rankPhrases n m)
      = Nat.min n (List.length (filter (fun e => 2 <=? snd e) m)) /\
      exists rest,
        Permutation (rankPhrases n m ++ rest) (filter (fun e => 2 <=? snd e) m) /\
        forall x y, In x (rankPhrases n m) -> In y rest -> snd y <= snd x) /\
  (forall S reportYear d g,
      topPhrasesFromSql g = None ->
      topPhrases (assembleReport P S reportYear d g)
      = rankPhrases 32 (phraseCount (acc g))) /\
  (forall cursor st,
      Dual.scanCursor P Dual.stats0 cursor = Some st ->
      Dual.topPhrases P cursor = Some (rankPhrases 50 (Dual.wordCountMap st))).
Proof.
  split; [|split; [|split; [|split; [|split]]]].
  - apply phraseObserve_counts.
  - apply dual_scanRow_counts.
  - apply phraseEligible_spec.
  - intros n m. apply (rankPhrases_spec n m).
  - intros S y d g Hsql. unfold assembleReport. cbn [topPhrases]. now rewrite Hsql.
  - intros cursor st Hscan. unfold Dual.topPhrases. now rewrite Hscan.
Qed.

End PhraseResults.

(** C9, as the specification states it, fails on the closing angle bracket: the text
    "a>b" of self is counted by the annual report. *)
Lemma closing_bracket_is_counted :
  ~ Spec.annualCountsOnly Node.cst (Spec.eligibleWithoutBrackets 20).
Proof.
  intros Hspec.
  assert (Spec.eligibleWithoutBrackets 20 (Js.of_ascii "a>b") = true) as Habs.
  { apply (Hspec (Some 1) true Sample.bracketRow Annual.acc0
             (Annual.withLongest
                {| Annual.heatmapData := Annual.heatmap0;
                   Annual.midnightStats := [];
                   Annual.conversationStarts := [];
                   Annual.responseTimeStats := [];
                   Annual.phraseCount := [(Js.of_ascii "a>b", 1)];
                   Annual.lastMessageTime := [];
                   Annual.dailyContactStats := [];
                   Annual.longest := Annual.best0 |} Annual.best0));
      [reflexivity | vm_compute; discriminate]. }
  vm_compute in Habs. discriminate Habs.
Qed.

Lemma phrases_filtered_and_ranked_witness :
  Dual.topPhrases Node.cst (Sample.oneBatch Sample.helloRows)
  = Some [(Js.of_ascii "hello world", 2)].
Proof.
  destruct (Dual.scanCursor Node.cst Dual.stats0 (Sample.oneBatch Sample.helloRows))
    as [st|] eqn:E; [|vm_compute in E; discriminate E].
  destruct (phrases_filtered_and_ranked Node.cst) as (_ & _ & _ & _ & _ & Hdual).
  rewrite (Hdual _ st E). vm_compute in E. injection E as <-. reflexivity.
Defined.

(** The greeting sent twice by self is in the phrases of the annual report
    with the count 2. *)
Example hello_world_twice :
  exists data,
    Annual.generateReportWithConfig Node.cst
      (Sample.storeOf Sample.helloRows [(Js.of_ascii "2023-01-01", 2)]) Sample.params
    = Annual.Success data /\
    Annual.topPhrases data = [(Js.of_ascii "hello world", 2)].
Proof. eexists. split; vm_compute; reflexivity. Qed.

(** ** Extras or full scan *)

Section GatherFacts.
Context (P : Platform).

Import Store Annual Spec.

Lemma set_fresh {V : Type} (m : JsMap.t V) (k : jsstring) (v : V) :
  JsMap.get m k = None -> JsMap.set m k v = m ++ [(k, v)].
Proof.
  induction m as [|[k' v'] m IH]; simpl; [reflexivity|].
  destruct (Js.eqb k' k); [discriminate|]. intros H. now rewrite IH.
Qed.

Lemma get_app_fresh {V : Type} (m : JsMap.t V) (k k' : jsstring) (v : V) :
  JsMap.get m k' = None -> k <> k' -> JsMap.get (m ++ [(k, v)]) k' = None.
Proof.
  intros Hm Hne. induction m as [|[k0 v0] m IH]; simpl in *.
  - apply eqb_neq in Hne. now rewrite Hne.
  - destruct (Js.eqb k0 k'); [discriminate | now apply IH].
Qed.

(** Entries with distinct keys enter an empty map as they are. *)
Lemma setAll_distinct {A B : Type} (f : A -> B) (entries : list (jsstring * A))
  (m : JsMap.t B) :
  NoDup (map fst entries) ->
  (forall e, In e entries -> JsMap.get m (fst e) = None) ->
  setAll f entries m = m ++ map (fun e => (fst e, f (snd e))) entries.
Proof.
  unfold setAll. revert m. induction entries as [|e entries IH]; intros m Hnd Hfresh;
    simpl.
  - now rewrite app_nil_r.
  - inversion Hnd as [|? ? Hnotin Hnd']; subst.
    rewrite (set_fresh m (fst e) (f (snd e))) by (apply Hfresh; now left).
    rewrite IH; [now rewrite <- app_assoc | exact Hnd' |].
    intros e' He'. apply get_app_fresh; [apply Hfresh; now right|].
    intros Heq. apply Hnotin. rewrite Heq. now apply in_map.
Qed.







(** The report is built by one assembler from the outcome of either path. *)
Lemma generate_assembles (S : Store.t) (params : Params) (data : AnnualReportData) :
  generateReportWithConfig P S params = Success data ->
  exists cleanedWxid rawWxid d g,
    ensureConnectedWithConfig P S (p_dbPath params) (p_decryptKey params) (p_wxid params)
    = Success (cleanedWxid, rawWxid) /\
    cleanedWxid <> [] /\
    getPrivateSessions P S cleanedWxid <> [] /\
    getAnnualReportStats S = Some d /\
    gather P S (getPrivateSessions P S cleanedWxid) (fst (peakOf (bs_daily d))) = Some g /\
    data = assembleReport P S (if p_year params <=? 0 then 0 else p_year params) d g.
Proof.
  unfold generateReportWithConfig.
  destruct (ensureConnectedWithConfig P S _ _ _) as [[cleaned raw]|err]; [|discriminate].
  destruct cleaned as [|c cleaned]; [discriminate|].
  destruct raw as [|r raw]; [discriminate|].
  destruct (getPrivateSessions P S (c :: cleaned)) as [|sid ids] eqn:Hids; [discriminate|].
  destruct (getAnnualReportStats S) as [d|]; [|discriminate].
  destruct (gather P S (sid :: ids) (fst (peakOf (bs_daily d)))) as [g|] eqn:Hg;
    [|discriminate].
  intros H. injection H as <-.
  exists (c :: cleaned), (r :: raw), d, g. rewrite Hids.
  repeat split; try assumption; discriminate.
Qed.

End GatherFacts.

Section OrchestrationResults.
Context (P : Platform) (S : Store.t).

Import Store Annual Spec.



Lemma connection_failures (params : Params) (e : Failure) :
  ensureConnectedWithConfig P S (p_dbPath params) (p_decryptKey params) (p_wxid params)
  = Fail e ->
  In e connectionFailures.
Proof.
  unfold ensureConnectedWithConfig, connectionFailures.
  destruct (p_wxid params); [intros H; injection H as <-; simpl; tauto|].
  destruct (p_dbPath params); [intros H; injection H as <-; simpl; tauto|].
  destruct (p_decryptKey params); [intros H; injection H as <-; simpl; tauto|].
  destruct (negb _); [intros H; injection H as <-; simpl; tauto | discriminate].
Qed.

(** C7, as the code has it.  With no session, the generation of the annual
    report, and [getAvailableYears] alike, returns a result of the failure
    shape whose error is the fixed message '未找到消息会话', a message that
    no failure of the connection step carries; a failure of the connection
    step is returned as it is; and a result of the success shape needs a
    connection, at least one session, the base statistics and a scan that
    raises nothing. *)
Theorem empty_session_list_fails (params : Params) :
  (forall cleanedWxid rawWxid,
      ensureConnectedWithConfig P S (p_dbPath params) (p_decryptKey params)
        (p_wxid params) = Success (cleanedWxid, rawWxid) ->
      cleanedWxid <> [] ->
      getPrivateSessions P S cleanedWxid = [] ->
      generateReportWithConfig P S params = Fail NoSessions) /\
  (forall cleanedWxid rawWxid,
      ensureConnectedWithConfig P S (p_dbPath params) (p_decryptKey params)
        (p_wxid params) = Success (cleanedWxid, rawWxid) ->
      cleanedWxid <> [] ->
      getPrivateSessions P S cleanedWxid = [] ->
      getAvailableYears P S (p_dbPath params) (p_decryptKey params) (p_wxid params)
      = Fail NoSessions) /\
  (errorText NoSessions = Some "未找到消息会话"%string /\
   Forall (fun e => errorText e <> errorText NoSessions) connectionFailures) /\
  (forall e,
      ensureConnectedWithConfig P S (p_dbPath params) (p_decryptKey params)
        (p_wxid params) = Fail e ->
      generateReportWithConfig P S params = Fail e /\ In e connectionFailures) /\
  (forall data,
      generateReportWithConfig P S params = Success data ->
      exists cleanedWxid rawWxid d g,
        ensureConnectedWithConfig P S (p_dbPath params) (p_decryptKey params)
          (p_wxid params) = Success (cleanedWxid, rawWxid) /\
        cleanedWxid <> [] /\
        getPrivateSessions P S cleanedWxid <> [] /\
        getAnnualReportStats S = Some d /\
        gather P S (getPrivateSessions P S cleanedWxid) (fst (peakOf (bs_daily d)))
        = Some g /\
        data = assembleReport P S (if p_year params <=? 0 then 0 else p_year params) d g).
Proof.
  split; [|split; [|split; [|split]]].
  2:{ intros cleaned raw Hconn Hne Hempty. unfold getAvailableYears.
      rewrite Hconn. destruct cleaned as [|c cleaned]; [contradiction|].
      now rewrite Hempty. }
  - intros cleaned raw Hconn Hne Hempty. unfold generateReportWithConfig.
    rewrite Hconn. destruct cleaned as [|c cleaned]; [contradiction|].
    assert (raw <> []) as Hraw.
    { unfold ensureConnectedWithConfig in Hconn.
      destruct (p_wxid params); [discriminate|].
      destruct (p_dbPath params); [discriminate|].
      destruct (p_decryptKey params); [discriminate|].
      destruct (negb _); [discriminate|]. injection Hconn as _ <-. discriminate. }
    destruct raw as [|r raw]; [contradiction|]. now rewrite Hempty.
  - split; [reflexivity|]. unfold connectionFailures.
    repeat constructor; discriminate.
  - intros e Hconn. split; [|now apply (connection_failures params)].
    unfold generateReportWithConfig. now rewrite Hconn.
  - apply generate_assembles.
Qed.

End OrchestrationResults.



(** C7, as the specification states it, fails: a store without sessions gives a
    failure. *)
Lemma no_session_is_a_failure : ~ Spec.emptyIsSuccess Node.cst.
Proof.
  intros Hspec.
  destruct (Hspec Sample.emptyStore Sample.params (Js.of_ascii "wxid_me")
              (Js.of_ascii "wxid_me")) as [data Hdata];
    [reflexivity | discriminate | reflexivity |].
  vm_compute in Hdata. discriminate Hdata.
Qed.

Lemma empty_session_list_fails_witness :
  Annual.generateReportWithConfig Node.cst Sample.emptyStore Sample.params
  = Annual.Fail Annual.NoSessions.
Proof.
  destruct (empty_session_list_fails Node.cst Sample.emptyStore Sample.params)
    as (Hempty & _).
  apply (Hempty (Js.of_ascii "wxid_me") (Js.of_ascii "wxid_me"));
    [reflexivity | discriminate | reflexivity].
Defined.

(** ** The best run is a longest run of days *)

Section LongestRun.

Import Store Annual Spec.

Lemma allFrom_spec (test : Z -> bool) (k : nat) (lo D : Z) :
  allFrom test k lo = true ->
  lo <= D < lo + 2 ^ Z.of_nat k ->
  test D = true.
Proof.
  revert lo. induction k as [|k IH]; intros lo Hall HD.
  - cbn [allFrom] in Hall. change (2 ^ Z.of_nat 0) with 1 in HD.
    assert (D = lo) as -> by lia. exact Hall.
  - cbn [allFrom] in Hall. apply andb_prop in Hall as [Hleft Hright].
    rewrite Nat2Z.inj_succ, Z.pow_succ_r in HD by lia.
    destruct (Z.lt_ge_cases D (lo + 2 ^ Z.of_nat k)).
    + apply (IH lo); [assumption | lia].
    + apply (IH (lo + 2 ^ Z.of_nat k)); [assumption | lia].
Qed.

Lemma roundTripsb_spec (D : Z) : roundTripsb D = true -> roundTrips D.
Proof.
  unfold roundTripsb, roundTrips. intros H. apply Z.eqb_eq. exact H.
Qed.

Lemma roundTrips_modern (D : Z) : modernDay D -> roundTrips D.
Proof.
  intros HD. apply roundTripsb_spec.
  apply (allFrom_spec roundTripsb 16 0); [vm_compute; reflexivity | exact HD].
Qed.

Lemma in_snd_snoc (seen : list (Date.t * Z)) (d : Date.t) (x y : Z) :
  In y (map snd (seen ++ [(d, x)])) <-> In y (map snd seen) \/ y = x.
Proof.
  rewrite map_app, in_app_iff. simpl. intuition.
Qed.

Lemma isRun_snoc (seen : list (Date.t * Z)) (d : Date.t) (x a b : Z) :
  isRun (map snd seen) a b -> isRun (map snd (seen ++ [(d, x)])) a b.
Proof.
  intros [Hab Hin]. split; [exact Hab|]. intros y Hy.
  apply in_snd_snoc. left. now apply Hin.
Qed.

(** A run among the days seen so far and [x], when [x] is above them all:
    a run seen so far, or a run that ends at [x]. *)
Lemma isRun_snoc_inv (seen : list (Date.t * Z)) (d : Date.t) (x a b : Z) :
  (forall p, In p seen -> snd p < x) ->
  isRun (map snd (seen ++ [(d, x)])) a b ->
  isRun (map snd seen) a b \/ b = x.
Proof.
  intros Hbelow [Hab Hin].
  destruct (Z.eq_dec b x) as [-> | Hne]; [now right|]. left.
  assert (b < x) as Hb.
  { assert (In b (map snd (seen ++ [(d, x)]))) as Hb by (apply Hin; lia).
    apply in_snd_snoc in Hb as [Hb | Hb]; [|contradiction].
    apply in_map_iff in Hb as (p & <- & Hp). now apply Hbelow. }
  split; [exact Hab|]. intros y Hy.
  assert (In y (map snd (seen ++ [(d, x)]))) as H by now apply Hin.
  apply in_snd_snoc in H as [H | H]; [exact H | lia].
Qed.

Lemma streakInv_first (d : Date.t) (x : Z) :
  Date.dayIndexOf d = Some x ->
  streakInv (streakObserve streak0 d) [(d, x)] x.
Proof.
  intros Hd. rewrite <- streakObserveLite_eq, (streakObserveLite_first d x Hd).
  unfold streakInv, isRun. cbn [lastDayIndex currentStreak currentStart maxStreak maxStart maxEnd].
  replace (x - 1 + 1) with x by lia.
  split; [reflexivity|]. split.
  { intros p [<- | []]. simpl. lia. }
  split; [lia|]. split; [exists d; split; [reflexivity | now left]|].
  split; [split; [lia|]; intros y Hy; left; simpl; lia|].
  split; [intros [H | []]; simpl in H; lia|].
  split.
  { exists d, d, x, x. repeat split; try reflexivity; try (now left); try lia.
    intros y Hy. left. simpl. lia. }
  intros a' b' [Hab Hin].
  assert (In a' [x]) as Ha by (apply (Hin a'); lia).
  assert (In b' [x]) as Hb by (apply (Hin b'); lia).
  destruct Ha as [<- | []]. destruct Hb as [<- | []]. lia.
Qed.

Lemma streakInv_same (s : Streak) (seen : list (Date.t * Z)) (d : Date.t) (last : Z) :
  streakInv s seen last ->
  Date.dayIndexOf d = Some last ->
  streakInv (streakObserve s d) (seen ++ [(d, last)]) last.
Proof.
  intros (Hlast & Hbelow & Hcur & (dc & Hdc & Hdcin) & Hrun & Hleft
          & (da & db & a & b & Hda & Hdb & Hain & Hbin & Hmax & Hbest) & Hlongest) Hd.
  rewrite (streak_same_day s d last Hd Hlast).
  assert (forall y, In y (map snd (seen ++ [(d, last)])) -> In y (map snd seen)) as Hsame.
  { intros y Hy. apply in_snd_snoc in Hy as [Hy | ->]; [exact Hy|].
    apply Hrun. lia. }
  unfold streakInv. split; [exact Hlast|]. split.
  { intros p Hp. apply in_app_or in Hp as [Hp | [<- | []]]; [now apply Hbelow | simpl; lia]. }
  split; [exact Hcur|]. split.
  { exists dc. split; [exact Hdc|]. apply in_or_app. now left. }
  split; [now apply isRun_snoc|]. split; [intros H; apply Hleft; now apply Hsame|].
  split.
  { exists da, db, a, b. repeat split; try assumption; try (apply in_or_app; now left).
    - apply Hbest.
    - intros y Hy. apply in_snd_snoc. left. now apply Hbest. }
  intros a' b' [Hab Hin]. apply Hlongest. split; [exact Hab|].
  intros y Hy. now apply Hsame, Hin.
Qed.

Lemma streakInv_next (s : Streak) (seen : list (Date.t * Z)) (d : Date.t) (last : Z) :
  streakInv s seen last ->
  Date.dayIndexOf d = Some (last + 1) ->
  streakInv (streakObserve s d) (seen ++ [(d, last + 1)]) (last + 1).
Proof.
  intros (Hlast & Hbelow & Hcur & (dc & Hdc & Hdcin) & Hrun & Hleft
          & (da & db & a & b & Hda & Hdb & Hain & Hbin & Hmax & Hbest) & Hlongest) Hd.
  assert (forall p, In p seen -> snd p < last + 1) as Hstrict
      by (intros p Hp; specialize (Hbelow p Hp); lia).
  destruct s as [li cur start best bestStart bestEnd].
  cbn [lastDayIndex currentStreak currentStart maxStreak maxStart maxEnd] in *.
  subst li start bestStart bestEnd.
  rewrite <- streakObserveLite_eq, (streakObserveLite_next d last _ _ _ _ _ Hd).
  assert (isRun (map snd (seen ++ [(d, last + 1)])) (last + 1 - (cur + 1) + 1) (last + 1))
    as Hrun'.
  { destruct Hrun as [_ Hin]. split; [lia|]. intros y Hy. apply in_snd_snoc.
    destruct (Z.eq_dec y (last + 1)) as [-> | Hne]; [now right|].
    left. apply Hin. lia. }
  assert (forall a' b',
             isRun (map snd (seen ++ [(d, last + 1)])) a' b' ->
             b' - a' + 1 <= Z.max best (cur + 1)) as Hlongest'.
  { intros a' b' Hr.
    destruct (isRun_snoc_inv seen d (last + 1) a' b' Hstrict Hr) as [Hold | ->].
    - specialize (Hlongest a' b' Hold). lia.
    - destruct Hr as [Hab Hin].
      destruct (Z.le_gt_cases a' (last - cur)) as [Hlow | Hhigh]; [|lia].
      exfalso. apply Hleft.
      assert (In (last - cur) (map snd (seen ++ [(d, last + 1)]))) as H
          by (apply Hin; lia).
      apply in_snd_snoc in H as [H | H]; [exact H | lia]. }
  destruct (Z.ltb_spec best (cur + 1)) as [Hup | Hkeep];
    unfold streakInv;
    cbn [lastDayIndex currentStreak currentStart maxStreak maxStart maxEnd].
  - split; [reflexivity|]. split.
    { intros p Hp. apply in_app_or in Hp as [Hp | [<- | []]];
        [specialize (Hbelow p Hp); lia | simpl; lia]. }
    split; [lia|]. split.
    { exists dc. split; [reflexivity|]. apply in_or_app. left.
      now replace (last + 1 - (cur + 1) + 1) with (last - cur + 1) by lia. }
    split; [exact Hrun'|]. split.
    { intros H. apply in_snd_snoc in H as [H | H]; [|lia].
      apply Hleft. now replace (last - cur) with (last + 1 - (cur + 1)) by lia. }
    split.
    { exists dc, d, (last - cur + 1), (last + 1).
      repeat split; try reflexivity; try lia.
      - apply in_or_app. now left.
      - apply in_or_app. right. now left.
      - intros y Hy. apply Hrun'. lia. }
    intros a' b' Hr. specialize (Hlongest' a' b' Hr). lia.
  - split; [reflexivity|]. split.
    { intros p Hp. apply in_app_or in Hp as [Hp | [<- | []]];
        [specialize (Hbelow p Hp); lia | simpl; lia]. }
    split; [lia|]. split.
    { exists dc. split; [reflexivity|]. apply in_or_app. left.
      now replace (last + 1 - (cur + 1) + 1) with (last - cur + 1) by lia. }
    split; [exact Hrun'|]. split.
    { intros H. apply in_snd_snoc in H as [H | H]; [|lia].
      apply Hleft. now replace (last - cur) with (last + 1 - (cur + 1)) by lia. }
    split.
    { exists da, db, a, b. repeat split; try reflexivity; try assumption;
        try (apply in_or_app; now left).
      - apply Hbest.
      - intros y Hy. apply in_snd_snoc. left. now apply Hbest. }
    intros a' b' Hr. specialize (Hlongest' a' b' Hr). lia.
Qed.

Lemma streakInv_gap (s : Streak) (seen : list (Date.t * Z)) (d : Date.t) (last x : Z) :
  streakInv s seen last ->
  Date.dayIndexOf d = Some x ->
  last + 1 < x ->
  streakInv (streakObserve s d) (seen ++ [(d, x)]) x.
Proof.
  intros (Hlast & Hbelow & Hcur & (dc & Hdc & Hdcin) & Hrun & Hleft
          & (da & db & a & b & Hda & Hdb & Hain & Hbin & Hmax & Hbest) & Hlongest) Hd Hgap.
  assert (forall p, In p seen -> snd p < x - 1) as Hstrict
      by (intros p Hp; specialize (Hbelow p Hp); lia).
  destruct s as [li cur start best bestStart bestEnd].
  cbn [lastDayIndex currentStreak currentStart maxStreak maxStart maxEnd] in *.
  subst li start bestStart bestEnd.
  rewrite <- streakObserveLite_eq.
  rewrite (streakObserveLite_gap d last x _ _ _ _ _ Hd) by lia.
  replace (best <? 1) with false by (symmetry; apply Z.ltb_ge; lia).
  assert (~ In (x - 1) (map snd (seen ++ [(d, x)]))) as Hleft'.
  { intros H. apply in_snd_snoc in H as [H | H]; [|lia].
    apply in_map_iff in H as (p & Hp & Hin). specialize (Hstrict p Hin). lia. }
  unfold streakInv.
  cbn [lastDayIndex currentStreak currentStart maxStreak maxStart maxEnd].
  replace (x - 1 + 1) with x by lia.
  split; [reflexivity|]. split.
  { intros p Hp. apply in_app_or in Hp as [Hp | [<- | []]];
      [specialize (Hstrict p Hp); lia | simpl; lia]. }
  split; [lia|]. split.
  { exists d. split; [reflexivity|]. apply in_or_app. right. now left. }
  split.
  { split; [lia|]. intros y Hy. apply in_snd_snoc. right. lia. }
  split; [exact Hleft'|]. split.
  { exists da, db, a, b. repeat split; try reflexivity; try assumption;
      try (apply in_or_app; now left).
    - apply Hbest.
    - intros y Hy. apply in_snd_snoc. left. now apply Hbest. }
  intros a' b' Hr.
  destruct (isRun_snoc_inv seen d x a' b') as [Hold | ->]; try assumption.
  - intros p Hp. specialize (Hstrict p Hp). lia.
  - now apply Hlongest.
  - destruct Hr as [Hab Hin].
    destruct (Z.eq_dec a' x) as [-> | Hne]; [lia|].
    exfalso. apply Hleft'. apply Hin. lia.
Qed.

Lemma streakInv_step (s : Streak) (seen : list (Date.t * Z)) (d : Date.t) (last x : Z) :
  streakInv s seen last ->
  Date.dayIndexOf d = Some x ->
  last <= x ->
  streakInv (streakObserve s d) (seen ++ [(d, x)]) x.
Proof.
  intros Hinv Hd Hle.
  destruct (Z.eq_dec x last) as [-> | Hne]; [now apply streakInv_same|].
  destruct (Z.eq_dec x (last + 1)) as [-> | Hne']; [now apply streakInv_next|].
  apply (streakInv_gap s seen d last x); (assumption || lia).
Qed.

(** The invariant along dates whose day indices never decrease. *)
Lemma streakInv_fold (ps seen : list (Date.t * Z)) (s : Streak) (last : Z) :
  streakInv s seen last ->
  Forall (fun p => Date.dayIndexOf (fst p) = Some (snd p)) ps ->
  StronglySorted Z.le (last :: map snd ps) ->
  exists last',
    streakInv (fold_left streakObserve (map fst ps) s) (seen ++ ps) last'.
Proof.
  revert seen s last. induction ps as [|[d x] ps IH]; intros seen s last Hinv Hidx Hsorted.
  - exists last. now rewrite app_nil_r.
  - inversion Hidx as [|? ? Hd Hidx']; subst. cbn [fst snd] in Hd.
    inversion Hsorted as [|? ? Hrest Hlast]; subst.
    cbn [map fst snd] in *. inversion Hlast as [|? ? Hle _]; subst.
    cbn [fold_left].
    replace (seen ++ (d, x) :: ps) with ((seen ++ [(d, x)]) ++ ps)
      by (now rewrite <- app_assoc).
    apply (IH _ _ x); [now apply (streakInv_step s seen d last x) | exact Hidx' | exact Hrest].
Qed.

Lemma streakInv_from_start (ps : list (Date.t * Z)) :
  ps <> [] ->
  Forall (fun p => Date.dayIndexOf (fst p) = Some (snd p)) ps ->
  StronglySorted Z.le (map snd ps) ->
  exists last, streakInv (fold_left streakObserve (map fst ps) streak0) ps last.
Proof.
  intros Hne Hidx Hsorted. destruct ps as [|[d x] ps]; [contradiction|].
  inversion Hidx as [|? ? Hd Hidx']; subst. cbn [fst snd map fold_left] in *.
  apply (streakInv_fold ps [(d, x)] _ x); [now apply streakInv_first | exact Hidx' | exact Hsorted].
Qed.

End LongestRun.

Section LongestRunOfRows.
Context (P : Platform).
Hypothesis tz_bounded : Z.abs (tzOffset P) <= 86400.

Import Store Annual Spec.

Lemma streakRows_times (rows : list Row) (s : Streak) :
  fold_left (streakRow P) rows s
  = fold_left streakObserve
      (map (fun t => Date.dayDateOf P (Date.ofSeconds t)) (timesOf rows)) s.
Proof.
  revert s. induction rows as [|row rows IH]; intros s; [reflexivity|].
  unfold timesOf. cbn [fold_left flat_map]. fold (timesOf rows).
  rewrite map_app, fold_left_app, IH. f_equal.
  unfold streakRow. destruct (createTimeOf row) as [t|]; [|reflexivity].
  destruct (t =? 0); [reflexivity|]. cbn [map fold_left].
  apply streakObserveLite_eq.
Qed.

Lemma dayDate_modern (t : Z) :
  modernDay (localDayOf P t) ->
  Date.dayDateOf P (Date.ofSeconds t) = midnight P (localDayOf P t) /\
  Date.dayIndexOf (midnight P (localDayOf P t)) = Some (localDayOf P t + dayShift P).
Proof.
  intros Hmodern. unfold modernDay in Hmodern. split.
  - rewrite (ofSeconds_localDay P tz_bounded t (localDayOf P t)) by (reflexivity || lia).
    apply (dayDateOf_localDay P tz_bounded); [reflexivity | | lia].
    now apply roundTrips_modern.
  - apply dayIndexOf_midnight.
Qed.

Lemma localDayOf_mono (t1 t2 : Z) : t1 <= t2 -> localDayOf P t1 <= localDayOf P t2.
Proof.
  intros Hle. unfold localDayOf, Date.localDay, Date.localMs.
  apply Z.div_le_mono; [reflexivity | lia].
Qed.

Lemma sorted_map_mono (f : Z -> Z) (l : list Z) :
  (forall x y, x <= y -> f x <= f y) ->
  StronglySorted Z.le l -> StronglySorted Z.le (map f l).
Proof.
  intros Hmono Hs. induction Hs as [|x l Hs IH Hx]; cbn [map]; constructor; auto.
  rewrite Forall_forall in *. intros y Hy.
  apply in_map_iff in Hy as (z & <- & Hz). apply Hmono. now apply Hx.
Qed.

(** When the rows of a session come in ascending order of their time
    stamps, all of them between 1970 and 2149, the best run that the streak
    loop holds at the end is a longest run of consecutive local calendar
    days with a message, with the dates of its first and last day. *)
Lemma best_run_is_longest (rows : list Row) :
  timesOf rows <> [] ->
  StronglySorted Z.le (timesOf rows) ->
  Forall (fun t => modernDay (localDayOf P t)) (timesOf rows) ->
  bestIsLongestRun P (map (localDayOf P) (timesOf rows))
    (fold_left (streakRow P) rows streak0).
Proof.
  intros Hne Hsorted Hmodern. rewrite streakRows_times.
  set (times := timesOf rows) in *.
  set (ps := map (fun t => (midnight P (localDayOf P t), localDayOf P t + dayShift P))
               times).
  assert (map fst ps = map (fun t => Date.dayDateOf P (Date.ofSeconds t)) times) as Hfst.
  { unfold ps. rewrite map_map. cbn [fst]. apply map_ext_in. intros t Ht.
    rewrite Forall_forall in Hmodern. symmetry. now apply dayDate_modern, Hmodern. }
  assert (map snd ps = map (fun t => localDayOf P t + dayShift P) times) as Hsnd
      by (unfold ps; now rewrite map_map).
  destruct (streakInv_from_start ps) as [last Hinv].
  - unfold ps. destruct times; [contradiction | discriminate].
  - unfold ps. apply Forall_forall. intros p Hp.
    apply in_map_iff in Hp as (t & <- & Ht). cbn [fst snd].
    rewrite Forall_forall in Hmodern. now apply dayDate_modern, Hmodern.
  - rewrite Hsnd. apply sorted_map_mono; [|exact Hsorted].
    intros x y Hxy. pose proof (localDayOf_mono x y Hxy). lia.
  - rewrite Hfst in Hinv.
    destruct Hinv as (_ & _ & _ & _ & _ & _
                      & (da & db & a & b & Hda & Hdb & Hain & Hbin & Hmax & Hbest)
                      & Hlongest).
    assert (forall y, In y (map snd ps) <-> In (y - dayShift P) (map (localDayOf P) times))
      as Hshift.
    { intros y. rewrite Hsnd, !in_map_iff. split.
      - intros (t & <- & Ht). exists t. split; [lia | exact Ht].
      - intros (t & Heq & Ht). exists t. split; [lia | exact Ht]. }
    assert (forall a0 b0,
               isRun (map snd ps) a0 b0 <->
               isRun (map (localDayOf P) times) (a0 - dayShift P) (b0 - dayShift P))
      as HisRun.
    { intros a0 b0. unfold isRun. split; intros [Hab Hin]; (split; [lia|]); intros y Hy.
      - replace y with (y + dayShift P - dayShift P) by lia. apply Hshift, Hin. lia.
      - apply Hshift, Hin. lia. }
    assert (forall dx x, In (dx, x) ps ->
                         formatDateYmd P dx = ymdText (x - dayShift P)) as Htext.
    { intros dx x Hin. unfold ps in Hin. apply in_map_iff in Hin as (t & Heq & _).
      injection Heq as <- <-.
      replace (localDayOf P t + dayShift P - dayShift P) with (localDayOf P t) by lia.
      unfold midnight, ymdText. apply (formatDateYmd_midnight P). }
    exists (a - dayShift P), (b - dayShift P).
    split; [now apply HisRun|]. split; [lia|].
    rewrite Hda, Hdb. cbn [option_map].
    rewrite (Htext da a Hain), (Htext db b Hbin).
    split; [reflexivity|]. split; [reflexivity|].
    intros a' b' Hr. replace (b' - a' + 1) with (b' + dayShift P - (a' + dayShift P) + 1) by lia.
    apply Hlongest, HisRun.
    now replace (a' + dayShift P - dayShift P) with a' by lia;
      replace (b' + dayShift P - dayShift P) with b' by lia.
Qed.

End LongestRunOfRows.

(** ** The best streak of the report *)

Section StreakResults.
Context (P : Platform).

Import Store Annual Spec.

Lemma streak_running_max (s : Streak) (dayDate : Date.t) :
  currentStreak s <= maxStreak s ->
  let s' := streakObserve s dayDate in
  maxStreak s' = Z.max (maxStreak s) (currentStreak s') /\
  (maxStreak s < currentStreak s' ->
   maxStart s' = currentStart s' /\ maxEnd s' = Some dayDate).
Proof.
  intros Hinv s'. pose proof (streak_max s dayDate) as H. cbv zeta in H.
  fold s' in H. destruct H as [Hsame | [Hup | Hkeep]].
  - rewrite Hsame. split; lia.
  - destruct Hup as (Hlt & Hmax & Hstart & Hend). split; [lia | auto].
  - destruct Hkeep as (Hle & Hmax & _). split; lia.
Qed.

Lemma streakCursor_delivered (cursor : Cursor) (s : Streak) :
  streakCursor P s cursor = fold_left (streakRow P) (delivered cursor) s.
Proof.
  revert s. induction cursor as [|batch cursor IH]; intros s;
    cbn [streakCursor delivered]; [reflexivity|].
  destruct (negb (batch_success batch)); [reflexivity|].
  destruct (batch_rows batch) as [rows|]; [|reflexivity].
  rewrite fold_left_app. destruct (batch_hasMore batch); [apply IH | reflexivity].
Qed.

Lemma bestOver_max (l : list (jsstring * Streak)) :
  Forall (fun e => maxStreak (snd e) <= bestDays (bestOver best0 l)) l /\
  (bestOver best0 l = best0 \/
   exists e,
     In e l /\
     bestOver best0 l =
       {| bestSessionId := fst e; bestDays := maxStreak (snd e);
          bestStart := maxStart (snd e); bestEnd := maxEnd (snd e) |}).
Proof.
  split; [apply bestOver_ge|].
  destruct (bestOver_attained l best0) as [Hsame | (l1 & e & l2 & -> & Hbest & _)];
    [now left|].
  right. exists e. split; [|exact Hbest].
  apply in_or_app. right. now left.
Qed.

(** C1.  The streak update leaves the variables alone on the day of the
    last message, adds one to the current run on the day after it, and
    otherwise starts a run of length 1 at the new day; the best run of a
    session is the largest current run with the days where it started and
    ended; the best streak of the report is the largest best run over the
    sessions, with the session and the two days of that run; for rows in
    ascending order of their time stamps (between 1970 and 2149) the best
    run of a session is a longest run of consecutive local calendar days;
    and messages on 2023-01-01, 01-02, 01-03 and 01-10 give three days,
    from 2023-01-01 to 2023-01-03. *)
Theorem streak_best_over_sessions :
  Z.abs (tzOffset P) <= 86400 ->
  (forall s dayDate d,
      Date.dayIndexOf dayDate = Some d ->
      (lastDayIndex s = Some (Some d) -> streakObserve s dayDate = s) /\
      (lastDayIndex s = Some (Some (d - 1)) ->
       currentStreak (streakObserve s dayDate) = currentStreak s + 1 /\
       currentStart (streakObserve s dayDate) = currentStart s) /\
      ((forall last, lastDayIndex s = Some (Some last) -> d <> last /\ d <> last + 1) ->
       currentStreak (streakObserve s dayDate) = 1 /\
       currentStart (streakObserve s dayDate) = Some dayDate)) /\
  (forall s dayDate, streakObserveLite s dayDate = streakObserve s dayDate) /\
  (forall s dayDate,
      currentStreak s <= maxStreak s ->
      maxStreak (streakObserve s dayDate)
      = Z.max (maxStreak s) (currentStreak (streakObserve s dayDate)) /\
      (maxStreak s < currentStreak (streakObserve s dayDate) ->
       maxStart (streakObserve s dayDate) = currentStart (streakObserve s dayDate) /\
       maxEnd (streakObserve s dayDate) = Some dayDate)) /\
  (forall S peakDayKey sessionIds a,
      fullScan P S peakDayKey acc0 sessionIds = Some a ->
      longest a = bestOver best0 (sessionStreaks P S 1000 sessionIds)) /\
  (forall S sessionIds,
      computeLongestStreak P S sessionIds
      = bestOver best0 (sessionStreaks P S 2000 sessionIds)) /\
  (forall l,
      Forall (fun e => maxStreak (snd e) <= bestDays (bestOver best0 l)) l /\
      (bestOver best0 l = best0 \/
       exists e,
         In e l /\
         bestOver best0 l =
           {| bestSessionId := fst e; bestDays := maxStreak (snd e);
              bestStart := maxStart (snd e); bestEnd := maxEnd (snd e) |})) /\
  (forall cursor,
      streakCursor P streak0 cursor = fold_left (streakRow P) (delivered cursor) streak0) /\
  (forall rows,
      timesOf rows <> [] ->
      StronglySorted Z.le (timesOf rows) ->
      Forall (fun t => modernDay (localDayOf P t)) (timesOf rows) ->
      bestIsLongestRun P (map (localDayOf P) (timesOf rows))
        (fold_left (streakRow P) rows streak0)) /\
  (forall rows t1 t2 t3 t4,
      map createTimeOf rows = [Some t1; Some t2; Some t3; Some t4] ->
      Date.localDay P (t1 * 1000) = 19358 ->
      Date.localDay P (t2 * 1000) = 19359 ->
      Date.localDay P (t3 * 1000) = 19360 ->
      Date.localDay P (t4 * 1000) = 19367 ->
      let s := fold_left (streakRow P) rows streak0 in
      maxStreak s = 3 /\
      option_map (formatDateYmd P) (maxStart s) = Some (Js.of_ascii "2023-01-01") /\
      option_map (formatDateYmd P) (maxEnd s) = Some (Js.of_ascii "2023-01-03")).
Proof.
  intros Htz.
  split; [|split; [|split; [|split; [|split; [|split; [|split; [|split]]]]]]].
  - intros s dayDate d Hd. split; [|split].
    + now apply streak_same_day.
    + intros Hl.
      destruct (streak_next_day s dayDate d (d - 1) Hd Hl) as (Hcur & Hstart & _);
        [lia | auto].
    + intros Hl. destruct (streak_other_day s dayDate d Hd Hl) as (Hcur & Hstart & _).
      auto.
  - apply streakObserveLite_eq.
  - intros s dayDate Hinv. now apply streak_running_max.
  - intros S pk ids a H. now apply fullScan_longest in H.
  - apply computeLongestStreak_best.
  - apply bestOver_max.
  - intros cursor. apply streakCursor_delivered.
  - intros rows. now apply (best_run_is_longest P Htz rows).
  - intros rows t1 t2 t3 t4. now apply (streak_scenario P Htz rows t1 t2 t3 t4).
Qed.

End StreakResults.

Lemma streak_best_over_sessions_witness :
  let s := fold_left (Annual.streakRow Node.cst) Sample.streakRows Annual.streak0 in
  (Annual.maxStreak s = 3 /\
   option_map (Annual.formatDateYmd Node.cst) (Annual.maxStart s)
   = Some (Js.of_ascii "2023-01-01") /\
   option_map (Annual.formatDateYmd Node.cst) (Annual.maxEnd s)
   = Some (Js.of_ascii "2023-01-03")) /\
  Spec.bestIsLongestRun Node.cst [19358; 19359; 19360; 19367] s.
Proof.
  assert (Z.abs (tzOffset Node.cst) <= 86400) as Htz by (vm_compute; discriminate).
  destruct (streak_best_over_sessions Node.cst Htz)
    as (_ & _ & _ & _ & _ & _ & _ & Hlongest & Hscenario).
  split.
  - apply (Hscenario Sample.streakRows 1672545600 1672632000 1672718400 1673323200);
      reflexivity.
  - apply (Hlongest Sample.streakRows).
    + discriminate.
    + change (Spec.timesOf Sample.streakRows)
        with [1672545600; 1672632000; 1672718400; 1673323200].
      repeat constructor; lia.
    + change (Spec.timesOf Sample.streakRows)
        with [1672545600; 1672632000; 1672718400; 1673323200].
      repeat constructor; vm_compute; (discriminate || reflexivity).
Defined.

(** The same scenario through the whole report, in the full scan. *)
Example streak_scenario_report :
  exists data,
    Annual.generateReportWithConfig Node.cst Sample.streakStore Sample.params
    = Annual.Success data /\
    Annual.longestStreak data
    = Some {| Annual.friendName := Js.of_ascii "Alice"; Annual.days := 3;
              Annual.startDate := Js.of_ascii "2023-01-01";
              Annual.endDate := Js.of_ascii "2023-01-03" |}.
Proof. eexists. split; vm_compute; reflexivity. Qed.

(** * Further properties *)

(** ** Branches of the decoder *)

Section DecoderBranches.
Context (P : Platform).

Import Decoder.

Local Arguments hexDecode : simpl never.
Local Arguments looksLikeBase64 : simpl never.
Local Arguments decodeBinaryContent : simpl never.

Lemma hex_value_digit (c : N) :
  Js.is_hex_digit c = true -> exists v, hex_value c = Some v.
Proof.
  unfold Js.is_hex_digit, hex_value. intros H.
  destruct (Js.is_digit c); [eauto|].
  destruct ((97 <=? c) && (c <=? 102))%N; [eauto|].
  destruct ((65 <=? c) && (c <=? 70))%N; [eauto | discriminate].
Qed.

(** Two digits give one byte. *)
Lemma hexDecode_length (s : jsstring) :
  (forallb Js.is_hex_digit s = true ->
   List.length (hexDecode s) = Nat.div2 (List.length s)) /\
  (forall c, forallb Js.is_hex_digit (c :: s) = true ->
             List.length (hexDecode (c :: s)) = Nat.div2 (List.length (c :: s))).
Proof.
  induction s as [|b s [IH1 IH2]].
  - split; [reflexivity|]. intros c _. reflexivity.
  - split; [apply IH2|]. intros a H. cbn [forallb] in H.
    apply andb_prop in H as [Ha H]. apply andb_prop in H as [Hb H].
    destruct (hex_value_digit a Ha) as [h Hh].
    destruct (hex_value_digit b Hb) as [l Hl].
    unfold hexDecode; fold hexDecode. rewrite Hh, Hl. cbn [List.length Nat.div2].
    now rewrite IH1.
Qed.

Lemma div2_double (n : nat) :
  Z.of_nat n mod 2 = 0 -> 2 * Z.of_nat (Nat.div2 n) = Z.of_nat n.
Proof.
  intros Hmod. rewrite Nat.div2_div, Nat2Z.inj_div. change (Z.of_nat 2) with 2.
  pose proof (Z.div_mod (Z.of_nat n) 2). lia.
Qed.

(** X1.  A string is decoded according to its shape alone.  A string of
    an even, positive number of hexadecimal digits is always read as the
    bytes that the digits spell, one byte for two digits: the test
    [bytes.length > 0] never fails for it.  Any other string of base64
    characters whose length is a multiple of four is read as base64, a
    word of four letters included.  Every other string is returned as it
    is. *)
Theorem text_is_decoded_by_shape (s : jsstring) :
  (looksLikeHex s = true ->
   2 * Z.of_nat (List.length (hexDecode s)) = Js.len s /\
   hexDecode s <> [] /\
   decodeMaybeCompressed P (RawString s) = decodeBinaryContent P (hexDecode s)) /\
  (looksLikeHex s = false -> looksLikeBase64 s = true ->
   decodeMaybeCompressed P (RawString s) = decodeBinaryContent P (base64Decode P s)) /\
  (looksLikeHex s = false -> looksLikeBase64 s = false ->
   decodeMaybeCompressed P (RawString s) = Some s).
Proof.
  split; [|split].
  - intros Hhex. pose proof Hhex as Hshape. unfold looksLikeHex in Hhex.
    destruct (Z.eqb_spec (Js.len s mod 2) 0) as [Heven|]; [|discriminate].
    cbn [negb] in Hhex. unfold all_of in Hhex.
    destruct s as [|c r]; [discriminate|].
    destruct (hexDecode_length (c :: r)) as [Hlen _]. specialize (Hlen Hhex).
    assert (2 * Z.of_nat (List.length (hexDecode (c :: r))) = Js.len (c :: r)) as Hdouble.
    { rewrite Hlen. now apply div2_double. }
    assert (hexDecode (c :: r) <> []) as Hne.
    { intros Hnil. rewrite Hnil in Hdouble. unfold Js.len in Hdouble.
      cbn [List.length] in Hdouble. lia. }
    split; [exact Hdouble|]. split; [exact Hne|].
    apply decodeMaybeCompressed_hex. unfold decodePath. rewrite Hshape.
    cbn [andb]. destruct (hexDecode (c :: r)); [contradiction | reflexivity].
  - intros Hhex Hb64. destruct s as [|c r]; [discriminate|].
    apply decodeMaybeCompressed_base64. unfold decodePath. now rewrite Hhex, Hb64.
  - intros Hhex Hb64. destruct s as [|c r]; [reflexivity|].
    apply decodeMaybeCompressed_plain. unfold decodePath. now rewrite Hhex, Hb64.
Qed.

Lemma latin1_has_no_replacement_char (data : list byte) :
  ~ In replacementChar (latin1Decode data).
Proof.
  unfold latin1Decode. intros Hin. apply in_map_iff in Hin as (b & Hb & _).
  pose proof (Byte.to_N_bounded b) as Hle. rewrite Hb in Hle.
  unfold replacementChar in Hle. lia.
Qed.

(** X2.  The decoding of a buffer that is not a zstd frame never holds the
    replacement character U+FFFD: it is either the UTF-8 decoding without
    its replacement characters or, when a fifth or more of the decoding
    is replacement characters, the Latin-1 decoding, which has one code
    unit below 256 for each byte. *)
Theorem plain_buffer_has_no_replacement_char (data : list byte) (text : jsstring) :
  isZstdFrame data = false ->
  decodeBinaryContent P data = Some text ->
  ~ In replacementChar text /\
  (data <> [] -> fewReplacements (utf8Decode P data) = false ->
   List.length text = List.length data /\ Forall (fun c => (c < 256)%N) text).
Proof.
  intros Hmagic Hdec. unfold decodeBinaryContent in Hdec.
  destruct data as [|b data].
  - injection Hdec as <-. split; [intros []|]. intros Hne. now destruct Hne.
  - unfold decodeBinaryBody in Hdec. rewrite Hmagic in Hdec.
    destruct (fewReplacements (utf8Decode P (b :: data))); cbn [try_catch] in Hdec;
      injection Hdec as <-.
    + split; [apply stripReplacement_clean | discriminate].
    + split; [exact (latin1_has_no_replacement_char (b :: data))|]. intros _ _.
      split; [exact (length_map Byte.to_N (b :: data))|].
      apply Forall_forall. intros c Hin.
      apply (in_map_iff Byte.to_N (b :: data)) in Hin as (x & <- & _).
      pose proof (Byte.to_N_bounded x). lia.
Qed.

End DecoderBranches.

Lemma text_is_decoded_by_shape_witness :
  Decoder.decodeMaybeCompressed Node.cst (Decoder.RawString (Js.of_ascii "68656c6c6f21"))
  = Some (Js.of_ascii "hello!") /\
  Decoder.decodeMaybeCompressed Node.cst (Decoder.RawString (Js.of_ascii "pong"))
  = Some [166%N; 137%N; 224%N] /\
  Decoder.decodeMaybeCompressed Node.cst (Decoder.RawString (Js.of_ascii "hello world"))
  = Some (Js.of_ascii "hello world").
Proof.
  split; [|split].
  - destruct (text_is_decoded_by_shape Node.cst (Js.of_ascii "68656c6c6f21"))
      as (Hhex & _ & _).
    destruct (Hhex eq_refl) as (_ & _ & ->). reflexivity.
  - destruct (text_is_decoded_by_shape Node.cst (Js.of_ascii "pong")) as (_ & Hb64 & _).
    rewrite (Hb64 eq_refl eq_refl). reflexivity.
  - destruct (text_is_decoded_by_shape Node.cst (Js.of_ascii "hello world"))
      as (_ & _ & Hplain).
    exact (Hplain eq_refl eq_refl).
Defined.

Lemma plain_buffer_has_no_replacement_char_witness :
  ~ In Decoder.replacementChar [104%N; 255%N] /\
  List.length [104%N; 255%N] = 2%nat.
Proof.
  destruct (plain_buffer_has_no_replacement_char Node.cst [x68; xff] [104%N; 255%N]
              eq_refl eq_refl) as [Hclean Hlatin].
  split; [exact Hclean|]. apply Hlatin; [discriminate | reflexivity].
Defined.

(** ** Account names *)

Section AccountFacts.
Context (P : Platform).

Import Store Annual.

Lemma untilUnderscore_split (s : jsstring) :
  exists rest,
    s = untilUnderscore s ++ rest /\ (rest = [] \/ exists r, rest = 95%N :: r).
Proof.
  induction s as [|c s (rest & Hs & Hrest)]; cbn [untilUnderscore].
  - exists []. auto.
  - destruct (N.eqb_spec c 95) as [-> | Hne].
    + exists (95%N :: s). eauto.
    + exists rest. split; [cbn [app]; now rewrite <- Hs | exact Hrest].
Qed.

Lemma matchWxid_split (s m : jsstring) :
  matchWxid s = Some m ->
  m <> [] /\ exists rest, s = m ++ rest /\ (rest = [] \/ exists r, rest = 95%N :: r).
Proof.
  unfold matchWxid. destruct (Js.eqb _ _); [|discriminate].
  destruct (untilUnderscore (skipn 5 s)) as [|c run] eqn:Hrun; [discriminate|].
  intros H. injection H as <-. split.
  - intros Hnil. apply app_eq_nil in Hnil as [_ Hnil]. discriminate.
  - destruct (untilUnderscore_split (skipn 5 s)) as (rest & Hs & Hrest).
    exists rest. split; [|exact Hrest].
    rewrite <- app_assoc, <- Hrun, <- Hs. symmetry. exact (firstn_skipn 5 s).
Qed.

Lemma matchSuffix_split (s m : jsstring) :
  matchSuffix s = Some m ->
  m <> [] /\ exists r, s = m ++ 95%N :: r.
Proof.
  unfold matchSuffix.
  pose proof (firstn_skipn (List.length s - 5) s) as Hsplit.
  destruct (skipn (List.length s - 5) s) as [|u [|a [|b [|c [|d [|x tl]]]]]];
    try discriminate.
  destruct (N.eqb_spec u 95) as [-> | Hne]; [|discriminate].
  cbn [andb].
  destruct (forallb _ [a; b; c; d]); [|discriminate]. cbn [andb].
  destruct (Nat.eqb_spec (List.length (firstn (List.length s - 5) s)) 0) as [|Hlen];
    [discriminate|].
  cbn [negb andb]. destruct (forallb _ _); [|discriminate].
  intros H. injection H as <-. split.
  - intros Hnil. now rewrite Hnil in Hlen.
  - exists [a; b; c; d]. now symmetry.
Qed.

(** X3.  The cleaned account name is a prefix of the trimmed directory
    name, what is cut off starts with an underscore, and the cleaned name
    is empty only when the directory name is blank. *)
Theorem clean_account_name_is_prefix (dirName : jsstring) :
  exists rest,
    Js.trim dirName = cleanAccountDirName P dirName ++ rest /\
    (rest = [] \/ exists r, rest = 95%N :: r) /\
    (cleanAccountDirName P dirName = [] <-> Js.trim dirName = []).
Proof.
  unfold cleanAccountDirName.
  destruct (Js.trim dirName) as [|c t] eqn:Htrim.
  - exists []. split; [reflexivity|]. split; [now left | tauto].
  - destruct (Js.startsWith _ _).
    + destruct (matchWxid (c :: t)) as [m|] eqn:Hm.
      * apply matchWxid_split in Hm as (Hne & rest & Hs & Hrest).
        exists rest. split; [exact Hs|]. split; [exact Hrest|].
        split; [intros H; contradiction | discriminate].
      * exists []. rewrite app_nil_r. split; [reflexivity|].
        split; [now left|]. split; discriminate.
    + destruct (matchSuffix (c :: t)) as [m|] eqn:Hm.
      * apply matchSuffix_split in Hm as (Hne & r & Hs).
        exists (95%N :: r). split; [exact Hs|]. split; [right; eauto|].
        split; [intros H; contradiction | discriminate].
      * exists []. rewrite app_nil_r. split; [reflexivity|].
        split; [now left|]. split; discriminate.
Qed.

(** X4.  An account name that holds white space only is not reported as a
    missing account name: the store is opened with the empty account
    name, and the generation of the report, and [getAvailableYears]
    alike, fails with 'WCDB 打开失败' when the store does not open and
    with no error text at all when it opens. *)
Theorem blank_wxid_gives_no_report (S : Store.t) (params : Params) :
  p_wxid params <> [] ->
  Js.trim (p_wxid params) = [] ->
  p_dbPath params <> [] ->
  p_decryptKey params <> [] ->
  let failure :=
    if Store.open S (p_dbPath params) (p_decryptKey params) []
    then NoErrorText else OpenFailed in
  generateReportWithConfig P S params = Fail failure /\
  getAvailableYears P S (p_dbPath params) (p_decryptKey params) (p_wxid params)
  = Fail failure.
Proof.
  intros Hw Hblank Hd Hk failure. subst failure.
  unfold generateReportWithConfig, getAvailableYears, ensureConnectedWithConfig.
  assert (cleanAccountDirName P (p_wxid params) = []) as Hclean.
  { unfold cleanAccountDirName. now rewrite Hblank. }
  rewrite Hclean.
  destruct (p_wxid params) as [|w ws]; [contradiction|].
  destruct (p_dbPath params) as [|d ds]; [contradiction|].
  destruct (p_decryptKey params) as [|k ks]; [contradiction|].
  destruct (Store.open S (d :: ds) (k :: ks) []); split; reflexivity.
Qed.

End AccountFacts.

Lemma blank_wxid_gives_no_report_witness :
  Annual.generateReportWithConfig Node.cst Sample.emptyStore
    {| Annual.p_year := 2023; Annual.p_wxid := [32%N; 9%N];
       Annual.p_dbPath := Js.of_ascii "db"; Annual.p_decryptKey := Js.of_ascii "key" |}
  = Annual.Fail
      (if Store.open Sample.emptyStore (Js.of_ascii "db") (Js.of_ascii "key") []
       then Annual.NoErrorText else Annual.OpenFailed).
Proof.
  apply (blank_wxid_gives_no_report Node.cst Sample.emptyStore
           {| Annual.p_year := 2023; Annual.p_wxid := [32%N; 9%N];
              Annual.p_dbPath := Js.of_ascii "db";
              Annual.p_decryptKey := Js.of_ascii "key" |});
    (discriminate || reflexivity).
Defined.

(** ** The full scan, row by row *)

Section MapFacts.
Context {V : Type}.

Lemma in_set (m : JsMap.t V) (k : jsstring) (v : V) (e : jsstring * V) :
  In e (JsMap.set m k v) -> e = (k, v) \/ In e m.
Proof.
  induction m as [|[k' v'] m IH]; simpl.
  - intros [<- | []]. now left.
  - destruct (Js.eqb k' k) eqn:E; simpl.
    + apply eqb_eq in E. subst k'. intros [<- | H]; auto.
    + intros [<- | H]; auto. destruct (IH H); auto.
Qed.

Lemma Forall_set (Q : jsstring * V -> Prop) (m : JsMap.t V) (k : jsstring) (v : V) :
  Forall Q m -> Q (k, v) -> Forall Q (JsMap.set m k v).
Proof.
  intros Hm Hk. apply Forall_forall. intros e He.
  apply in_set in He as [-> | He]; [exact Hk|].
  rewrite Forall_forall in Hm. now apply Hm.
Qed.

Lemma get_In (m : JsMap.t V) (k : jsstring) (v : V) :
  JsMap.get m k = Some v -> In (k, v) m.
Proof.
  induction m as [|[k' v'] m IH]; simpl; [discriminate|].
  destruct (Js.eqb k' k) eqn:E.
  - apply eqb_eq in E. subst k'. intros H. injection H as <-. now left.
  - auto.
Qed.

Lemma has_set (m : JsMap.t V) (k k' : jsstring) (v : V) :
  JsMap.has (JsMap.set m k v) k' = true -> k' = k \/ JsMap.has m k' = true.
Proof.
  intros H. destruct (Js.eqb k k') eqn:E.
  - apply eqb_eq in E. now left.
  - right. apply eqb_neq in E. unfold JsMap.has in *.
    now rewrite get_set_other in H.
Qed.

(** The sum of a measure of the values after [set]. *)
Lemma sum_values_set (f : V -> Z) (m : JsMap.t V) (k : jsstring) (v : V) :
  fold_right Z.add 0 (map f (JsMap.values (JsMap.set m k v)))
  = fold_right Z.add 0 (map f (JsMap.values m))
    - match JsMap.get m k with Some o => f o | None => 0 end + f v.
Proof.
  unfold JsMap.values. induction m as [|[k' v'] m IH]; simpl.
  - lia.
  - destruct (Js.eqb k' k); simpl; [lia|]. rewrite IH. lia.
Qed.

Lemma sum_values_ensure (f : V -> Z) (m : JsMap.t V) (k : jsstring) (d : V) :
  f d = 0 ->
  fold_right Z.add 0
    (map f (JsMap.values (if JsMap.has m k then m else JsMap.set m k d)))
  = fold_right Z.add 0 (map f (JsMap.values m)).
Proof.
  intros Hd. unfold JsMap.has. destruct (JsMap.get m k) eqn:E; [reflexivity|].
  rewrite sum_values_set, E. lia.
Qed.

End MapFacts.

Section CountFacts.

Import Store Annual Spec Spec2.

Lemma countOf_countUp (m : JsMap.t Z) (k k' : jsstring) :
  countOf (countUp m k) k' = countOf m k' + (if Js.eqb k k' then 1 else 0).
Proof.
  unfold countOf, countUp. destruct (Js.eqb k k') eqn:E.
  - apply eqb_eq in E. subst k'. now rewrite get_set_same.
  - apply eqb_neq in E. rewrite get_set_other by assumption. lia.
Qed.

Lemma countUp_positive (m : JsMap.t Z) (k : jsstring) :
  Forall (fun e => 1 <= snd e) m -> Forall (fun e => 1 <= snd e) (countUp m k).
Proof.
  intros Hm. unfold countUp. apply Forall_set; [exact Hm|]. cbn [snd].
  destruct (JsMap.get m k) as [n|] eqn:E; [|lia].
  apply get_In in E. rewrite Forall_forall in Hm. specialize (Hm _ E).
  cbn [snd] in Hm. lia.
Qed.

Lemma countIf_app (p : jsstring * Row -> bool) (l : list (jsstring * Row))
  (e : jsstring * Row) :
  countIf p (l ++ [e]) = countIf p l + (if p e then 1 else 0).
Proof.
  unfold countIf. rewrite filter_app, length_app. cbn [filter].
  destruct (p e); cbn [List.length]; lia.
Qed.

Lemma eventsOf_app (sid : jsstring) (l1 l2 : list Row) :
  eventsOf sid (l1 ++ l2) = eventsOf sid l1 ++ eventsOf sid l2.
Proof. unfold eventsOf. now rewrite filter_app, map_app. Qed.

Lemma ofSeconds_ms (t ms : Z) : Date.ofSeconds t = Some ms -> ms = t * 1000.
Proof.
  unfold Date.ofSeconds, Date.timeClip.
  destruct (Z.abs (t * 1000) <=? Date.maxTime); [|discriminate].
  intros H. now injection H as <-.
Qed.

Lemma msOf_row (row : Row) (t ms : Z) :
  createTimeOf row = Some t -> Date.ofSeconds t = Some ms -> msOf row = ms.
Proof.
  intros Ht Hms. unfold msOf. rewrite Ht. symmetry. now apply ofSeconds_ms.
Qed.

(** The rows with a time stamp are as many as the events. *)
Lemma scannedEvents_length (S : Store.t) (ids : list jsstring) :
  Z.of_nat (List.length (scannedEvents S ids)) = timed (scannedRows S ids).
Proof.
  unfold scannedEvents, scannedRows, timed.
  induction ids as [|sid ids IH]; [reflexivity|].
  cbn [flat_map]. rewrite filter_app, !length_app, !Nat2Z.inj_add, IH.
  destruct (openMessageCursorLite S sid 1000) as [cursor|]; [|reflexivity].
  unfold eventsOf. now rewrite length_map.
Qed.

End CountFacts.

Section ScanInvariant.
Context (P : Platform) (pk : jsstring).

Import Store Annual Spec Spec2.

(** A relation [R] between the accumulators and the rows with a time
    stamp processed so far, kept by the three steps of a row taken
    together and by the update of the best streak. *)
Variable R : Acc -> list (jsstring * Row) -> Prop.

Hypothesis row_step : forall sid row t ms a a2 s l,
  R a l ->
  createTimeOf row = Some t -> t <> 0 ->
  phraseObserve P (localTypeOf row) (isSentOf row) row
    (convObserve sid t (isSentOf row) a) = Some a2 ->
  Date.ofSeconds t = Some ms ->
  R (fst (calendarObserve P pk sid ms a2 s)) (l ++ [(sid, row)]).
Hypothesis longest_step : forall a b l, R a l -> R (withLongest a b) l.

Lemma scanRow_inv (sid : jsstring) (a a' : Acc) (s s' : Streak) (row : Row)
  (l : list (jsstring * Row)) :
  R a l ->
  scanRow P pk sid (a, s) row = Some (a', s') ->
  R a' (l ++ eventsOf sid [row]).
Proof.
  intros Ha H. unfold eventsOf. cbn [filter].
  destruct (hasTimestamp row) eqn:Hts.
  - destruct (scanRow_step P _ _ _ _ _ _ Hts H)
      as (t & a2 & ms & Ht & Hnz & Hph & Hdate & Heq).
    apply (f_equal fst) in Heq. cbn [fst] in Heq. subst a'.
    cbn [map]. now apply (row_step sid row t ms a a2 s l).
  - rewrite scanRow_skip in H by assumption. injection H as <- <-.
    cbn [map]. now rewrite app_nil_r.
Qed.

Lemma scanRows_inv (sid : jsstring) (rows : list Row) (a a' : Acc) (s s' : Streak)
  (l : list (jsstring * Row)) :
  R a l ->
  scanRows P pk sid (a, s) rows = Some (a', s') ->
  R a' (l ++ eventsOf sid rows).
Proof.
  revert a s l. induction rows as [|row rows IH]; intros a s l Ha H; simpl in H.
  - injection H as <- <-. unfold eventsOf. cbn. now rewrite app_nil_r.
  - destruct (scanRow P pk sid (a, s) row) as [[a1 s1]|] eqn:E; [|discriminate].
    simpl in H. pose proof (scanRow_inv _ _ _ _ _ _ _ Ha E) as H1.
    change (row :: rows) with ([row] ++ rows).
    rewrite eventsOf_app, app_assoc. now apply (IH a1 s1).
Qed.

Lemma scanCursor_inv (sid : jsstring) (cursor : Cursor) (a a' : Acc) (s s' : Streak)
  (l : list (jsstring * Row)) :
  R a l ->
  scanCursor P pk sid (a, s) cursor = Some (a', s') ->
  R a' (l ++ eventsOf sid (delivered cursor)).
Proof.
  revert a s l. induction cursor as [|batch cursor IH]; intros a s l Ha H;
    cbn [scanCursor delivered] in *.
  - injection H as <- <-. unfold eventsOf. cbn. now rewrite app_nil_r.
  - destruct (negb (batch_success batch)).
    { injection H as <- <-. unfold eventsOf. cbn. now rewrite app_nil_r. }
    destruct (batch_rows batch) as [rows|].
    2:{ injection H as <- <-. unfold eventsOf. cbn. now rewrite app_nil_r. }
    destruct (scanRows P pk sid (a, s) rows) as [[a1 s1]|] eqn:E; [|discriminate].
    simpl in H. pose proof (scanRows_inv _ _ _ _ _ _ _ Ha E) as H1.
    rewrite eventsOf_app, app_assoc. destruct (batch_hasMore batch).
    + now apply (IH a1 s1).
    + injection H as <- <-. unfold eventsOf at 2. cbn. now rewrite app_nil_r.
Qed.

Lemma fullScan_inv (S : Store.t) (sessionIds : list jsstring) (a a' : Acc)
  (l : list (jsstring * Row)) :
  R a l ->
  fullScan P S pk a sessionIds = Some a' ->
  R a' (l ++ scannedEvents S sessionIds).
Proof.
  revert a l. induction sessionIds as [|sid ids IH]; intros a l Ha H;
    cbn [fullScan] in H.
  - injection H as <-. unfold scannedEvents. cbn. now rewrite app_nil_r.
  - destruct (scanSession P S pk a sid) as [a1|] eqn:E; [|discriminate].
    simpl in H. unfold scannedEvents. cbn [flat_map].
    fold (scannedEvents S ids). rewrite app_assoc. apply (IH a1); [|exact H].
    unfold scanSession in E.
    destruct (openMessageCursorLite S sid 1000) as [cursor|].
    + destruct (scanCursor P pk sid (a, streak0) cursor) as [[a2 s2]|] eqn:E2;
        [|discriminate].
      simpl in E. injection E as <-. apply longest_step.
      now apply (scanCursor_inv sid cursor a a2 streak0 s2).
    + injection E as <-. now rewrite app_nil_r.
Qed.

End ScanInvariant.

Section ScanCounts.
Context (P : Platform).

Import Store Annual Spec Spec2.

Lemma cell_heatmap0 (w h : Z) : cell heatmap0 w h = 0.
Proof.
  unfold cell, heatmap0.
  destruct (nth_in_or_default (Z.to_nat w) (repeat (repeat 0 24%nat) 7%nat) [])
    as [Hin | ->].
  - apply repeat_spec in Hin. rewrite Hin.
    destruct (nth_in_or_default (Z.to_nat h) (repeat 0 24%nat) 0) as [Hin' | ->];
      [now apply repeat_spec in Hin' | reflexivity].
  - now destruct (Z.to_nat h).
Qed.

(** X5.  After a full scan, each cell of the heat map holds the number of
    processed rows with a time stamp that fall on its week day (Monday
    first) and its hour. *)
Theorem heatmap_cell_counts_rows (S : Store.t) (pk : jsstring)
  (sessionIds : list jsstring) (a : Acc) (w h : Z) :
  fullScan P S pk acc0 sessionIds = Some a ->
  0 <= w -> 0 <= h ->
  cell (heatmapData a) w h = countIf (inCell P w h) (scannedEvents S sessionIds).
Proof.
  intros Hscan Hw Hh.
  pose (R := fun (a : Acc) (l : list (jsstring * Row)) =>
               gridShape (heatmapData a) /\
               forall w h, 0 <= w -> 0 <= h ->
                           cell (heatmapData a) w h = countIf (inCell P w h) l).
  assert (R a ([] ++ scannedEvents S sessionIds)) as [_ Hcells].
  { apply (fullScan_inv P pk R) with (a := acc0); [| |split|exact Hscan].
    - intros sid row t ms a0 a2 s l [Hshape Hcount] Ht Hnz Hph Hms.
    unfold R.
      apply phraseObserve_fields in Hph as (Hheat & _).
      cbn [calendarObserve fst heatmapData]. rewrite Hheat.
      change (heatmapData (convObserve sid t (isSentOf row) a0)) with (heatmapData a0).
      split; [now apply gridShape_heatmapIncr|].
      intros w0 h0 Hw0 Hh0. rewrite countIf_app.
      rewrite cell_heatmapIncr;
        [| assumption | apply weekdayIndex_range | apply getHours_range
         | assumption | assumption].
      rewrite Hcount by assumption. unfold inCell. cbn [snd].
      now rewrite (msOf_row row t ms Ht Hms).
    - intros a0 b l H0. exact H0.
    - apply gridShape_heatmap0.
    - intros w0 h0 _ _. apply cell_heatmap0. }
  now apply Hcells.
Qed.

(** X6.  After a full scan, the midnight count of a session is the number
    of its processed rows with a time stamp that fall before six o'clock,
    and a session is in the map only with a count of at least one. *)
Theorem midnight_counts_night_rows (S : Store.t) (pk : jsstring)
  (sessionIds : list jsstring) (a : Acc) :
  fullScan P S pk acc0 sessionIds = Some a ->
  (forall sid,
      countOf (midnightStats a) sid
      = countIf (atNight P sid) (scannedEvents S sessionIds)) /\
  Forall (fun e => 1 <= snd e) (midnightStats a).
Proof.
  intros Hscan.
  pose (R := fun (a : Acc) (l : list (jsstring * Row)) =>
               (forall sid, countOf (midnightStats a) sid = countIf (atNight P sid) l) /\
               Forall (fun e => 1 <= snd e) (midnightStats a)).
  apply (fullScan_inv P pk R) with (a := acc0) (l := []); [| |split|exact Hscan].
  - intros sid row t ms a0 a2 s l [Hcount Hpos] Ht Hnz Hph Hms.
    unfold R.
    apply phraseObserve_fields in Hph as (_ & Hmid & _).
    change (midnightStats (convObserve sid t (isSentOf row) a0))
      with (midnightStats a0) in Hmid.
    cbn [calendarObserve fst midnightStats]. rewrite Hmid.
    pose proof (getHours_range P ms) as Hrange.
    replace (0 <=? Date.getHours P ms) with true by (symmetry; apply Z.leb_le; lia).
    cbn [andb]. split.
    + intros sid'. rewrite countIf_app. unfold atNight at 2. cbn [fst snd].
      rewrite (msOf_row row t ms Ht Hms).
      destruct (Date.getHours P ms <? 6).
      * rewrite countOf_countUp, Hcount. now rewrite andb_true_r.
      * rewrite Hcount, andb_false_r. lia.
    + destruct (Date.getHours P ms <? 6); [now apply countUp_positive | exact Hpos].
  - intros a0 b l H0. exact H0.
  - intros sid. reflexivity.
  - constructor.
Qed.

Lemma ymdKey_not_empty (ms : Z) : Date.ymdKey P ms <> [].
Proof.
  unfold Date.ymdKey. intros H. apply app_eq_nil in H as [_ H]. discriminate.
Qed.

(** The per-contact counts change for a row of the peak day only. *)
Lemma calendarObserve_daily (pk sid : jsstring) (ms : Z) (a : Acc) (s : Streak) :
  dailyContactStats (fst (calendarObserve P pk sid ms a s))
  = if Js.eqb (Date.ymdKey P ms) pk then
      JsMap.set
        (if JsMap.has (dailyContactStats a) pk then dailyContactStats a
         else JsMap.set (dailyContactStats a) pk [])
        pk
        (countUp
           (match JsMap.get
                    (if JsMap.has (dailyContactStats a) pk then dailyContactStats a
                     else JsMap.set (dailyContactStats a) pk []) pk with
            | Some m => m
            | None => []
            end) sid)
    else dailyContactStats a.
Proof.
  cbn [calendarObserve fst dailyContactStats].
  destruct (Js.eqb (Date.ymdKey P ms) pk) eqn:Hday.
  - apply eqb_eq in Hday. rewrite <- Hday.
    destruct (Date.ymdKey P ms) eqn:Hkey; [now destruct (ymdKey_not_empty ms)|].
    reflexivity.
  - now destruct pk.
Qed.

(** X7.  After a full scan, the per-contact counts of a day are kept for
    the peak day alone, for no day at all when there is no peak day, and
    the count of a contact on that day is the number of the processed
    rows of its session with a time stamp that fall on that day. *)
Theorem daily_counts_peak_day_rows (S : Store.t) (pk : jsstring)
  (sessionIds : list jsstring) (a : Acc) :
  fullScan P S pk acc0 sessionIds = Some a ->
  (forall day, JsMap.has (dailyContactStats a) day = true -> day = pk) /\
  (pk = [] -> dailyContactStats a = []) /\
  (forall sid,
      countOf (dayMapOf a pk) sid
      = countIf (onDay P pk sid) (scannedEvents S sessionIds)).
Proof.
  intros Hscan.
  pose (R := fun (a : Acc) (l : list (jsstring * Row)) =>
               (forall day, JsMap.has (dailyContactStats a) day = true -> day = pk) /\
               (pk = [] -> dailyContactStats a = []) /\
               (forall sid, countOf (dayMapOf a pk) sid = countIf (onDay P pk sid) l)).
  apply (fullScan_inv P pk R) with (a := acc0) (l := []);
    [| |split; [|split]|exact Hscan].
  - intros sid row t ms a0 a2 s l (Hkeys & Hnone & Hcount) Ht Hnz Hph Hms.
    unfold R.
    apply phraseObserve_fields in Hph as (_ & _ & _ & _ & _ & Hdaily & _).
    change (dailyContactStats (convObserve sid t (isSentOf row) a0))
      with (dailyContactStats a0) in Hdaily.
    unfold dayMapOf in *. rewrite calendarObserve_daily, Hdaily.
    assert (forall sid', countIf (onDay P pk sid') (l ++ [(sid, row)])
                         = countIf (onDay P pk sid') l
                           + (if Js.eqb sid sid' && Js.eqb (Date.ymdKey P ms) pk
                              then 1 else 0)) as Happ.
    { intros sid'. rewrite countIf_app. unfold onDay at 2. cbn [fst snd].
      now rewrite (msOf_row row t ms Ht Hms). }
    destruct (Js.eqb (Date.ymdKey P ms) pk) eqn:Hday.
    + split; [|split].
      * intros day Hhas. apply has_set in Hhas as [-> | Hhas]; [reflexivity|].
        destruct (JsMap.has (dailyContactStats a0) pk) eqn:Hpresent;
          [now apply Hkeys|].
        apply has_set in Hhas as [-> | Hhas]; [reflexivity | now apply Hkeys].
      * intros Hpk. apply eqb_eq in Hday. rewrite Hpk in Hday.
        now destruct (ymdKey_not_empty ms).
      * intros sid'. rewrite get_set_same, get_ensure, Happ.
        rewrite andb_true_r, countOf_countUp. now rewrite <- Hcount.
    + split; [exact Hkeys|]. split; [exact Hnone|].
      intros sid'. rewrite Happ, andb_false_r. rewrite Hcount. lia.
  - intros a0 b l H0. exact H0.
  - intros day Hhas. discriminate Hhas.
  - reflexivity.
  - intros sid. reflexivity.
Qed.

(** X8.  After a full scan, the count of a phrase is the number of
    processed rows with a time stamp that are text messages sent by the
    user whose trimmed text is that phrase and passes the filter; every
    phrase of the map passes the filter and has a count of at least
    one. *)
Theorem phrase_counts_sent_text_rows (S : Store.t) (pk : jsstring)
  (sessionIds : list jsstring) (a : Acc) :
  fullScan P S pk acc0 sessionIds = Some a ->
  (forall text,
      countOf (phraseCount a) text
      = countIf (saysPhrase P text) (scannedEvents S sessionIds)) /\
  Forall (fun e => phraseEligible 20 (fst e) = true /\ 1 <= snd e) (phraseCount a).
Proof.
  intros Hscan.
  pose (R := fun (a : Acc) (l : list (jsstring * Row)) =>
               (forall text, countOf (phraseCount a) text = countIf (saysPhrase P text) l) /\
               Forall (fun e => phraseEligible 20 (fst e) = true /\ 1 <= snd e)
                 (phraseCount a)).
  apply (fullScan_inv P pk R) with (a := acc0) (l := []); [| |split|exact Hscan].
  - intros sid row t ms a0 a2 s l [Hcount Hkeys] Ht Hnz Hph Hms.
    unfold R.
    cbn [calendarObserve fst phraseCount].
    assert (forall text, countIf (saysPhrase P text) (l ++ [(sid, row)])
                         = countIf (saysPhrase P text) l
                           + (match phraseOf P row with
                              | Some p => if Js.eqb p text then 1 else 0
                              | None => 0
                              end)) as Happ.
    { intros text. rewrite countIf_app. unfold saysPhrase at 2. cbn [snd].
      now destruct (phraseOf P row). }
    unfold phraseObserve in Hph. unfold phraseOf in Happ.
    destruct (isTextType (localTypeOf row) && isSentOf row).
    + destruct (Decoder.decodeMessageContent P (message_content row)
                  (compress_content row)) as [content|]; [|discriminate].
      cbn [bind] in Hph.
      destruct (phraseEligible 20 (Js.trim content)) eqn:Hel;
        injection Hph as <-; cbn [phraseCount];
        change (phraseCount (convObserve sid t (isSentOf row) a0))
          with (phraseCount a0).
      * split.
        -- intros text. now rewrite countOf_countUp, Happ, Hcount.
        -- unfold countUp. apply Forall_set; [exact Hkeys|]. cbn [fst snd].
           split; [exact Hel|].
           destruct (JsMap.get (phraseCount a0) (Js.trim content)) as [n|] eqn:E;
             [|lia].
           apply get_In in E. rewrite Forall_forall in Hkeys.
           destruct (Hkeys _ E) as [_ Hn]. cbn [snd] in Hn. lia.
      * split; [|exact Hkeys]. intros text. rewrite Happ, Hcount. lia.
    + injection Hph as <-.
      change (phraseCount (convObserve sid t (isSentOf row) a0)) with (phraseCount a0).
      split; [|exact Hkeys]. intros text. rewrite Happ, Hcount. lia.
  - intros a0 b l H0. exact H0.
  - intros text. reflexivity.
  - constructor.
Qed.

End ScanCounts.

Section ConversationCounts.
Context (P : Platform).

Import Store Annual Spec Spec2.

(** A row starts a conversation or gives at most one response sample,
    and the first row of a session always starts a conversation. *)
Lemma convObserve_sums (sid : jsstring) (t : Z) (sent : bool) (a : Acc) :
  conversationsOf a <= conversationsOf (convObserve sid t sent a) /\
  conversationsOf (convObserve sid t sent a) + samplesCount (convObserve sid t sent a)
  <= conversationsOf a + samplesCount a + 1 /\
  (JsMap.get (lastMessageTime a) sid = None ->
   conversationsOf (convObserve sid t sent a) = conversationsOf a + 1).
Proof.
  unfold conversationsOf, samplesCount, convObserve.
  cbn [conversationStarts responseTimeStats].
  set (f := fun c : ConvStats => initiated c + received c).
  set (g := fun l : list Z => Z.of_nat (List.length l)).
  assert (forall x : ConvStats,
             fold_right Z.add 0
               (map f (JsMap.values
                         (JsMap.set
                            (if JsMap.has (conversationStarts a) sid
                             then conversationStarts a
                             else JsMap.set (conversationStarts a) sid
                                    {| initiated := 0; received := 0 |})
                            sid
                            (if sent
                             then {| initiated := initiated x + 1; received := received x |}
                             else {| initiated := initiated x; received := received x + 1 |}))))
             = fold_right Z.add 0 (map f (JsMap.values (conversationStarts a)))
               - f (match JsMap.get (conversationStarts a) sid with
                    | Some c => c
                    | None => {| initiated := 0; received := 0 |}
                    end)
               + f x + 1) as Hstarted.
  { intros x. rewrite sum_values_set, get_ensure, sum_values_ensure by reflexivity.
    unfold f. destruct sent; cbn [initiated received]; lia. }
  assert (fold_right Z.add 0
            (map f (JsMap.values
                      (if JsMap.has (conversationStarts a) sid
                       then conversationStarts a
                       else JsMap.set (conversationStarts a) sid
                              {| initiated := 0; received := 0 |})))
          = fold_right Z.add 0 (map f (JsMap.values (conversationStarts a)))) as Hsame
      by (now apply sum_values_ensure).
  assert (forall r : Z,
             fold_right Z.add 0
               (map g (JsMap.values
                         (JsMap.set
                            (if JsMap.has (responseTimeStats a) sid
                             then responseTimeStats a
                             else JsMap.set (responseTimeStats a) sid [])
                            sid
                            (match JsMap.get
                                     (if JsMap.has (responseTimeStats a) sid
                                      then responseTimeStats a
                                      else JsMap.set (responseTimeStats a) sid []) sid with
                             | Some l => l
                             | None => []
                             end ++ [r]))))
             = fold_right Z.add 0 (map g (JsMap.values (responseTimeStats a))) + 1)
    as Hpushed.
  { intros r. rewrite sum_values_set, get_ensure, sum_values_ensure by reflexivity.
    unfold g. rewrite length_app. cbn [List.length]. lia. }
  rewrite get_ensure.
  destruct (JsMap.get (lastMessageTime a) sid) as [lastMsg|]; cbn [fst snd].
  - destruct (CONVERSATION_GAP <? t - time lastMsg); cbn [fst snd].
    + rewrite Hstarted. split; [lia|]. split; [lia | discriminate].
    + destruct (negb (Bool.eqb (isSent lastMsg) sent)); cbn [fst snd].
      * destruct (sent && negb (isSent lastMsg)); cbn [fst snd].
        -- destruct ((0 <? t - time lastMsg) && (t - time lastMsg <? 86400));
             cbn [fst snd].
           ++ rewrite Hsame, Hpushed. split; [lia|]. split; [lia | discriminate].
           ++ rewrite Hsame. split; [lia|]. split; [lia | discriminate].
        -- rewrite Hsame. split; [lia|]. split; [lia | discriminate].
      * rewrite Hsame. split; [lia|]. split; [lia | discriminate].
  - rewrite Hstarted. split; [lia|]. split; [lia|]. intros _. lia.
Qed.

Lemma sumZ_fold_right (l : list Z) : sumZ l = fold_right Z.add 0 l.
Proof.
  unfold sumZ.
  assert (forall z, fold_left Z.add l z = z + fold_right Z.add 0 l) as Hgen.
  { induction l as [|x l IH]; intros z; cbn [fold_left fold_right]; [lia|].
    rewrite IH. lia. }
  now rewrite Hgen.
Qed.

Lemma starts_total (a : Acc) :
  sumZ (map initiated (JsMap.values (conversationStarts a)))
  + sumZ (map received (JsMap.values (conversationStarts a)))
  = conversationsOf a.
Proof.
  rewrite !sumZ_fold_right. unfold conversationsOf.
  induction (JsMap.values (conversationStarts a)) as [|c l IH]; cbn [map fold_right];
    lia.
Qed.

(** X9.  After a full scan, the conversation starts and the response
    samples of all sessions together are at most the processed rows with
    a time stamp; one such row is enough for a conversation start, and
    the report has its [socialInitiative] exactly when there is one. *)
Theorem conversations_within_scanned_rows (S : Store.t) (pk : jsstring)
  (sessionIds : list jsstring) (a : Acc) (reportYear : Z) (d : BaseStats) :
  fullScan P S pk acc0 sessionIds = Some a ->
  conversationsOf a + samplesCount a <= timed (scannedRows S sessionIds) /\
  (0 < timed (scannedRows S sessionIds) -> 1 <= conversationsOf a) /\
  (timed (scannedRows S sessionIds) = 0 -> conversationStarts a = []) /\
  (socialInitiative (assembleReport P S reportYear d (scanned a)) = None
   <-> timed (scannedRows S sessionIds) = 0).
Proof.
  intros Hscan.
  pose (R := fun (a : Acc) (l : list (jsstring * Row)) =>
               conversationsOf a + samplesCount a <= Z.of_nat (List.length l) /\
               (l = [] -> conversationStarts a = [] /\ lastMessageTime a = []) /\
               (l <> [] -> 1 <= conversationsOf a)).
  assert (R a ([] ++ scannedEvents S sessionIds)) as (Hle & Hnil & Hcons).
  { apply (fullScan_inv P pk R) with (a := acc0); [| | |exact Hscan].
    - intros sid row t ms a0 a2 s l (Hle & Hnil & Hcons) Ht Hnz Hph Hms.
      unfold R.
      apply phraseObserve_fields in Hph as (_ & _ & Hst & Hrt & Hlm & _).
      unfold conversationsOf, samplesCount.
      cbn [calendarObserve fst conversationStarts responseTimeStats lastMessageTime].
      rewrite Hst, Hrt, Hlm.
      fold (conversationsOf (convObserve sid t (isSentOf row) a0)).
      fold (samplesCount (convObserve sid t (isSentOf row) a0)).
      destruct (convObserve_sums sid t (isSentOf row) a0) as (Hmono & Hstep & Hfirst).
      rewrite length_app, Nat2Z.inj_add. cbn [List.length]. split; [lia|]. split.
      + intros Habs. now destruct l.
      + intros _. destruct l as [|e l].
        * destruct (Hnil eq_refl) as [Hcs Hlast].
          rewrite Hfirst by (now rewrite Hlast).
          unfold conversationsOf. rewrite Hcs. cbn. lia.
        * assert (1 <= conversationsOf a0) by (apply Hcons; discriminate). lia.
    - intros a0 b l H0. exact H0.
    - unfold R. split; [cbn; lia|]. split; [now split | intros H; now destruct H]. }
  cbn [app] in *. rewrite <- scannedEvents_length.
  assert (timed_zero :
            Z.of_nat (List.length (scannedEvents S sessionIds)) = 0 ->
            scannedEvents S sessionIds = []).
  { destruct (scannedEvents S sessionIds); [reflexivity | cbn [List.length]; lia]. }
  assert (timed_pos :
            0 < Z.of_nat (List.length (scannedEvents S sessionIds)) ->
            scannedEvents S sessionIds <> []).
  { intros Hpos Hnone. rewrite Hnone in Hpos. cbn in Hpos. lia. }
  split; [exact Hle|]. split; [intros Hpos; now apply Hcons, timed_pos|].
  split; [intros Hz; now apply Hnil, timed_zero|].
  unfold assembleReport. cbn [socialInitiative acc scanned].
  rewrite starts_total. split.
  - intros Hnone. destruct (Z.ltb_spec 0 (conversationsOf a)); [discriminate|].
    destruct (scannedEvents S sessionIds) as [|e l]; [reflexivity|].
    assert (1 <= conversationsOf a) by (apply Hcons; discriminate). lia.
  - intros Hz. apply timed_zero in Hz. destruct (Hnil Hz) as [Hcs _].
    unfold conversationsOf. rewrite Hcs. reflexivity.
Qed.

End ConversationCounts.

(** ** Batches *)

Section BatchFacts.
Context (P : Platform).

Import Store Annual Spec.

Lemma scanRows_app (pk sid : jsstring) (rows1 rows2 : list Row) (st : Acc * Streak) :
  scanRows P pk sid st (rows1 ++ rows2)
  = (st' <- scanRows P pk sid st rows1 ;; scanRows P pk sid st' rows2).
Proof.
  revert st. induction rows1 as [|row rows1 IH]; intros st; [reflexivity|].
  cbn [app scanRows]. destruct (scanRow P pk sid st row) as [st1|]; [|reflexivity].
  cbn [bind]. apply IH.
Qed.

Lemma dual_scanRows_app (rows1 rows2 : list Row) (st : Dual.Stats) :
  Dual.scanRows P st (rows1 ++ rows2)
  = (st' <- Dual.scanRows P st rows1 ;; Dual.scanRows P st' rows2).
Proof.
  revert st. induction rows1 as [|row rows1 IH]; intros st; [reflexivity|].
  cbn [app Dual.scanRows]. destruct (Dual.scanRow P st row) as [st1|]; [|reflexivity].
  cbn [bind]. apply IH.
Qed.

Lemma scanCursor_rows (pk sid : jsstring) (cursor : Cursor) (st : Acc * Streak) :
  scanCursor P pk sid st cursor = scanRows P pk sid st (delivered cursor).
Proof.
  revert st. induction cursor as [|batch cursor IH]; intros st;
    cbn [scanCursor delivered]; [reflexivity|].
  destruct (negb (batch_success batch)); [reflexivity|].
  destruct (batch_rows batch) as [rows|]; [|reflexivity].
  rewrite scanRows_app.
  destruct (scanRows P pk sid st rows) as [st1|]; [|reflexivity]. cbn [bind].
  destruct (batch_hasMore batch); [apply IH | reflexivity].
Qed.

Lemma dual_scanCursor_rows (cursor : Cursor) (dst : Dual.Stats) :
  Dual.scanCursor P dst cursor = Dual.scanRows P dst (delivered cursor).
Proof.
  revert dst. induction cursor as [|batch cursor IH]; intros dst;
    cbn [Dual.scanCursor delivered]; [reflexivity|].
  destruct (negb (batch_success batch)); [reflexivity|].
  destruct (batch_rows batch) as [rows|]; [|reflexivity].
  rewrite dual_scanRows_app.
  destruct (Dual.scanRows P dst rows) as [st1|]; [|reflexivity]. cbn [bind].
  destruct (batch_hasMore batch); [apply IH | reflexivity].
Qed.

(** X10.  The outcome of a scan does not depend on how the store cuts the
    rows into batches: the scan of a cursor is the scan of the rows that
    the cursor delivers up to its first failed fetch or its last batch,
    in the annual report and in the dual report alike. *)
Theorem scan_ignores_batch_boundaries (pk sid : jsstring) (cursor : Cursor)
  (st : Acc * Streak) (dst : Dual.Stats) :
  scanCursor P pk sid st cursor = scanRows P pk sid st (delivered cursor) /\
  Dual.scanCursor P dst cursor = Dual.scanRows P dst (delivered cursor).
Proof.
  split; [apply scanCursor_rows | apply dual_scanCursor_rows].
Qed.

End BatchFacts.

(** ** The assembled report *)

Section MaxFacts.

(** The loop that keeps the entry with the largest count: its result is
    the start value when no count is larger, and otherwise the first
    entry with the largest count. *)
Lemma fold_max_spec (l : list (jsstring * Z)) (b0 : jsstring * Z) :
  let r := fold_left (fun best e => if snd best <? snd e then e else best) l b0 in
  snd b0 <= snd r /\
  (forall e, In e l -> snd e <= snd r) /\
  (r = b0 /\ (forall e, In e l -> snd e <= snd b0)
   \/ snd b0 < snd r /\
      exists l1 l2, l = l1 ++ r :: l2 /\ forall e, In e l1 -> snd e < snd r).
Proof.
  revert b0. induction l as [|x l IH]; intros b0; cbn [fold_left].
  - split; [lia|]. split; [intros e []|]. left. split; [reflexivity | intros e []].
  - destruct (Z.ltb_spec (snd b0) (snd x)) as [Hlt | Hge].
    + destruct (IH x) as (Hmono & Hall & Hcase). cbv zeta in *.
      set (r := fold_left _ l x) in *.
      split; [lia|]. split.
      * intros e [<- | He]; [exact Hmono | now apply Hall].
      * right. split; [lia|]. destruct Hcase as [[Hr _] | (Hgt & l1 & l2 & Hl & Hbefore)].
        -- exists [], l. rewrite Hr. split; [reflexivity | intros e []].
        -- exists (x :: l1), l2. split; [now rewrite Hl|].
           intros e [<- | He]; [exact Hgt | now apply Hbefore].
    + destruct (IH b0) as (Hmono & Hall & Hcase). cbv zeta in *.
      set (r := fold_left _ l b0) in *.
      split; [exact Hmono|]. split.
      * intros e [<- | He]; [lia | now apply Hall].
      * destruct Hcase as [[Hr Hle] | (Hgt & l1 & l2 & Hl & Hbefore)].
        -- left. split; [exact Hr|]. intros e [<- | He]; [exact Hge | now apply Hle].
        -- right. split; [exact Hgt|]. exists (x :: l1), l2. split; [now rewrite Hl|].
           intros e [<- | He]; [lia | now apply Hbefore].
Qed.


End MaxFacts.

Section ReportFacts.
Context (P : Platform) (S : Store.t).

Import Store Annual Spec Spec2.

Lemma topFriend_count (cs : JsMap.t SessionStat) (m : JsMap.t Z) (t q : jsstring * Z) :
  snd t = snd q ->
  snd (fold_left
         (fun t c =>
            if snd t <? snd c then (displayNameOf S cs (fst c), snd c) else t) m t)
  = snd (fold_left (fun best e => if snd best <? snd e then e else best) m q).
Proof.
  revert t q. induction m as [|c m IH]; intros t q Htq; cbn [fold_left]; [exact Htq|].
  rewrite Htq. destruct (snd q <? snd c); now apply IH.
Qed.

(** The loop of [peakDay] follows the one that locked the peak day before
    the scan. *)
Lemma assemblePeakDay_peak (cs : JsMap.t SessionStat) (l : list (jsstring * Z))
  (g : Gathered) :
  0 <= snd (peakOf l) /\
  match assemblePeakDay S cs l g with
  | None => snd (peakOf l) = 0
  | Some b =>
      date b = fst (peakOf l) /\ messageCount b = snd (peakOf l) /\
      0 < messageCount b /\
      topFriendCount b = snd (maxEntry (dayMapOf (acc g) (date b)))
  end.
Proof.
  induction l as [|x l IH] using rev_ind.
  - cbn. split; [lia | reflexivity].
  - unfold assemblePeakDay, peakOf in *. rewrite !fold_left_app. cbn [fold_left].
    destruct IH as [Hpos IH].
    destruct (fold_left _ l None) as [b|].
    + destruct IH as (Hdate & Hcount & Hb & Htop). rewrite <- Hcount.
      destruct (Z.ltb_spec (messageCount b) (snd x)).
      * cbn [date messageCount topFriendCount]. split; [lia|].
        split; [reflexivity|]. split; [reflexivity|]. split; [lia|].
        unfold dayMapOf, maxEntry.
        destruct (JsMap.get (dailyContactStats (acc g)) (fst x)) as [m|]; [|reflexivity].
        now apply topFriend_count.
      * split; [lia|]. split; [exact Hdate|]. split; [exact Hcount|].
        split; [exact Hb | exact Htop].
    + rewrite IH. destruct (Z.ltb_spec 0 (snd x)).
      * cbn [date messageCount topFriendCount]. split; [lia|].
        split; [reflexivity|]. split; [reflexivity|]. split; [lia|].
        unfold dayMapOf, maxEntry.
        destruct (JsMap.get (dailyContactStats (acc g)) (fst x)) as [m|]; [|reflexivity].
        now apply topFriend_count.
      * split; [lia | exact IH].
Qed.

(** X11.  The peak day of the report is the day that was locked before
    the scan, the first day with the largest count of the base
    statistics; there is none when no day has a positive count; and its
    [topFriendCount] is the largest per-contact count kept for that
    day. *)
Theorem peak_day_is_busiest_day (reportYear : Z) (d : BaseStats) (g : Gathered) :
  NoDup (map fst (bs_daily d)) ->
  (forall e, In e (bs_daily d) -> snd e <= snd (peakOf (bs_daily d))) /\
  match peakDay (assembleReport P S reportYear d g) with
  | None => forall e, In e (bs_daily d) -> snd e <= 0
  | Some pd =>
      date pd = fst (peakOf (bs_daily d)) /\
      messageCount pd = snd (peakOf (bs_daily d)) /\
      0 < messageCount pd /\
      (exists before after,
          bs_daily d = before ++ (date pd, messageCount pd) :: after /\
          forall e, In e before -> snd e < messageCount pd) /\
      topFriendCount pd = snd (maxEntry (dayMapOf (acc g) (fst (peakOf (bs_daily d)))))
  end.
Proof.
  intros Hnd.
  destruct (fold_max_spec (bs_daily d) ([], 0)) as (Hmono & Hall & Hcase).
  cbv zeta in *. fold (peakOf (bs_daily d)) in *.
  split; [exact Hall|].
  unfold assembleReport. cbn [peakDay].
  rewrite (setAll_distinct (fun c : Z => c) (bs_daily d) [])
    by (assumption || reflexivity).
  cbn [app].
  replace (map (fun e : jsstring * Z => (fst e, snd e)) (bs_daily d)) with (bs_daily d).
  2:{ rewrite <- (map_id (bs_daily d)) at 1. apply map_ext. now intros [k v]. }
  destruct (assemblePeakDay_peak (setAll (fun s => s) (bs_sessions d) []) (bs_daily d) g)
    as [_ Hpeak].
  destruct (assemblePeakDay S _ (bs_daily d) g) as [pd|].
  - destruct Hpeak as (Hdate & Hcount & Hpos & Htop).
    split; [exact Hdate|]. split; [exact Hcount|]. split; [exact Hpos|].
    split; [|now rewrite <- Hdate].
    destruct Hcase as [[Hr _] | (Hgt & l1 & l2 & Hl & Hbefore)].
    + rewrite Hr in Hcount. cbn [snd] in Hcount. lia.
    + exists l1, l2. rewrite Hdate, Hcount. split; [|exact Hbefore].
      rewrite Hl at 1. now destruct (peakOf (bs_daily d)).
  - intros e He. rewrite <- Hpeak. now apply Hall.
Qed.


Lemma gridShape_extrasHeatmap (heatmap : option (list (option (list Z)))) :
  gridShape (extrasHeatmap heatmap).
Proof.
  unfold extrasHeatmap. destruct heatmap as [rows|]; [|apply gridShape_heatmap0].
  destruct (Nat.eqb_spec (List.length rows) 7) as [Hlen|]; [|apply gridShape_heatmap0].
  split; [now rewrite length_map|]. apply Forall_forall. intros row Hin.
  apply in_map_iff in Hin as (cells & <- & _).
  destruct cells; [now rewrite length_map, length_seq | apply repeat_length].
Qed.

Lemma gather_gridShape (sessionIds : list jsstring) (pk : jsstring) (g : Gathered) :
  gather P S sessionIds pk = Some g -> gridShape (heatmapData (acc g)).
Proof.
  unfold gather.
  set (g0 := if extrasSuccess S then _ else _).
  assert (gridShape (heatmapData (acc g0))) as Hg0.
  { subst g0. destruct (extrasSuccess S); [|apply gridShape_heatmap0].
    destruct (extrasData S); [apply gridShape_extrasHeatmap | apply gridShape_heatmap0]. }
  assert (forall g1,
             (if negb (useSqlExtras g0) then
                a <- fullScan P S pk (acc g0) sessionIds ;;
                Some {| acc := a;
                        responseStatsFromSql := responseStatsFromSql g0;
                        topPhrasesFromSql := topPhrasesFromSql g0;
                        useSqlExtras := useSqlExtras g0;
                        streakComputedInLoop := true |}
              else Some g0) = Some g1 ->
             gridShape (heatmapData (acc g1))) as Hg1.
  { intros g1. destruct (negb (useSqlExtras g0)).
    - destruct (fullScan P S pk (acc g0) sessionIds) as [a|] eqn:Hscan; [|discriminate].
      cbn [bind]. intros H. injection H as <-. cbn [acc].
      destruct (fullScan_fold P (fun a => gridShape (heatmapData a)) (fun _ => 0) 0)
        with (S := S) (pk := pk) (sessionIds := sessionIds) (a := acc g0) (a' := a)
        as [Hshape _]; try assumption.
      + intros. now split.
      + intros lt sent row a0 a1 Ha0 Hph.
        apply phraseObserve_fields in Hph as (-> & _). now split.
      + intros pk0 sid ms a0 s Ha0. cbn [calendarObserve fst heatmapData].
        split; [now apply gridShape_heatmapIncr | reflexivity].
      + intros. now split.
    - intros H. now injection H as <-. }
  destruct (if negb (useSqlExtras g0) then _ else _) as [g1|]; [|discriminate].
  specialize (Hg1 g1 eq_refl). cbn [bind].
  destruct (negb (streakComputedInLoop g1)); [|intros H; now injection H as <-].
  destruct (_ <? _); intros H; injection H as <-; exact Hg1.
Qed.

(** X13.  Every report that is produced has a heat map of seven rows of
    twenty-four cells, on the path of the full scan and, whatever the
    payload of the store holds, on the path of the extras. *)
Theorem report_heatmap_is_7_by_24 (params : Params) (data : AnnualReportData) :
  generateReportWithConfig P S params = Success data ->
  gridShape (activityHeatmap data).
Proof.
  intros Hgen.
  destruct (generate_assembles P S params data Hgen)
    as (cleaned & raw & d & g & _ & _ & _ & _ & Hgather & ->).
  unfold assembleReport. cbn [activityHeatmap].
  now apply (gather_gridShape _ _ g Hgather).
Qed.

End ReportFacts.

(** ** Ranking among equal counts *)

Section TieFacts.

Import Store Annual Spec.

Lemma insertDesc_ties (c : Z) (e : jsstring * Z) (l : list (jsstring * Z)) :
  filter (fun x => snd x =? c) (insertDesc e l)
  = filter (fun x => snd x =? c) (e :: l).
Proof.
  induction l as [|x l IH]; [reflexivity|]. cbn [insertDesc].
  destruct (Z.ltb_spec (snd e) (snd x)) as [Hlt|]; [|reflexivity].
  cbn [filter] in *. rewrite IH.
  destruct (Z.eqb_spec (snd e) c) as [He|]; [|reflexivity].
  destruct (Z.eqb_spec (snd x) c); [lia | reflexivity].
Qed.

Lemma sortDesc_ties (c : Z) (l : list (jsstring * Z)) :
  filter (fun x => snd x =? c) (sortDesc l) = filter (fun x => snd x =? c) l.
Proof.
  induction l as [|e l IH]; [reflexivity|]. cbn [sortDesc fold_right].
  fold (sortDesc l). rewrite insertDesc_ties. cbn [filter]. now rewrite IH.
Qed.

(** X14.  The ranking is stable: the phrases with one and the same count
    come in the order in which the map holds them, the order in which
    they were first counted, and the cut after the first [n] entries
    keeps a front part of them. *)
Theorem ranking_keeps_order_of_ties (n : nat) (m : JsMap.t Z) (c : Z) :
  filter (fun x => snd x =? c) (sortDesc m) = filter (fun x => snd x =? c) m /\
  (2 <= c ->
   exists rest,
     filter (fun x => snd x =? c) m
     = filter (fun x => snd x =? c) (rankPhrases n m) ++ rest).
Proof.
  split; [apply sortDesc_ties|]. intros Hc. unfold rankPhrases.
  exists (filter (fun x => snd x =? c)
            (skipn n (sortDesc (filter (fun e => 2 <=? snd e) m)))).
  rewrite <- filter_app, firstn_skipn, sortDesc_ties.
  induction m as [|x m IH]; [reflexivity|]. cbn [filter].
  destruct (Z.eqb_spec (snd x) c) as [Hx|Hx].
  - replace (2 <=? snd x) with true by (symmetry; apply Z.leb_le; lia).
    cbn [filter]. replace (snd x =? c) with true by (symmetry; now apply Z.eqb_eq).
    now rewrite IH.
  - destruct (2 <=? snd x); [|exact IH]. cbn [filter].
    replace (snd x =? c) with false by (symmetry; now apply Z.eqb_neq). exact IH.
Qed.

End TieFacts.

Lemma ranking_keeps_order_of_ties_witness :
  Annual.rankPhrases 2
    [(Js.of_ascii "no", 2); (Js.of_ascii "ok", 3); (Js.of_ascii "hi", 2);
     (Js.of_ascii "yo", 2)]
  = [(Js.of_ascii "ok", 3); (Js.of_ascii "no", 2)] /\
  exists rest,
    [(Js.of_ascii "no", 2); (Js.of_ascii "hi", 2); (Js.of_ascii "yo", 2)]
    = [(Js.of_ascii "no", 2)] ++ rest.
Proof.
  split; [reflexivity|].
  exact (proj2 (ranking_keeps_order_of_ties 2
                  [(Js.of_ascii "no", 2); (Js.of_ascii "ok", 3); (Js.of_ascii "hi", 2);
                   (Js.of_ascii "yo", 2)] 2) ltac:(lia)).
Defined.

(** ** Dual report *)

Section DualFacts.
Context (P : Platform).

Import Store Annual Spec Spec2.

Lemma dual_scanRow_spec (st : Dual.Stats) (row : Row) :
  exists st',
    Dual.scanRow P st row = Some st' /\
    Dual.totalMessages st' = Dual.totalMessages st + 1 /\
    Dual.imageCount st' = Dual.imageCount st + ofType 3 [row] /\
    Dual.voiceCount st' = Dual.voiceCount st + ofType 34 [row] /\
    Dual.emojiCount st' = Dual.emojiCount st + ofType 47 [row] /\
    Dual.totalWords st <= Dual.totalWords st' /\
    (Forall (fun e => phraseEligible 50 (fst e) = true /\ 1 <= snd e)
       (Dual.wordCountMap st) ->
     Forall (fun e => phraseEligible 50 (fst e) = true /\ 1 <= snd e)
       (Dual.wordCountMap st')).
Proof.
  unfold Dual.scanRow, ofType. cbn [filter].
  destruct (isTextType (localTypeOf row)).
  - destruct (decodeMessageContent_returns P (message_content row) (compress_content row))
      as [content ->].
    cbn [bind]. destruct (Js.trim content) as [|c text] eqn:Htrim.
    + eexists. split; [reflexivity|].
      cbn [Dual.totalMessages Dual.imageCount Dual.voiceCount Dual.emojiCount
             Dual.totalWords Dual.wordCountMap].
      destruct (localTypeOf row) as [n|];
        [destruct (n =? 3), (n =? 34), (n =? 47)|]; cbn [List.length];
        repeat split; auto; lia.
    + eexists. split; [reflexivity|].
      cbn [Dual.totalMessages Dual.imageCount Dual.voiceCount Dual.emojiCount
             Dual.totalWords Dual.wordCountMap].
      assert (0 <= Js.len (Dual.removeSpaces (c :: text))) as Hlen
          by (unfold Js.len; lia).
      assert (Forall (fun e => phraseEligible 50 (fst e) = true /\ 1 <= snd e)
                (Dual.wordCountMap st) ->
              Forall (fun e => phraseEligible 50 (fst e) = true /\ 1 <= snd e)
                (if phraseEligible 50 (Dual.normalize (c :: text))
                 then countUp (Dual.wordCountMap st) (Dual.normalize (c :: text))
                 else Dual.wordCountMap st)) as Hwords.
      { intros Hkeys.
        destruct (phraseEligible 50 (Dual.normalize (c :: text))) eqn:Hel; [|exact Hkeys].
        unfold countUp. apply Forall_set; [exact Hkeys|]. cbn [fst snd].
        split; [exact Hel|].
        destruct (JsMap.get (Dual.wordCountMap st) (Dual.normalize (c :: text)))
          as [n|] eqn:E; [|lia].
        apply get_In in E. rewrite Forall_forall in Hkeys.
        destruct (Hkeys _ E) as [_ Hn]. cbn [snd] in Hn. lia. }
      destruct (localTypeOf row) as [n|];
        [destruct (n =? 3), (n =? 34), (n =? 47)|]; cbn [List.length];
        repeat split; auto; lia.
  - eexists. split; [reflexivity|].
    cbn [Dual.totalMessages Dual.imageCount Dual.voiceCount Dual.emojiCount
           Dual.totalWords Dual.wordCountMap].
    destruct (localTypeOf row) as [n|];
      [destruct (n =? 3), (n =? 34), (n =? 47)|]; cbn [List.length];
      repeat split; auto; lia.
Qed.

Lemma ofType_cons (n : Z) (row : Row) (rows : list Row) :
  ofType n (row :: rows) = ofType n [row] + ofType n rows.
Proof.
  unfold ofType. cbn [filter].
  destruct (match localTypeOf row with Some t => t =? n | None => false end);
    cbn [List.length]; lia.
Qed.

Lemma ofType_disjoint (rows : list Row) :
  ofType 3 rows + ofType 34 rows + ofType 47 rows <= Z.of_nat (List.length rows).
Proof.
  induction rows as [|row rows IH]; [cbn; lia|].
  rewrite (ofType_cons 3), (ofType_cons 34), (ofType_cons 47).
  cbn [List.length]. rewrite Nat2Z.inj_succ.
  assert (ofType 3 [row] + ofType 34 [row] + ofType 47 [row] <= 1); [|lia].
  unfold ofType. cbn [filter]. destruct (localTypeOf row) as [n|]; [|cbn; lia].
  destruct (Z.eqb_spec n 3), (Z.eqb_spec n 34), (Z.eqb_spec n 47); cbn; lia.
Qed.

Lemma dual_scanRows_spec (rows : list Row) (st : Dual.Stats) :
  exists st',
    Dual.scanRows P st rows = Some st' /\
    Dual.totalMessages st' = Dual.totalMessages st + Z.of_nat (List.length rows) /\
    Dual.imageCount st' = Dual.imageCount st + ofType 3 rows /\
    Dual.voiceCount st' = Dual.voiceCount st + ofType 34 rows /\
    Dual.emojiCount st' = Dual.emojiCount st + ofType 47 rows /\
    Dual.totalWords st <= Dual.totalWords st' /\
    (Forall (fun e => phraseEligible 50 (fst e) = true /\ 1 <= snd e)
       (Dual.wordCountMap st) ->
     Forall (fun e => phraseEligible 50 (fst e) = true /\ 1 <= snd e)
       (Dual.wordCountMap st')).
Proof.
  revert st. induction rows as [|row rows IH]; intros st.
  - exists st. cbn. repeat split; auto; lia.
  - destruct (dual_scanRow_spec st row) as (st1 & E1 & T1 & I1 & V1 & M1 & W1 & K1).
    destruct (IH st1) as (st2 & E2 & T2 & I2 & V2 & M2 & W2 & K2).
    exists st2. cbn [Dual.scanRows]. rewrite E1. cbn [bind].
    rewrite (ofType_cons 3), (ofType_cons 34), (ofType_cons 47).
    cbn [List.length]. rewrite Nat2Z.inj_succ.
    repeat split; auto; lia.
Qed.

(** X15.  The scan of the dual report never raises.  It counts every
    delivered row, with or without a time stamp, as a message, the rows
    of type 3, 34 and 47 as images, voice messages and stickers, which
    together are at most the messages; the number of words is not
    negative; and every phrase of its map passes the filter for up to 50
    code units and has a count of at least one. *)
Theorem dual_scan_counts_rows (cursor : Cursor) :
  exists st,
    Dual.scanCursor P Dual.stats0 cursor = Some st /\
    Dual.totalMessages st = Z.of_nat (List.length (delivered cursor)) /\
    Dual.imageCount st = ofType 3 (delivered cursor) /\
    Dual.voiceCount st = ofType 34 (delivered cursor) /\
    Dual.emojiCount st = ofType 47 (delivered cursor) /\
    Dual.imageCount st + Dual.voiceCount st + Dual.emojiCount st
    <= Dual.totalMessages st /\
    0 <= Dual.totalWords st /\
    Forall (fun e => phraseEligible 50 (fst e) = true /\ 1 <= snd e)
      (Dual.wordCountMap st).
Proof.
  destruct (dual_scanRows_spec (delivered cursor) Dual.stats0)
    as (st & E & T & I & V & M & W & K).
  exists st. rewrite dual_scanCursor_rows. split; [exact E|].
  cbn [Dual.stats0 Dual.totalMessages Dual.imageCount Dual.voiceCount
         Dual.emojiCount Dual.totalWords Dual.wordCountMap] in *.
  pose proof (ofType_disjoint (delivered cursor)).
  repeat split; try lia. apply K. constructor.
Qed.

End DualFacts.

Section FirstMessages.

Import Store Spec.

Lemma firstn_app_short {A : Type} (n : nat) (l1 l2 : list A) :
  (n <= List.length l1)%nat -> firstn n (l1 ++ l2) = firstn n l1.
Proof.
  intros Hn. rewrite firstn_app.
  replace (n - List.length l1)%nat with 0%nat by lia.
  cbn [firstn]. apply app_nil_r.
Qed.

Lemma pushUntil_spec (limit : Z) (batchRows rows : list Row) :
  firstn (Z.to_nat limit) (DualChat.pushUntil limit rows batchRows)
  = firstn (Z.to_nat limit) (rows ++ batchRows) /\
  ((List.length (DualChat.pushUntil limit rows batchRows) < Z.to_nat limit)%nat ->
   DualChat.pushUntil limit rows batchRows = rows ++ batchRows).
Proof.
  revert rows. induction batchRows as [|row rest IH]; intros rows;
    cbn [DualChat.pushUntil].
  - rewrite app_nil_r. auto.
  - replace (rows ++ row :: rest) with ((rows ++ [row]) ++ rest)
      by (now rewrite <- app_assoc).
    destruct (Z.leb_spec limit (Z.of_nat (List.length (rows ++ [row])))) as [Hfull|Hmore].
    + split; [|intros Hlt; lia].
      rewrite (firstn_app_short _ (rows ++ [row]) rest) by lia. reflexivity.
    + apply IH.
Qed.

Lemma collectFirst_spec (limit : Z) (cursor : Cursor) (rows : list Row) :
  firstn (Z.to_nat limit) (DualChat.collectFirst limit rows cursor)
  = firstn (Z.to_nat limit) (rows ++ delivered cursor).
Proof.
  revert rows. induction cursor as [|batch cursor IH]; intros rows.
  - cbn [DualChat.collectFirst delivered]. rewrite app_nil_r.
    now destruct (_ <? _).
  - cbn [DualChat.collectFirst delivered].
    destruct (Z.ltb_spec (Z.of_nat (List.length rows)) limit) as [Hroom|Hfull].
    2:{ rewrite firstn_app_short by lia. reflexivity. }
    destruct (negb (batch_success batch)); [now rewrite app_nil_r|].
    destruct (batch_rows batch) as [batchRows|]; [|now rewrite app_nil_r].
    destruct (pushUntil_spec limit batchRows rows) as [Hfirst Hall].
    destruct (batch_hasMore batch).
    + rewrite IH. rewrite app_assoc.
      destruct (Nat.lt_ge_cases
                  (List.length (DualChat.pushUntil limit rows batchRows))
                  (Z.to_nat limit)) as [Hshort|Hlong].
      * now rewrite (Hall Hshort).
      * rewrite firstn_app_short by exact Hlong. rewrite Hfirst.
        symmetry. apply firstn_app_short.
        apply (f_equal (@List.length Row)) in Hfirst.
        rewrite !length_firstn in Hfirst. lia.
    + now rewrite app_nil_r.
Qed.

(** X16.  [getFirstMessages] returns the first [limit] rows that the
    cursor delivers, all of them when there are fewer, and nothing when
    the cursor does not open or [limit] is not positive. *)
Theorem first_messages_are_first_rows (cursor : Cursor) (limit : Z) :
  DualChat.getFirstMessages (Some cursor) limit
  = firstn (Z.to_nat limit) (delivered cursor) /\
  Z.of_nat (List.length (DualChat.getFirstMessages (Some cursor) limit))
  = Z.min (Z.max 0 limit) (Z.of_nat (List.length (delivered cursor))) /\
  DualChat.getFirstMessages None limit = [].
Proof.
  assert (DualChat.getFirstMessages (Some cursor) limit
          = firstn (Z.to_nat limit) (delivered cursor)) as Heq.
  { unfold DualChat.getFirstMessages. now rewrite collectFirst_spec. }
  split; [exact Heq|]. split; [|reflexivity].
  rewrite Heq, length_firstn. lia.
Qed.

(** The loop of [pickTop] against the loop that keeps the best entry. *)
Lemma pickTop_fold (m : JsMap.t Z) :
  -1 <= snd (fold_left (fun best e => if snd best <? snd e then e else best) m ([], -1)) /\
  match DualChat.pickTop m with
  | None =>
      snd (fold_left (fun best e => if snd best <? snd e then e else best) m ([], -1)) = -1
  | Some k =>
      k = fst (fold_left (fun best e => if snd best <? snd e then e else best) m ([], -1)) /\
      -1 < snd (fold_left (fun best e => if snd best <? snd e then e else best) m ([], -1))
  end.
Proof.
  unfold DualChat.pickTop.
  assert (snd (fold_left
                 (fun (best : option jsstring * Z) e =>
                    if snd best <? snd e then (Some (fst e), snd e) else best)
                 m (None, -1))
          = snd (fold_left (fun best e => if snd best <? snd e then e else best) m ([], -1))
          /\ -1 <= snd (fold_left (fun best e => if snd best <? snd e then e else best)
                          m ([], -1))
          /\ match fst (fold_left
                          (fun (best : option jsstring * Z) e =>
                             if snd best <? snd e then (Some (fst e), snd e) else best)
                          m (None, -1)) with
             | None =>
                 snd (fold_left (fun best e => if snd best <? snd e then e else best)
                        m ([], -1)) = -1
             | Some k =>
                 k = fst (fold_left (fun best e => if snd best <? snd e then e else best)
                            m ([], -1)) /\
                 -1 < snd (fold_left (fun best e => if snd best <? snd e then e else best)
                             m ([], -1))
             end) as (_ & Hlow & Hcase).
  { induction m as [|x m IH] using rev_ind; [cbn; repeat split; lia|].
    rewrite !fold_left_app. cbn [fold_left].
    destruct IH as (Hsnd & Hlow & Hcase). rewrite Hsnd.
    destruct (Z.ltb_spec
                (snd (fold_left (fun best e => if snd best <? snd e then e else best)
                        m ([], -1))) (snd x)).
    - cbn [fst snd]. repeat split; lia.
    - split; [exact Hsnd|]. split; [exact Hlow | exact Hcase]. }
  split; [exact Hlow | exact Hcase].
Qed.

(** X17.  [pickTop] returns the first key with the largest count, and
    nothing only when the map holds no count above -1, as for an empty
    map. *)
Theorem pickTop_is_first_maximum (m : JsMap.t Z) :
  match DualChat.pickTop m with
  | None => forall e, In e m -> snd e <= -1
  | Some k =>
      exists c before after,
        m = before ++ (k, c) :: after /\
        -1 < c /\
        (forall e, In e before -> snd e < c) /\
        (forall e, In e m -> snd e <= c)
  end.
Proof.
  destruct (pickTop_fold m) as [_ Hfold].
  destruct (fold_max_spec m ([], -1)) as (_ & Hall & Hcase). cbv zeta in *.
  remember (fold_left (fun best e : jsstring * Z => if snd best <? snd e then e else best)
              m ([], -1)) as r eqn:Hr0.
  clear Hr0.
  destruct (DualChat.pickTop m) as [k|].
  - destruct Hfold as [Hk Hpos].
    destruct Hcase as [[Hr _] | (_ & l1 & l2 & Hl & Hbefore)].
    + rewrite Hr in Hpos. cbn [snd] in Hpos. lia.
    + exists (snd r), l1, l2.
      split; [|split; [exact Hpos | split; [exact Hbefore | exact Hall]]].
      rewrite Hk, Hl. now destruct r.
  - intros e He. rewrite <- Hfold. now apply Hall.
Qed.

End FirstMessages.

(** ** Rankings of the contacts *)

Section FriendFacts.
Context (S : Store.t).

Import Store Annual Spec.

Lemma sorted_app_parts {A : Type} (R : A -> A -> Prop) (l1 l2 : list A) :
  StronglySorted R (l1 ++ l2) ->
  StronglySorted R l1 /\ forall x y, In x l1 -> In y l2 -> R x y.
Proof.
  induction l1 as [|a l1 IH]; cbn [app]; intros H.
  - split; [constructor | intros x y []].
  - inversion H as [|? ? Hrest Ha]; subst. destruct (IH Hrest) as [Hs Hle].
    rewrite Forall_forall in Ha. split.
    + constructor; [exact Hs|]. apply Forall_forall. intros y Hy.
      apply Ha, in_or_app. now left.
    + intros x y [<- | Hx] Hy; [|now apply Hle].
      apply Ha, in_or_app. now right.
Qed.

Lemma insertByCount_perm (c : Friends.TopContact) (l : list Friends.TopContact) :
  Permutation (Friends.insertByCount c l) (c :: l).
Proof.
  induction l as [|x l IH]; cbn [Friends.insertByCount]; [reflexivity|].
  destruct (_ <? _); [|reflexivity].
  rewrite IH. apply perm_swap.
Qed.

Lemma sortByCount_perm (l : list Friends.TopContact) :
  Permutation (Friends.sortByCount l) l.
Proof.
  induction l as [|c l IH]; [reflexivity|]. cbn [Friends.sortByCount fold_right].
  fold (Friends.sortByCount l). rewrite insertByCount_perm. now constructor.
Qed.

Lemma insertByCount_sorted (c : Friends.TopContact) (l : list Friends.TopContact) :
  StronglySorted (fun x y => Friends.messageCount y <= Friends.messageCount x) l ->
  StronglySorted (fun x y => Friends.messageCount y <= Friends.messageCount x)
    (Friends.insertByCount c l).
Proof.
  induction l as [|x l IH]; intros Hl; cbn [Friends.insertByCount].
  - repeat constructor.
  - inversion Hl as [|? ? Hl' Hx]; subst.
    destruct (Z.ltb_spec (Friends.messageCount c) (Friends.messageCount x)).
    + constructor; [now apply IH|].
      apply Forall_forall. intros y Hy.
      apply (Permutation_in _ (insertByCount_perm c l)) in Hy as [<- | Hy]; [lia|].
      rewrite Forall_forall in Hx. now apply Hx.
    + constructor; [exact Hl|]. constructor; [lia|].
      apply Forall_forall. intros y Hy. rewrite Forall_forall in Hx.
      specialize (Hx y Hy). cbn beta in Hx. lia.
Qed.

Lemma sortByCount_sorted (l : list Friends.TopContact) :
  StronglySorted (fun x y => Friends.messageCount y <= Friends.messageCount x)
    (Friends.sortByCount l).
Proof.
  induction l as [|c l IH]; [constructor|]. cbn [Friends.sortByCount fold_right].
  fold (Friends.sortByCount l). now apply insertByCount_sorted.
Qed.

Lemma infoName_displayNameOf (cs : JsMap.t SessionStat) (id : jsstring) :
  Js.or_else (Friends.infoName S cs id) id = displayNameOf S cs id.
Proof.
  unfold Friends.infoName, displayNameOf.
  destruct (JsMap.has cs id); [|reflexivity].
  now destruct (getDisplayNames S).
Qed.

(** X18.  The core friends are the three contacts with the most messages
    of the base statistics, fewer when there are fewer contacts, from the
    largest to the smallest number of messages, sent and received added
    up; every contact left out has at most as many messages as each one
    listed. *)
Theorem core_friends_are_top_three (d : BaseStats) :
  NoDup (map fst (bs_sessions d)) ->
  List.length (Friends.coreFriends S d) = Nat.min 3 (List.length (bs_sessions d)) /\
  StronglySorted (fun x y => Friends.messageCount y <= Friends.messageCount x)
    (Friends.coreFriends S d) /\
  (forall c,
      In c (Friends.coreFriends S d) ->
      exists stat,
        In (Friends.username c, stat) (bs_sessions d) /\
        Friends.sentCount c = ss_sent stat /\
        Friends.receivedCount c = ss_received stat /\
        Friends.messageCount c = ss_sent stat + ss_received stat /\
        Friends.displayName c
        = displayNameOf S (setAll (fun s => s) (bs_sessions d) []) (Friends.username c)) /\
  (forall e,
      In e (bs_sessions d) ->
      (exists c, In c (Friends.coreFriends S d) /\ Friends.username c = fst e) \/
      (forall c, In c (Friends.coreFriends S d) ->
                 ss_sent (snd e) + ss_received (snd e) <= Friends.messageCount c)).
Proof.
  intros Hnd. unfold Friends.coreFriends.
  rewrite (setAll_distinct (fun s : SessionStat => s) (bs_sessions d) [])
    by (assumption || reflexivity).
  cbn [app].
  replace (map (fun e : jsstring * SessionStat => (fst e, snd e)) (bs_sessions d))
    with (bs_sessions d).
  2:{ rewrite <- (map_id (bs_sessions d)) at 1. apply map_ext. now intros [k v]. }
  set (mk := fun e : jsstring * SessionStat =>
               {| Friends.username := fst e;
                  Friends.displayName :=
                    Js.or_else (Friends.infoName S (bs_sessions d) (fst e)) (fst e);
                  Friends.messageCount := ss_sent (snd e) + ss_received (snd e);
                  Friends.sentCount := ss_sent (snd e);
                  Friends.receivedCount := ss_received (snd e) |}).
  pose proof (sortByCount_perm (map mk (bs_sessions d))) as Hperm.
  pose proof (sortByCount_sorted (map mk (bs_sessions d))) as Hsorted.
  rewrite <- (firstn_skipn 3 (Friends.sortByCount (map mk (bs_sessions d)))) in Hsorted.
  destruct (sorted_app_parts _ _ _ Hsorted) as [Hfirst Hle].
  split; [|split; [exact Hfirst | split]].
  - rewrite length_firstn, (Permutation_length Hperm). now rewrite length_map.
  - intros c Hc.
    assert (In c (map mk (bs_sessions d))) as Hin.
    { apply (Permutation_in _ Hperm).
      rewrite <- (firstn_skipn 3 (Friends.sortByCount _)). apply in_or_app. now left. }
    apply in_map_iff in Hin as ([k stat] & <- & He). exists stat.
    cbn [mk Friends.username Friends.sentCount Friends.receivedCount
           Friends.messageCount Friends.displayName fst snd].
    repeat split; try reflexivity; [exact He|]. apply infoName_displayNameOf.
  - intros e He.
    assert (In (mk e) (Friends.sortByCount (map mk (bs_sessions d)))) as Hin.
    { apply (Permutation_in _ (Permutation_sym Hperm)). now apply in_map. }
    rewrite <- (firstn_skipn 3 (Friends.sortByCount _)) in Hin.
    apply in_app_or in Hin as [Hin | Hin].
    + left. exists (mk e). split; [exact Hin | reflexivity].
    + right. intros c Hc. exact (Hle c (mk e) Hc Hin).
Qed.

Lemma monthTop_map (monthlyStats : JsMap.t (list (option Z * Z))) (m : Z)
  (b : jsstring * Z) :
  fold_left
    (fun best e =>
       let count := orZero (Friends.monthGet (snd e) (Some m)) in
       if snd best <? count then (fst e, count) else best)
    monthlyStats b
  = fold_left (fun best e => if snd best <? snd e then e else best)
      (map (fun e => (fst e, orZero (Friends.monthGet (snd e) (Some m)))) monthlyStats)
      b.
Proof.
  revert b. induction monthlyStats as [|x l IH]; intros b; [reflexivity|].
  cbn [fold_left map]. cbv zeta. cbn [snd]. apply IH.
Qed.

(** X19.  The monthly ranking has one entry for each month from 1 to 12,
    in that order.  The count of a month is 0 or the largest count that a
    session has for it; with a positive count the entry is the one of the
    first session that has that count, and with the count 0 the name is
    '暂无', unless the empty string is a contact. *)
Theorem monthly_top_friends_cover_the_year (d : BaseStats)
  (monthly : list (jsstring * list (jsstring * Z))) :
  map Friends.month (Friends.monthlyTopFriends S d monthly)
  = [1; 2; 3; 4; 5; 6; 7; 8; 9; 10; 11; 12] /\
  forall entry,
    In entry (Friends.monthlyTopFriends S d monthly) ->
    0 <= Friends.monthCount entry /\
    (forall e,
        In e (setAll Friends.monthlyOf monthly []) ->
        orZero (Friends.monthGet (snd e) (Some (Friends.month entry)))
        <= Friends.monthCount entry) /\
    (Friends.monthCount entry = 0 ->
     JsMap.has (setAll (fun s => s) (bs_sessions d) []) [] = false ->
     Friends.monthName entry = Friends.noneYet) /\
    (0 < Friends.monthCount entry ->
     exists before e after,
       setAll Friends.monthlyOf monthly [] = before ++ e :: after /\
       orZero (Friends.monthGet (snd e) (Some (Friends.month entry)))
       = Friends.monthCount entry /\
       (forall x, In x before ->
                  orZero (Friends.monthGet (snd x) (Some (Friends.month entry)))
                  < Friends.monthCount entry) /\
       Friends.monthName entry
       = Js.or_else
           (Friends.infoName S (setAll (fun s => s) (bs_sessions d) []) (fst e))
           (match fst e with [] => Friends.noneYet | _ => fst e end)).
Proof.
  split; [reflexivity|]. intros entry Hin. unfold Friends.monthlyTopFriends in Hin.
  apply in_map_iff in Hin as (m & <- & _).
  cbn [Friends.month Friends.monthName Friends.monthCount].
  unfold Friends.monthTop. rewrite monthTop_map.
  set (ms := setAll Friends.monthlyOf monthly []).
  set (cs := setAll (fun s => s) (bs_sessions d) []).
  destruct (fold_max_spec
              (map (fun e => (fst e, orZero (Friends.monthGet (snd e) (Some m)))) ms)
              ([], 0)) as (Hmono & Hall & Hcase).
  cbv zeta in *.
  remember (fold_left (fun best e : jsstring * Z => if snd best <? snd e then e else best)
              (map (fun e => (fst e, orZero (Friends.monthGet (snd e) (Some m)))) ms)
              ([], 0)) as r eqn:Hr0.
  clear Hr0. cbn [snd] in Hmono.
  split; [exact Hmono|]. split; [|split].
  - intros e He.
    apply (Hall (fst e, orZero (Friends.monthGet (snd e) (Some m)))).
    apply in_map_iff. now exists e.
  - intros Hzero Hnot. destruct Hcase as [[-> _] | [Hgt _]]; [|cbn [snd] in Hgt; lia].
    cbn [fst]. unfold Friends.infoName. now rewrite Hnot.
  - intros Hpos. destruct Hcase as [[-> _] | (_ & l1 & l2 & Hl & Hbefore)];
      [cbn [snd] in Hpos; lia|].
    apply map_eq_app in Hl as (before & rest & Hms & Hb & Hrest).
    apply map_eq_cons in Hrest as (e & after & -> & He & _).
    exists before, e, after. split; [exact Hms|]. rewrite <- He. cbn [fst snd].
    split; [reflexivity|]. split; [|reflexivity].
    intros x Hx. rewrite <- He in Hbefore. cbn [snd] in Hbefore.
    apply (Hbefore (fst x, orZero (Friends.monthGet (snd x) (Some m)))).
    rewrite <- Hb. apply in_map_iff. now exists x.
Qed.

End FriendFacts.

Section MonthFacts.

Lemma numKeyEqb_eq (a b : option Z) : Friends.numKeyEqb a b = true <-> a = b.
Proof.
  destruct a as [x|], b as [y|]; cbn; split; try easy.
  - intros H. apply Z.eqb_eq in H. now subst.
  - intros H. injection H as ->. apply Z.eqb_refl.
Qed.

Lemma monthGet_monthSet (m : list (option Z * Z)) (k k' : option Z) (v : Z) :
  Friends.monthGet (Friends.monthSet m k v) k'
  = if Friends.numKeyEqb k k' then Some v else Friends.monthGet m k'.
Proof.
  induction m as [|[k0 v0] m IH]; cbn [Friends.monthSet Friends.monthGet].
  - reflexivity.
  - destruct (Friends.numKeyEqb k0 k) eqn:E0; cbn [Friends.monthGet].
    + apply numKeyEqb_eq in E0. subst k0.
      now destruct (Friends.numKeyEqb k k').
    + rewrite IH. destruct (Friends.numKeyEqb k0 k') eqn:E1; [|reflexivity].
      apply numKeyEqb_eq in E1. subst k0.
      destruct (Friends.numKeyEqb k k') eqn:E2; [|reflexivity].
      apply numKeyEqb_eq in E2. subst k'.
      assert (Friends.numKeyEqb k k = true) as Hrefl by (now apply numKeyEqb_eq).
      congruence.
Qed.

Lemma find_last {A : Type} (p : A -> bool) (l : list A) (x : A) :
  find p (l ++ [x])
  = match find p l with
    | Some y => Some y
    | None => if p x then Some x else None
    end.
Proof.
  induction l as [|y l IH]; cbn [app find]; [reflexivity|].
  now destruct (p y).
Qed.

(** X20.  The months of a session are read with [parseInt]: the count of
    a month is the one of the last entry whose key parses to that month,
    so that the keys "1" and "01" are the same month, and a month
    without such an entry has no count. *)
Theorem month_counts_last_entry_wins (entries : list (jsstring * Z)) (k : option Z) :
  Friends.monthGet (Friends.monthlyOf entries) k
  = option_map snd
      (find (fun e => Friends.numKeyEqb (Js.parseInt10 (fst e)) k) (rev entries)).
Proof.
  unfold Friends.monthlyOf.
  assert (forall m,
             Friends.monthGet
               (fold_left
                  (fun m e => Friends.monthSet m (Js.parseInt10 (fst e)) (snd e))
                  entries m) k
             = match find (fun e => Friends.numKeyEqb (Js.parseInt10 (fst e)) k)
                       (rev entries) with
               | Some e => Some (snd e)
               | None => Friends.monthGet m k
               end) as Hgen.
  { induction entries as [|x l IH]; intros m; [reflexivity|].
    cbn [fold_left rev]. rewrite IH, find_last, monthGet_monthSet.
    destruct (find _ (rev l)); [reflexivity|].
    now destruct (Friends.numKeyEqb (Js.parseInt10 (fst x)) k). }
  rewrite Hgen. now destruct (find _ (rev entries)).
Qed.

End MonthFacts.

(** ** The properties on sample data *)

Lemma heatmap_cell_counts_rows_witness :
  exists a,
    Annual.fullScan Node.cst Sample.hourStore [] Annual.acc0 [Sample.alice] = Some a /\
    Spec.cell (Annual.heatmapData a) 6 12 = 1 /\
    Spec2.countIf (Spec2.inCell Node.cst 6 12)
      (Spec2.scannedEvents Sample.hourStore [Sample.alice]) = 1.
Proof.
  destruct (Annual.fullScan Node.cst Sample.hourStore [] Annual.acc0 [Sample.alice])
    as [a|] eqn:E; [|vm_compute in E; discriminate E].
  exists a. split; [reflexivity|].
  assert (Spec2.countIf (Spec2.inCell Node.cst 6 12)
            (Spec2.scannedEvents Sample.hourStore [Sample.alice]) = 1) as Hcount
      by (vm_compute; reflexivity).
  split; [|exact Hcount]. rewrite <- Hcount.
  apply (heatmap_cell_counts_rows Node.cst Sample.hourStore [] [Sample.alice] a 6 12 E);
    lia.
Defined.

Lemma midnight_counts_night_rows_witness :
  exists a,
    Annual.fullScan Node.cst Sample.hourStore [] Annual.acc0 [Sample.alice] = Some a /\
    Spec2.countOf (Annual.midnightStats a) Sample.alice = 0.
Proof.
  destruct (Annual.fullScan Node.cst Sample.hourStore [] Annual.acc0 [Sample.alice])
    as [a|] eqn:E; [|vm_compute in E; discriminate E].
  exists a. split; [reflexivity|].
  destruct (midnight_counts_night_rows Node.cst Sample.hourStore [] [Sample.alice] a E)
    as [Hcount _].
  rewrite Hcount. vm_compute. reflexivity.
Defined.

Lemma daily_counts_peak_day_rows_witness :
  exists a,
    Annual.fullScan Node.cst Sample.hourStore (Js.of_ascii "2023-01-01") Annual.acc0
      [Sample.alice] = Some a /\
    Spec2.countOf (Spec2.dayMapOf a (Js.of_ascii "2023-01-01")) Sample.alice = 2.
Proof.
  destruct (Annual.fullScan Node.cst Sample.hourStore (Js.of_ascii "2023-01-01")
              Annual.acc0 [Sample.alice])
    as [a|] eqn:E; [|vm_compute in E; discriminate E].
  exists a. split; [reflexivity|].
  destruct (daily_counts_peak_day_rows Node.cst Sample.hourStore
              (Js.of_ascii "2023-01-01") [Sample.alice] a E) as (_ & _ & Hcount).
  rewrite Hcount. vm_compute. reflexivity.
Defined.

Lemma phrase_counts_sent_text_rows_witness :
  exists a,
    Annual.fullScan Node.cst (Sample.storeOf Sample.helloRows []) [] Annual.acc0
      [Sample.alice] = Some a /\
    Spec2.countOf (Annual.phraseCount a) (Js.of_ascii "hello world") = 2.
Proof.
  destruct (Annual.fullScan Node.cst (Sample.storeOf Sample.helloRows []) []
              Annual.acc0 [Sample.alice])
    as [a|] eqn:E; [|vm_compute in E; discriminate E].
  exists a. split; [reflexivity|].
  destruct (phrase_counts_sent_text_rows Node.cst (Sample.storeOf Sample.helloRows [])
              [] [Sample.alice] a E) as [Hcount _].
  rewrite Hcount. vm_compute. reflexivity.
Defined.

Lemma conversations_within_scanned_rows_witness :
  exists a,
    Annual.fullScan Node.cst Sample.hourStore [] Annual.acc0 [Sample.alice] = Some a /\
    Spec2.conversationsOf a + Spec2.samplesCount a <= 2 /\
    1 <= Spec2.conversationsOf a.
Proof.
  destruct (Annual.fullScan Node.cst Sample.hourStore [] Annual.acc0 [Sample.alice])
    as [a|] eqn:E; [|vm_compute in E; discriminate E].
  exists a. split; [reflexivity|].
  destruct (conversations_within_scanned_rows Node.cst Sample.hourStore []
              [Sample.alice] a 2023
              {| Store.bs_total := 2; Store.bs_sessions := []; Store.bs_daily := [] |} E)
    as (Hle & Hone & _).
  change (Spec.timed (Spec.scannedRows Sample.hourStore [Sample.alice])) with 2 in *.
  split; [exact Hle | apply Hone; lia].
Defined.

Lemma peak_day_is_busiest_day_witness :
  match
    Annual.peakDay
      (Annual.assembleReport Node.cst Sample.streakStore 2023
         {| Store.bs_total := 3;
            Store.bs_sessions := [];
            Store.bs_daily :=
              [(Js.of_ascii "2023-01-01", 1); (Js.of_ascii "2023-01-02", 2);
               (Js.of_ascii "2023-01-03", 2)] |}
         Annual.notLoaded)
  with
  | Some pd =>
      Annual.date pd = Js.of_ascii "2023-01-02" /\ Annual.messageCount pd = 2
  | None => False
  end.
Proof.
  pose proof (peak_day_is_busiest_day Node.cst Sample.streakStore 2023
                {| Store.bs_total := 3;
                   Store.bs_sessions := [];
                   Store.bs_daily :=
                     [(Js.of_ascii "2023-01-01", 1); (Js.of_ascii "2023-01-02", 2);
                      (Js.of_ascii "2023-01-03", 2)] |}
                Annual.notLoaded) as Hpeak.
  destruct Hpeak as [_ Hpeak].
  - repeat constructor; cbn; intuition discriminate.
  - destruct (Annual.peakDay _) as [pd|].
    + destruct Hpeak as (Hdate & Hcount & _). split; [exact Hdate | exact Hcount].
    + pose proof (Hpeak (Js.of_ascii "2023-01-01", 1) (or_introl eq_refl)) as Hle.
      cbn [snd] in Hle. lia.
Defined.

Lemma report_heatmap_is_7_by_24_witness :
  exists data,
    Annual.generateReportWithConfig Node.cst Sample.hourStore Sample.params
    = Annual.Success data /\
    Spec.gridShape (Annual.activityHeatmap data).
Proof.
  destruct (Annual.generateReportWithConfig Node.cst Sample.hourStore Sample.params)
    as [data|f] eqn:E; [|vm_compute in E; discriminate E].
  exists data. split; [reflexivity|].
  exact (report_heatmap_is_7_by_24 Node.cst Sample.hourStore Sample.params data E).
Defined.

Lemma core_friends_are_top_three_witness :
  map Friends.username
    (Friends.coreFriends Sample.streakStore
       {| Store.bs_total := 10;
          Store.bs_sessions :=
            [(Js.of_ascii "a", {| Store.ss_sent := 1; Store.ss_received := 0 |});
             (Js.of_ascii "b", {| Store.ss_sent := 2; Store.ss_received := 2 |});
             (Js.of_ascii "c", {| Store.ss_sent := 0; Store.ss_received := 3 |});
             (Js.of_ascii "d", {| Store.ss_sent := 1; Store.ss_received := 1 |})];
          Store.bs_daily := [] |})
  = [Js.of_ascii "b"; Js.of_ascii "c"; Js.of_ascii "d"] /\
  List.length
    (Friends.coreFriends Sample.streakStore
       {| Store.bs_total := 10;
          Store.bs_sessions :=
            [(Js.of_ascii "a", {| Store.ss_sent := 1; Store.ss_received := 0 |});
             (Js.of_ascii "b", {| Store.ss_sent := 2; Store.ss_received := 2 |});
             (Js.of_ascii "c", {| Store.ss_sent := 0; Store.ss_received := 3 |});
             (Js.of_ascii "d", {| Store.ss_sent := 1; Store.ss_received := 1 |})];
          Store.bs_daily := [] |})
  = 3%nat.
Proof.
  split; [reflexivity|].
  destruct (core_friends_are_top_three Sample.streakStore
              {| Store.bs_total := 10;
                 Store.bs_sessions :=
                   [(Js.of_ascii "a", {| Store.ss_sent := 1; Store.ss_received := 0 |});
                    (Js.of_ascii "b", {| Store.ss_sent := 2; Store.ss_received := 2 |});
                    (Js.of_ascii "c", {| Store.ss_sent := 0; Store.ss_received := 3 |});
                    (Js.of_ascii "d", {| Store.ss_sent := 1; Store.ss_received := 1 |})];
                 Store.bs_daily := [] |}) as [Hlen _].
  - repeat constructor; cbn; intuition discriminate.
  - exact Hlen.
Defined.

Lemma monthly_top_friends_cover_the_year_witness :
  exists before e after,
    Annual.setAll Friends.monthlyOf
      [(Sample.alice, [(Js.of_ascii "1", 5); (Js.of_ascii "02", 7)]);
       (Js.of_ascii "bob", [(Js.of_ascii "1", 5); (Js.of_ascii "01", 6)])] []
    = before ++ e :: after /\
    Annual.orZero (Friends.monthGet (snd e) (Some 1)) = 6.
Proof.
  destruct (monthly_top_friends_cover_the_year Sample.streakStore
              {| Store.bs_total := 0;
                 Store.bs_sessions :=
                   [(Sample.alice, {| Store.ss_sent := 0; Store.ss_received := 0 |})];
                 Store.bs_daily := [] |}
              [(Sample.alice, [(Js.of_ascii "1", 5); (Js.of_ascii "02", 7)]);
               (Js.of_ascii "bob", [(Js.of_ascii "1", 5); (Js.of_ascii "01", 6)])])
    as [_ Hentries].
  destruct (Hentries {| Friends.month := 1; Friends.monthName := Js.of_ascii "bob";
                        Friends.monthCount := 6 |})
    as (_ & _ & _ & Hpos); [left; reflexivity|].
  destruct Hpos as (before & e & after & Hms & Hcount & _); [cbn; lia|].
  exists before, e, after. split; [exact Hms | exact Hcount].
Defined.

Lemma clean_account_name_is_prefix_witness :
  Annual.cleanAccountDirName Node.cst (Js.of_ascii " wxid_abc_1234 ")
  = Js.of_ascii "wxid_abc" /\
  exists rest,
    Js.trim (Js.of_ascii " wxid_abc_1234 ")
    = Annual.cleanAccountDirName Node.cst (Js.of_ascii " wxid_abc_1234 ") ++ rest.
Proof.
  split; [reflexivity|].
  destruct (clean_account_name_is_prefix Node.cst (Js.of_ascii " wxid_abc_1234 "))
    as (rest & Hrest & _).
  exists rest. exact Hrest.
Defined.


Lemma pickTop_is_first_maximum_witness :
  DualChat.pickTop [(Js.of_ascii "a", 1); (Js.of_ascii "b", 3); (Js.of_ascii "c", 3)]
  = Some (Js.of_ascii "b") /\
  exists c before after,
    [(Js.of_ascii "a", 1); (Js.of_ascii "b", 3); (Js.of_ascii "c", 3)]
    = before ++ (Js.of_ascii "b", c) :: after /\ -1 < c.
Proof.
  split; [reflexivity|].
  pose proof (pickTop_is_first_maximum
                [(Js.of_ascii "a", 1); (Js.of_ascii "b", 3); (Js.of_ascii "c", 3)])
    as Htop.
  change (DualChat.pickTop
            [(Js.of_ascii "a", 1); (Js.of_ascii "b", 3); (Js.of_ascii "c", 3)])
    with (Some (Js.of_ascii "b")) in Htop.
  destruct Htop as (c & before & after & Hm & Hc & _).
  exists c, before, after. split; [exact Hm | exact Hc].
Defined.

(** ** When the scan raises *)

Section RaiseFacts.
Context (P : Platform).

Import Store Annual Spec Spec2.

Lemma phraseObserve_returns (localType : option Z) (sent : bool) (row : Row) (a : Acc) :
  exists a', phraseObserve P localType sent row a = Some a'.
Proof.
  unfold phraseObserve. destruct (isTextType localType && sent); [|eauto].
  destruct (decodeMessageContent_returns P (message_content row) (compress_content row))
    as [content ->].
  cbn [bind]. destruct (phraseEligible 20 (Js.trim content)); eauto.
Qed.

Lemma scanRow_raises (pk sid : jsstring) (st : Acc * Streak) (row : Row) :
  scanRow P pk sid st row = None <-> invalidTime row.
Proof.
  unfold scanRow, invalidTime. destruct (createTimeOf row) as [t|].
  2:{ split; [discriminate | intros (t & Ht & _); discriminate]. }
  destruct (Z.eqb_spec t 0) as [-> | Hnz].
  { split; [discriminate | intros (t & Ht & Hd)]. injection Ht as <-. discriminate Hd. }
  destruct (phraseObserve_returns (localTypeOf row) (isSentOf row) row
              (convObserve sid t (isSentOf row) (fst st))) as [a2 ->].
  cbn [bind]. destruct (Date.ofSeconds t) as [ms|] eqn:Hd.
  - split; [discriminate | intros (t' & Ht & Hd')]. injection Ht as <-. congruence.
  - split; [eauto | reflexivity].
Qed.

Lemma scanRows_raises (pk sid : jsstring) (rows : list Row) (st : Acc * Streak) :
  scanRows P pk sid st rows = None <-> Exists invalidTime rows.
Proof.
  revert st. induction rows as [|row rows IH]; intros st; cbn [scanRows].
  - split; [discriminate | intros H; inversion H].
  - destruct (scanRow P pk sid st row) as [st1|] eqn:E; cbn [bind].
    + rewrite IH. split; [now right|]. intros H.
      inversion H as [? ? Hrow | ? ? Hrest]; subst; [|exact Hrest].
      apply (scanRow_raises pk sid st row) in Hrow. congruence.
    + split; [|reflexivity]. intros _. left. now apply (scanRow_raises pk sid st row).
Qed.

Lemma fullScan_raises (S : Store.t) (pk : jsstring) (sessionIds : list jsstring)
  (a : Acc) :
  fullScan P S pk a sessionIds = None <-> Exists invalidTime (scannedRows S sessionIds).
Proof.
  revert a. induction sessionIds as [|sid ids IH]; intros a; cbn [fullScan].
  - split; [discriminate | intros H; inversion H].
  - unfold scannedRows. cbn [flat_map]. fold (scannedRows S ids).
    rewrite Exists_app. unfold scanSession.
    destruct (openMessageCursorLite S sid 1000) as [cursor|].
    + rewrite scanCursor_rows.
      destruct (scanRows P pk sid (a, streak0) (delivered cursor)) as [st|] eqn:E;
        cbn [bind].
      * rewrite IH. split; [now right|]. intros [H | H]; [|exact H].
        apply (scanRows_raises pk sid (delivered cursor) (a, streak0)) in H. congruence.
      * split; [|reflexivity]. intros _. left.
        now apply (scanRows_raises pk sid (delivered cursor) (a, streak0)).
    + cbn [bind]. rewrite IH. split; [now right|]. intros [H | H]; [inversion H | exact H].
Qed.

(** X21.  The full scan raises exactly when one of the rows that the
    cursors deliver has a time stamp outside the range of [Date]; and
    the first half of the generation raises exactly when, in addition,
    the extras call has failed or returned no payload: with a payload no
    time stamp can make the report fail. *)
Theorem scan_raises_on_invalid_time_only (S : Store.t) (pk : jsstring)
  (sessionIds : list jsstring) :
  (forall a,
      fullScan P S pk a sessionIds = None
      <-> Exists invalidTime (scannedRows S sessionIds)) /\
  (gather P S sessionIds pk = None
   <-> (extrasSuccess S = false \/ extrasData S = None) /\
       Exists invalidTime (scannedRows S sessionIds)).
Proof.
  split; [intros a; apply fullScan_raises|].
  unfold gather.
  assert (forall g1 : Gathered,
             (if negb (streakComputedInLoop g1) then
                let streakResult := computeLongestStreak P S sessionIds in
                if bestDays (longest (acc g1)) <? bestDays streakResult
                then Some {| acc := withLongest (acc g1) streakResult;
                             responseStatsFromSql := responseStatsFromSql g1;
                             topPhrasesFromSql := topPhrasesFromSql g1;
                             useSqlExtras := useSqlExtras g1;
                             streakComputedInLoop := streakComputedInLoop g1 |}
                else Some g1
              else Some g1) <> None) as Hstreak.
  { intros g1. destruct (negb (streakComputedInLoop g1)); [|discriminate].
    cbv zeta. destruct (_ <? _); discriminate. }
  destruct (extrasSuccess S) eqn:Hok.
  - destruct (extrasData S) as [e|] eqn:Hdata.
    + cbn [loadExtras useSqlExtras negb bind]. split.
      * intros H. now apply Hstreak in H.
      * intros [[H | H] _]; discriminate.
    + cbn [notLoaded useSqlExtras negb acc].
      destruct (fullScan P S pk acc0 sessionIds) as [a|] eqn:Hscan; cbn [bind].
      * split; [intros H; now apply Hstreak in H|].
        intros [_ H]. apply (fullScan_raises S pk sessionIds acc0) in H. congruence.
      * split; [|reflexivity]. intros _. split; [now right|].
        now apply (fullScan_raises S pk sessionIds acc0).
  - cbn [notLoaded useSqlExtras negb acc].
    destruct (fullScan P S pk acc0 sessionIds) as [a|] eqn:Hscan; cbn [bind].
    + split; [intros H; now apply Hstreak in H|].
      intros [_ H]. apply (fullScan_raises S pk sessionIds acc0) in H. congruence.
    + split; [|reflexivity]. intros _. split; [now left|].
      now apply (fullScan_raises S pk sessionIds acc0).
Qed.

End RaiseFacts.

Lemma scan_raises_on_invalid_time_only_witness :
  Annual.gather Node.cst
    (Sample.storeOf [Sample.textRow "9999999999999999" "0" "late"] [])
    [Sample.alice] []
  = None.
Proof.
  destruct (scan_raises_on_invalid_time_only Node.cst
              (Sample.storeOf [Sample.textRow "9999999999999999" "0" "late"] [])
              [] [Sample.alice]) as [_ Hgather].
  apply Hgather. split; [now left|].
  apply Exists_cons_hd. exists 9999999999999999. split; reflexivity.
Defined.

(** ** Normalised phrases *)

Section NormalizeFacts.

Import Dual Spec2.

Lemma collapseSpaces_collapsed (b : bool) (text : jsstring) :
  collapsed b (collapseSpaces b text) = true.
Proof.
  revert b. induction text as [|c text IH]; intros b; [reflexivity|].
  cbn [collapseSpaces]. destruct (Js.is_space c) eqn:Hc.
  - destruct b; [apply IH|]. cbn [collapsed].
    change (Js.is_space 32) with true. cbn. apply IH.
  - cbn [collapsed]. rewrite Hc. apply IH.
Qed.

Lemma collapsed_fixed (b : bool) (text : jsstring) :
  collapsed b text = true -> collapseSpaces b text = text.
Proof.
  revert b. induction text as [|c text IH]; intros b H; [reflexivity|].
  cbn [collapsed collapseSpaces] in *. destruct (Js.is_space c).
  - apply andb_prop in H as [H Htail]. apply andb_prop in H as [Hc Hb].
    apply N.eqb_eq in Hc. subst c. destruct b; [discriminate|].
    now rewrite IH.
  - now rewrite IH.
Qed.

Lemma collapsed_weaken (b : bool) (text : jsstring) :
  collapsed b text = true -> collapsed false text = true.
Proof.
  destruct text as [|c text]; [reflexivity|]. cbn [collapsed].
  destruct (Js.is_space c); [|auto]. destruct b; [|auto].
  rewrite andb_false_r. discriminate.
Qed.

Lemma collapsed_trimStart (b : bool) (text : jsstring) :
  collapsed b text = true -> collapsed false (Js.trimStart text) = true.
Proof.
  revert b. induction text as [|c text IH]; intros b H; [reflexivity|].
  cbn [Js.trimStart]. destruct (Js.is_space c) eqn:Hc.
  - cbn [collapsed] in H. rewrite Hc in H. apply andb_prop in H as [_ Htail].
    now apply (IH true).
  - now apply (collapsed_weaken b).
Qed.

Lemma collapsed_front (b : bool) (l1 l2 : jsstring) :
  collapsed b (l1 ++ l2) = true -> collapsed b l1 = true.
Proof.
  revert b. induction l1 as [|c l1 IH]; intros b H; [reflexivity|].
  cbn [app collapsed] in *. destruct (Js.is_space c).
  - apply andb_prop in H as [H Htail]. rewrite H. now apply IH.
  - now apply IH.
Qed.

Lemma trimStart_suffix (l : jsstring) : exists sp, l = sp ++ Js.trimStart l.
Proof.
  induction l as [|c l [sp IH]]; [now exists []|]. cbn [Js.trimStart].
  destruct (Js.is_space c); [|now exists []].
  exists (c :: sp). cbn [app]. now rewrite <- IH.
Qed.

Lemma trimEnd_prefix (l : jsstring) : exists sp, l = Js.trimEnd l ++ sp.
Proof.
  unfold Js.trimEnd. destruct (trimStart_suffix (rev l)) as [sp Hsp].
  exists (rev sp). rewrite <- rev_app_distr, <- Hsp. symmetry. apply rev_involutive.
Qed.

Lemma trimStart_idem (l : jsstring) : Js.trimStart (Js.trimStart l) = Js.trimStart l.
Proof.
  induction l as [|c l IH]; [reflexivity|]. cbn [Js.trimStart].
  destruct (Js.is_space c) eqn:Hc; [exact IH|]. cbn [Js.trimStart]. now rewrite Hc.
Qed.

Lemma trimStart_head (l : jsstring) :
  match Js.trimStart l with
  | [] => True
  | c :: _ => Js.is_space c = false
  end.
Proof.
  induction l as [|c l IH]; [exact I|]. cbn [Js.trimStart].
  destruct (Js.is_space c) eqn:Hc; [exact IH | exact Hc].
Qed.

Lemma trim_idem (s : jsstring) : Js.trim (Js.trim s) = Js.trim s.
Proof.
  unfold Js.trim.
  assert (Js.trimStart (Js.trimEnd (Js.trimStart s)) = Js.trimEnd (Js.trimStart s))
    as Hstart.
  { pose proof (trimStart_head s) as Hhead.
    destruct (trimEnd_prefix (Js.trimStart s)) as [sp Hsp].
    destruct (Js.trimEnd (Js.trimStart s)) as [|c r]; [reflexivity|].
    rewrite Hsp in Hhead. cbn [app] in Hhead. cbn [Js.trimStart]. now rewrite Hhead. }
  rewrite Hstart. unfold Js.trimEnd. now rewrite rev_involutive, trimStart_idem.
Qed.

(** X22.  The key under which the dual report counts a phrase is
    normalised: white space occurs in it as single spaces U+0020 only and
    not at either end, and normalising it again changes nothing. *)
Theorem normalize_is_idempotent (text : jsstring) :
  collapsed false (normalize text) = true /\
  Js.trim (normalize text) = normalize text /\
  normalize (normalize text) = normalize text.
Proof.
  assert (collapsed false (normalize text) = true) as Hc.
  { unfold normalize, Js.trim.
    pose proof (collapsed_trimStart false _ (collapseSpaces_collapsed false text)) as H.
    destruct (trimEnd_prefix (Js.trimStart (collapseSpaces false text))) as [sp Hsp].
    rewrite Hsp in H. now apply collapsed_front in H. }
  assert (Js.trim (normalize text) = normalize text) as Ht
      by (unfold normalize; apply trim_idem).
  split; [exact Hc|]. split; [exact Ht|].
  unfold normalize at 1. now rewrite (collapsed_fixed false _ Hc).
Qed.

End NormalizeFacts.

(** ** Response samples stay inside a conversation *)

Section ResponseFacts.
Context (P : Platform).

Import Store Annual Spec.

Lemma samples_within_gap_conv (sid : jsstring) (t : Z) (sent : bool) (a : Acc) :
  (forall l, In l (JsMap.values (responseTimeStats a)) ->
             Forall (fun x => 0 < x <= CONVERSATION_GAP) l) ->
  forall l, In l (JsMap.values (responseTimeStats (convObserve sid t sent a))) ->
            Forall (fun x => 0 < x <= CONVERSATION_GAP) l.
Proof.
  intros Hinv l. unfold convObserve. cbn [responseTimeStats].
  destruct (JsMap.get (lastMessageTime a) sid) as [lastMsg|]; [|apply Hinv].
  destruct (Z.ltb_spec CONVERSATION_GAP (t - time lastMsg)) as [|Hnear]; [apply Hinv|].
  destruct (negb (Bool.eqb (isSent lastMsg) sent)); [|apply Hinv].
  destruct (sent && negb (isSent lastMsg)); [|apply Hinv].
  destruct ((0 <? t - time lastMsg) && (t - time lastMsg <? 86400)) eqn:Hrt;
    [|apply Hinv].
  cbn [snd]. intros Hin.
  assert (forall l0,
             In l0 (JsMap.values
                      (if JsMap.has (responseTimeStats a) sid then responseTimeStats a
                       else JsMap.set (responseTimeStats a) sid [])) ->
             Forall (fun x => 0 < x <= CONVERSATION_GAP) l0) as Hens.
  { intros l0 H0. destruct (JsMap.has (responseTimeStats a) sid); [now apply Hinv|].
    apply values_set in H0 as [-> | H0]; [constructor | now apply Hinv]. }
  apply values_set in Hin as [-> | Hin]; [|now apply Hens].
  apply Forall_app. split.
  - destruct (JsMap.get _ sid) as [l0|] eqn:Hget; [|constructor].
    apply Hens. now apply get_values in Hget.
  - apply andb_prop in Hrt as [Hpos _]. apply Z.ltb_lt in Hpos.
    constructor; [split; assumption | constructor].
Qed.

(** X23.  Every response sample held at the end of a full scan is more
    than 0 and at most 3600 seconds: a sample is taken inside a
    conversation only, where the gap is at most [CONVERSATION_GAP], so
    that the test [responseTime < 86400] of the code never fails. *)
Theorem response_samples_within_gap (S : Store.t) (pk : jsstring)
  (sessionIds : list jsstring) (a : Acc) :
  fullScan P S pk acc0 sessionIds = Some a ->
  forall sid x, In x (samplesOf a sid) -> 0 < x <= CONVERSATION_GAP.
Proof.
  intros Hscan sid x Hin.
  destruct (fullScan_fold P
              (fun a => forall l, In l (JsMap.values (responseTimeStats a)) ->
                                  Forall (fun x => 0 < x <= CONVERSATION_GAP) l)
              (fun _ => 0) 0) with (S := S) (pk := pk) (sessionIds := sessionIds)
                                   (a := acc0) (a' := a) as [Hinv _];
    try assumption.
  - intros. split; [|reflexivity]. now apply samples_within_gap_conv.
  - intros lt sent row a0 a1 Ha0 Hph.
    apply phraseObserve_fields in Hph as (_ & _ & _ & -> & _). now split.
  - intros. now split.
  - intros. now split.
  - intros l [].
  - unfold samplesOf in Hin.
    destruct (JsMap.get (responseTimeStats a) sid) as [l|] eqn:Hget; [|destruct Hin].
    apply get_values in Hget. apply Hinv in Hget.
    rewrite Forall_forall in Hget. now apply Hget.
Qed.

End ResponseFacts.

Lemma response_samples_within_gap_witness :
  exists a,
    Annual.fullScan Node.cst Sample.hourStore [] Annual.acc0 [Sample.alice] = Some a /\
    In 3600 (Spec.samplesOf a Sample.alice) /\
    0 < 3600 <= Annual.CONVERSATION_GAP.
Proof.
  destruct (Annual.fullScan Node.cst Sample.hourStore [] Annual.acc0 [Sample.alice])
    as [a|] eqn:E; [|vm_compute in E; discriminate E].
  exists a. split; [reflexivity|].
  assert (In 3600 (Spec.samplesOf a Sample.alice)) as Hin.
  { vm_compute in E. injection E as <-. left. reflexivity. }
  split; [exact Hin|].
  exact (response_samples_within_gap Node.cst Sample.hourStore [] [Sample.alice] a E
           Sample.alice 3600 Hin).
Defined.
